(** * ModelWatch: the collection-and-fusion pipeline

    A shallow embedding of the scraping pipeline of [backend/scrapers]:
    [huggingface_scraper.py], [llmstats_scraper.py],
    [llmstats_orchestrator.py] and [simple_orchestrator.py].

    Python [str] values are lists of code points, dictionaries are finite
    maps, [float] is IEEE binary64 (the Standard Library's [spec_float]),
    the fetch cache and the request log are threaded as explicit state,
    and the file system is a finite map from paths to file contents. *)

From Stdlib Require Import ZArith NArith List String Ascii Bool Lia.
From Stdlib Require Import Floats.SpecFloat DecimalString DecimalNat.
From stdpp Require Import base option list gmap strings.

Set Warnings "-register-all".

Open Scope N_scope.

(** ** Python strings *)

(** A [str] is a sequence of Unicode code points. *)
Abbreviation str := (list N).

(** An ASCII literal of the source as a [str]. *)
Definition py (s : string) : str :=
  List.map N_of_ascii (list_ascii_of_string s).

(** What the interpreter's Unicode database says about code points above
    the ASCII range, and the interpreter's limit on integer conversion.
    The ASCII range is written out below; everything else is looked up in
    this table, which the development leaves arbitrary. *)
Class Interp := {
  uni_isspace : N -> bool;
  uni_isalnum : N -> bool;
  uni_isdigit : N -> bool;
  (* the decimal digit value of a code point of category Nd *)
  uni_decimal : N -> option N;
  (* [str.lower] at one code point, given the text before and after it *)
  uni_lower : str -> N -> str -> str;
  uni_upper : N -> str;
  (* re.IGNORECASE: does this code point match that ASCII pattern letter *)
  uni_ignorecase : N -> N -> bool;
  (* the longest digit string [int] converts, where the interpreter has a
     limit (4300 by default since Python 3.11) *)
  int_max_str_digits : option nat
}.

(** The table of an interpreter that knows no cased letter, digit or space
    outside ASCII.  On ASCII text every table agrees with it. *)
Definition ascii_only : Interp := {|
  uni_isspace := fun _ => false;
  uni_isalnum := fun _ => false;
  uni_isdigit := fun _ => false;
  uni_decimal := fun _ => None;
  uni_lower := fun _ c _ => [c];
  uni_upper := fun c => [c];
  uni_ignorecase := fun _ _ => false;
  int_max_str_digits := Some 4300%nat
|}.

Module Py.
Section Strings.
Context {U : Interp}.

Definition is_ascii (c : N) : bool := c <? 128.

Definition between (lo hi c : N) : bool := (lo <=? c) && (c <=? hi).

Definition ascii_isdigit (c : N) : bool := between 48 57 c.
Definition ascii_isupper (c : N) : bool := between 65 90 c.
Definition ascii_islower (c : N) : bool := between 97 122 c.

Definition ascii_lower (c : N) : N := if ascii_isupper c then c + 32 else c.
Definition ascii_upper (c : N) : N := if ascii_islower c then c - 32 else c.

(** [str.isspace] on one code point: TAB..CR, FS..US and SPACE in ASCII. *)
Definition isspace (c : N) : bool :=
  if is_ascii c then between 9 13 c || between 28 32 c else uni_isspace c.

Definition char_isalnum (c : N) : bool :=
  if is_ascii c then ascii_isdigit c || ascii_isupper c || ascii_islower c
  else uni_isalnum c.

Definition char_isdigit (c : N) : bool :=
  if is_ascii c then ascii_isdigit c else uni_isdigit c.

(** The decimal value of a code point that [\d], [int] and [float] accept. *)
Definition decimal_value (c : N) : option N :=
  if is_ascii c then (if ascii_isdigit c then Some (c - 48) else None)
  else uni_decimal c.

Definition char_isdecimal (c : N) : bool :=
  match decimal_value c with Some _ => true | None => false end.

(** [s.isdigit()]: at least one character, all of them digits. *)
Definition isdigit (s : str) : bool :=
  match s with [] => false | _ => forallb char_isdigit s end.

Definition str_eqb (a b : str) : bool := bool_decide (a = b).

Fixpoint startswith (p s : str) : bool :=
  match p, s with
  | [], _ => true
  | _ :: _, [] => false
  | a :: p', b :: s' => (a =? b) && startswith p' s'
  end.

(** [p in s] for strings. *)
Fixpoint contains (p s : str) : bool :=
  startswith p s || match s with [] => false | _ :: s' => contains p s' end.

Definition contains_char (c : N) (s : str) : bool := existsb (N.eqb c) s.

Fixpoint lower_from (before : str) (s : str) : str :=
  match s with
  | [] => []
  | c :: s' =>
      (if is_ascii c then [ascii_lower c] else uni_lower (rev before) c s')
        ++ lower_from (c :: before) s'
  end.

Definition lower (s : str) : str := lower_from [] s.

Definition upper (s : str) : str :=
  flat_map (fun c => if is_ascii c then [ascii_upper c] else uni_upper c) s.

Fixpoint lstrip (s : str) : str :=
  match s with
  | c :: s' => if isspace c then lstrip s' else s
  | [] => []
  end.

Definition rstrip (s : str) : str := rev (lstrip (rev s)).

Definition strip (s : str) : str := rstrip (lstrip s).

(** [s.split()]: the maximal runs of non-space characters. *)
Fixpoint split_ws_from (cur : str) (s : str) : list str :=
  match s with
  | [] => match cur with [] => [] | _ => [rev cur] end
  | c :: s' =>
      if isspace c
      then match cur with
           | [] => split_ws_from [] s'
           | _ => rev cur :: split_ws_from [] s'
           end
      else split_ws_from (c :: cur) s'
  end.

Definition split_ws (s : str) : list str := split_ws_from [] s.

(** [s.split(sep)] for a one-character separator. *)
Fixpoint split_char_from (sep : N) (cur : str) (s : str) : list str :=
  match s with
  | [] => [rev cur]
  | c :: s' =>
      if c =? sep then rev cur :: split_char_from sep [] s'
      else split_char_from sep (c :: cur) s'
  end.

Definition split_char (sep : N) (s : str) : list str :=
  split_char_from sep [] s.

Fixpoint join (sep : str) (parts : list str) : str :=
  match parts with
  | [] => []
  | [p] => p
  | p :: rest => p ++ sep ++ join sep rest
  end.

(** [s.replace(old, new)] for a non-empty [old]: the occurrences are
    replaced from the left and do not overlap. *)
Fixpoint replace_from (old new : str) (skip : nat) (s : str) : str :=
  match s with
  | [] => []
  | c :: s' =>
      match skip with
      | S k => replace_from old new k s'
      | O =>
          if startswith old s
          then new ++ replace_from old new (Nat.pred (length old)) s'
          else c :: replace_from old new O s'
      end
  end.

Definition replace (old new s : str) : str := replace_from old new O s.

(** [int(s)] on a string for which [s.isdigit()] holds, or that a
    pattern over [0-9] captured: the decimal value, or [None] for the
    [ValueError] raised on the empty string, on a digit that is not a
    decimal one, or on more digits than the interpreter converts. *)
Fixpoint int_digits (acc : Z) (s : str) : option Z :=
  match s with
  | [] => Some acc
  | c :: s' =>
      match decimal_value c with
      | Some d => int_digits (10 * acc + Z.of_N d)%Z s'
      | None => None
      end
  end.

(** [str(n)] for a natural number. *)
Definition str_of_nat (n : nat) : str :=
  py (NilEmpty.string_of_uint (Nat.to_uint n)).

Definition int (s : str) : option Z :=
  match s with
  | [] => None
  | _ =>
      match int_max_str_digits with
      | Some lim => if (lim <? length s)%nat then None else int_digits 0%Z s
      | None => int_digits 0%Z s
      end
  end.

End Strings.
End Py.

(** ** Python floats *)

Module Float.
Section Floats.
Context {U : Interp}.

(** Binary64: 53 bits of precision, infinities at exponent 1024. *)
Definition prec : Z := 53%Z.
Definition emax : Z := 1024%Z.

(** The double nearest (ties to even) to [m / 10^k], signed by [neg]:
    one correctly rounded division of two exact integers. *)
Definition of_decimal (neg : bool) (m : Z) (k : nat) : spec_float :=
  match m with
  | Zpos p =>
      SFdiv prec emax (S754_finite neg p 0%Z)
            (S754_finite false (Z.to_pos (10 ^ Z.of_nat k)) 0%Z)
  | _ => S754_zero neg
  end.

(** Python's [==] on floats: the two zeros are equal, NaN equals nothing. *)
Definition eqb (x y : spec_float) : bool := SFeqb x y.

(** The text up to the first ['.'], and the text after it when there is one. *)
Fixpoint break_dot (s : str) : str * option str :=
  match s with
  | [] => ([], None)
  | c :: s' =>
      if c =? 46 then ([], Some s')
      else let '(a, b) := break_dot s' in (c :: a, b)
  end.

Definition unsigned_float (neg : bool) (s : str) : option spec_float :=
  let '(ip, fp) := break_dot s in
  let fp := match fp with Some f => f | None => [] end in
  match ip ++ fp with
  | [] => None
  | ds =>
      match Py.int_digits 0%Z ds with
      | Some m => Some (of_decimal neg m (length fp))
      | None => None
      end
  end.

(** [float(s)] on the strings the patterns of the scrapers capture: an
    optional sign, decimal digits and at most one ['.'], with a digit
    somewhere.  [None] is the [ValueError] of every other string over
    these characters (["."], ["1.2.3"], ["-"]). *)
Definition float (s : str) : option spec_float :=
  match s with
  | 45 :: s' => unsigned_float true s'
  | 43 :: s' => unsigned_float false s'
  | _ => unsigned_float false s
  end.

End Floats.
End Float.

(** ** Regular expressions

    The patterns of the scrapers, matched the way Python's [re] matches
    them: a backtracking search that prefers the leftmost start, the first
    alternative and the longest repetition. *)

Module Re.

Inductive regex : Type :=
| Eps
| Chr (p : N -> bool)
| Seq (a b : regex)
| Alt (a b : regex)
| Star (a : regex)
| LazyStar (a : regex)
| Group (i : nat) (a : regex).

(** [a+] and [a?]; [LazyStar a] is [a*?]. *)
Definition Plus (a : regex) : regex := Seq a (Star a).
Definition Opt (a : regex) : regex := Alt a Eps.

(** The text of the groups that took part in the match, latest first. *)
Definition captures := list (nat * str).

Fixpoint group_of (i : nat) (caps : captures) : option str :=
  match caps with
  | [] => None
  | (j, t) :: caps' => if (i =? j)%nat then Some t else group_of i caps'
  end.

Section Matcher.
Context {R : Type}.

(** [run r caps s k]: match [r] at the head of [s], then hand the captures
    and the rest of the text to [k]; when [k] refuses, backtrack.  A
    repetition runs at most once per remaining character, since an
    iteration that consumes nothing is not repeated. *)
Fixpoint run (r : regex) (caps : captures) (s : str)
    (k : captures -> str -> option R) {struct r} : option R :=
  match r with
  | Eps => k caps s
  | Chr p =>
      match s with
      | c :: s' => if p c then k caps s' else None
      | [] => None
      end
  | Seq a b => run a caps s (fun caps' s' => run b caps' s' k)
  | Alt a b =>
      match run a caps s k with
      | Some x => Some x
      | None => run b caps s k
      end
  | Star a =>
      (fix loop (n : nat) (caps : captures) (s : str) {struct n} : option R :=
         match n with
         | O => k caps s
         | S n' =>
             match run a caps s (fun caps' s' =>
                     if (length s' <? length s)%nat then loop n' caps' s'
                     else None) with
             | Some x => Some x
             | None => k caps s
             end
         end) (S (length s)) caps s
  | LazyStar a =>
      (fix loop (n : nat) (caps : captures) (s : str) {struct n} : option R :=
         match n with
         | O => k caps s
         | S n' =>
             match k caps s with
             | Some x => Some x
             | None =>
                 run a caps s (fun caps' s' =>
                   if (length s' <? length s)%nat then loop n' caps' s'
                   else None)
             end
         end) (S (length s)) caps s
  | Group i a =>
      run a caps s (fun caps' s' =>
        k ((i, firstn (length s - length s') s) :: caps') s')
  end.

End Matcher.

(** A match object: the text before the match, the match ([group(0)]),
    the groups and the text after it. *)
Record match_obj := {
  m_before : str;
  m_text : str;
  m_groups : captures;
  m_rest : str
}.

Definition group (i : nat) (mo : match_obj) : option str :=
  match i with
  | O => Some (m_text mo)
  | _ => group_of i (m_groups mo)
  end.

(** A match starting exactly at the head of [s]; with [must_advance], an
    empty one is refused (the scanner's rule after an empty match). *)
Definition match_here (r : regex) (must_advance : bool) (before s : str)
  : option match_obj :=
  run r [] s (fun caps s' =>
    if must_advance && (length s' =? length s)%nat then None
    else Some {| m_before := before;
                 m_text := firstn (length s - length s') s;
                 m_groups := caps;
                 m_rest := s' |}).

Fixpoint search_from (r : regex) (must_advance : bool) (before : str) (s : str)
  : option match_obj :=
  match match_here r must_advance (rev before) s with
  | Some mo => Some mo
  | None =>
      match s with
      | [] => None
      | c :: s' => search_from r false (c :: before) s'
      end
  end.

(** [re.search(r, s)] *)
Definition search (r : regex) (s : str) : option match_obj :=
  search_from r false [] s.

(** [re.finditer(r, s)]: the successive matches, each search resuming where
    the previous match ended. *)
Fixpoint finditer_fuel (fuel : nat) (r : regex) (must_advance : bool)
    (before : str) (s : str) : list match_obj :=
  match fuel with
  | O => []
  | S fuel' =>
      match search_from r must_advance before s with
      | None => []
      | Some mo =>
          mo :: finditer_fuel fuel' r
                  (match m_text mo with [] => true | _ => false end)
                  (rev (m_text mo) ++ rev (m_before mo)) (m_rest mo)
      end
  end.

Definition finditer (r : regex) (s : str) : list match_obj :=
  finditer_fuel (2 * length s + 2) r false [] s.

(** [re.findall(r, s)] for a pattern with no group, or with exactly one. *)
Definition findall0 (r : regex) (s : str) : list str :=
  List.map m_text (finditer r s).

Definition findall1 (r : regex) (s : str) : list str :=
  List.map (fun mo => default [] (group 1 mo)) (finditer r s).

Section Atoms.
Context {U : Interp}.

Definition chr (c : N) : regex := Chr (N.eqb c).

(** A literal, case-sensitively. *)
Definition lit (s : string) : regex :=
  fold_right (fun c r => Seq (chr c) r) Eps (py s).

Definition ascii_isalpha (c : N) : bool :=
  Py.ascii_isupper c || Py.ascii_islower c.

(** One pattern character under [re.IGNORECASE]. *)
Definition ci_char (p c : N) : bool :=
  if ascii_isalpha p
  then (if Py.is_ascii c then Py.ascii_lower c =? Py.ascii_lower p
        else uni_ignorecase c p)
  else c =? p.

Definition lit_ci (s : string) : regex :=
  fold_right (fun c r => Seq (Chr (ci_char c)) r) Eps (py s).

(** [\d], [\s] and a class listing characters. *)
Definition digit : regex := Chr Py.char_isdecimal.
Definition space : regex := Chr Py.isspace.
Definition one_of (s : string) : regex :=
  Chr (fun c => existsb (N.eqb c) (py s)).
Definition one_of_ci (s : string) : regex :=
  Chr (fun c => existsb (fun p => ci_char p c) (py s)).

(** Concatenation of a list of patterns. *)
Definition cat (rs : list regex) : regex := fold_right Seq Eps rs.

(** [\d+\.?\d*] *)
Definition number : regex := cat [Plus digit; Opt (chr 46); Star digit].

End Atoms.
End Re.

(** ** Values and dictionaries *)

(** A benchmark entry: the dict with keys name, score and category. *)
Record benchmark := {
  name : str;
  score : spec_float;
  category : str
}.

(** The values the scrapers store in a model dictionary. *)
Inductive pyval : Type :=
| VNone
| VBool (b : bool)
| VInt (z : Z)
| VFloat (f : spec_float)
| VStr (s : str)
| VBenchmarks (l : list benchmark).

(** A model dictionary, keyed by the literal keys of the source. *)
Abbreviation pydict := (gmap string pyval).

(** Truth value of a Python object. *)
Definition truthy (v : pyval) : bool :=
  match v with
  | VNone => false
  | VBool b => b
  | VInt z => negb (z =? 0)%Z
  | VFloat f => negb (Float.eqb f (S754_zero false))
  | VStr s => match s with [] => false | _ => true end
  | VBenchmarks l => match l with [] => false | _ => true end
  end.

(** [d.get(k)] *)
Definition get (d : pydict) (k : string) : pyval := default VNone (d !! k).

(** [d.update(e)]: the keys of [e] win. *)
Definition update (d e : pydict) : pydict := e ∪ d.

(** Set a key only when a value was found. *)
Definition set_if {A} (k : string) (f : A -> pyval) (o : option A) (d : pydict)
  : pydict :=
  match o with Some a => <[k := f a]> d | None => d end.

(** ** The parsed document

    What BeautifulSoup hands to the extractors: a tree of elements, with
    their attributes, and text. *)

Inductive node : Type :=
| Text (s : str)
| Elem (tag : string) (attrs : list (string * str)) (children : list node).

Module Soup.

(** [node.text]: the text of the node and of everything below it. *)
Fixpoint text (n : node) : str :=
  match n with
  | Text s => s
  | Elem _ _ cs => flat_map text cs
  end.

(** Everything below a node, in document order. *)
Fixpoint descendants (n : node) : list node :=
  match n with
  | Text _ => []
  | Elem _ _ cs => flat_map (fun c => c :: descendants c) cs
  end.

Definition has_tag (tags : list string) (n : node) : bool :=
  match n with
  | Text _ => false
  | Elem t _ _ => existsb (String.eqb t) tags
  end.

(** [node.find_all(tags)] *)
Definition find_all (tags : list string) (n : node) : list node :=
  List.filter (has_tag tags) (descendants n).

Fixpoint assoc (k : string) (l : list (string * str)) : option str :=
  match l with
  | [] => None
  | (k', v) :: l' => if String.eqb k k' then Some v else assoc k l'
  end.

(** [tag.get(k)] *)
Definition attr (k : string) (n : node) : option str :=
  match n with
  | Text _ => None
  | Elem _ attrs _ => assoc k attrs
  end.

(** [node.find(tag, k=test)]: the first element of that name whose
    attribute [k] is present and passes the test. *)
Definition find_attr (tag k : string) (test : str -> bool) (n : node)
  : option node :=
  List.find
    (fun e => match attr k e with Some v => test v | None => false end)
    (find_all [tag] n).

End Soup.

(** ** huggingface_scraper.py *)

Module HuggingFaceScraper.
Section Extraction.
Context {U : Interp}.

Import Re.

(** [_extract_license]: the anchor to a license page, then the meta tag,
    then the [license:] line of the card text; the first one present
    decides, even when its text is empty. *)
Definition _extract_license (soup : node) : option str :=
  match Soup.find_attr "a" "href"
          (fun v => bool_decide (is_Some (search (lit "/license") v))) soup with
  | Some license_element => Some (Py.strip (Soup.text license_element))
  | None =>
      match Soup.find_attr "meta" "name" (Py.str_eqb (py "license")) soup with
      | Some meta_license =>
          Some (Py.strip (default [] (Soup.attr "content" meta_license)))
      | None =>
          match search
                  (cat [lit "license:"; Star space;
                        Group 1 (Plus (Chr (fun c => negb (c =? 10))))])
                  (Soup.text soup) with
          | Some yaml_match => Some (Py.strip (default [] (group 1 yaml_match)))
          | None => None
          end
      end
  end.

Definition open_source_licenses : list str :=
  List.map py ["mit"; "apache"; "apache-2.0"; "gpl"; "bsd"; "cc-by";
               "llama"; "openrail"; "bigscience"; "deepseek"]%string.

Definition _is_open_source_license (license_name : str) : bool :=
  let license_lower := Py.lower license_name in
  existsb (fun oss => Py.contains oss license_lower) open_source_licenses.

Definition colon_or_space : regex := Chr (fun c => (c =? 58) || Py.isspace c).
Definition digit_or_comma : regex := one_of "0123456789,".

(** [_extract_metadata]: the context window, when its digits convert. *)
Definition _extract_metadata (soup : node) : pydict :=
  match search
          (cat [lit_ci "context"; one_of "_ ";
                Alt (lit_ci "window") (lit_ci "length");
                Star colon_or_space; Group 1 (Plus digit_or_comma)])
          (Soup.text soup) with
  | Some context_match =>
      let context_str :=
        Py.replace (py ",") [] (default [] (group 1 context_match)) in
      match Py.int context_str with
      | Some n => {[ "context_window"%string := VInt n ]}
      | None => ∅
      end
  | None => ∅
  end.

Definition any_in (keywords : list string) (s : str) : bool :=
  existsb (fun x => Py.contains (py x) s) keywords.

Definition _categorize_benchmark (name : str) : str :=
  let name_lower := Py.lower name in
  if any_in ["code"; "swe"; "humaneval"; "livecode"]%string name_lower
  then py "coding"
  else if any_in ["math"; "gsm"; "aime"; "hmmt"]%string name_lower
  then py "reasoning"
  else if any_in ["agent"; "tool"; "browse"]%string name_lower
  then py "agents"
  else if any_in ["mmlu"; "gpqa"; "reasoning"]%string name_lower
  then py "reasoning"
  else py "general".

(** [(name)[:\s]+([0-9.]+)%?], ignoring case *)
Definition text_pattern (name_re : regex) : regex :=
  cat [Group 1 name_re; Plus colon_or_space;
       Group 2 (Plus (one_of "0123456789.")); Opt (chr 37)].

Definition patterns : list regex :=
  List.map text_pattern
    [ cat [lit_ci "MMLU"; one_of "- "; lit_ci "Pro"];
      cat [lit_ci "GPQA"; one_of "- "; lit_ci "Diamond"];
      cat [lit_ci "SWE"; one_of "- "; lit_ci "bench"];
      lit_ci "HumanEval";
      cat [lit_ci "AIME"; one_of "- "; Plus digit];
      lit_ci "LiveCodeBench";
      lit_ci "GSM8K" ].

Definition benchmark_of_match (mo : match_obj) : list benchmark :=
  let name := Py.strip (default [] (group 1 mo)) in
  match Float.float (default [] (group 2 mo)) with
  | Some score =>
      [ {| name := name; score := score;
           category := _categorize_benchmark name |} ]
  | None => []
  end.

Definition _extract_benchmarks_from_text (text : str) : list benchmark :=
  flat_map (fun pattern => flat_map benchmark_of_match (finditer pattern text))
           patterns.

(** The key a benchmark is de-duplicated by, and its equality (that of
    the tuple [(name, score)]). *)
Definition same_key (a b : benchmark) : bool :=
  Py.str_eqb (name a) (name b) && Float.eqb (score a) (score b).

(** The loop over [benchmarks] with the [seen] set: an entry is kept when
    its key was not seen before. *)
Fixpoint unique_from (seen : list benchmark) (benchmarks : list benchmark)
  : list benchmark :=
  match benchmarks with
  | [] => []
  | b :: rest =>
      if existsb (same_key b) seen then unique_from seen rest
      else b :: unique_from (b :: seen) rest
  end.

(** One row of a table: at least two cells, and a number in the second. *)
Definition benchmark_of_row (row : node) : list benchmark :=
  match Soup.find_all ["td"; "th"]%string row with
  | c0 :: c1 :: _ =>
      let benchmark_name := Py.strip (Soup.text c0) in
      let score_text := Py.strip (Soup.text c1) in
      match search (Group 1 number) score_text with
      | Some score_match =>
          match Float.float (default [] (group 1 score_match)) with
          | Some score =>
              [ {| name := benchmark_name; score := score;
                   category := _categorize_benchmark benchmark_name |} ]
          | None => []
          end
      | None => []
      end
  | _ => []
  end.

(** The list before the duplicates are removed: the rows of every table,
    then the mentions in the text. *)
Definition raw_benchmarks (soup : node) : list benchmark :=
  flat_map (fun table => flat_map benchmark_of_row (Soup.find_all ["tr"]%string table))
           (Soup.find_all ["table"]%string soup)
  ++ _extract_benchmarks_from_text (Soup.text soup).

Definition _extract_benchmarks (soup : node) : list benchmark :=
  unique_from [] (raw_benchmarks soup).

Definition _extract_description (soup : node) : option str :=
  match Soup.find_attr "meta" "name" (Py.str_eqb (py "description")) soup with
  | Some meta_desc => Some (Py.strip (default [] (Soup.attr "content" meta_desc)))
  | None =>
      head
        (flat_map (fun p =>
                     let text := Py.strip (Soup.text p) in
                     if (50 <? length text)%nat then [firstn 500 text] else [])
                  (firstn 3 (Soup.find_all ["p"]%string soup)))
  end.

(** A word and its optional plural [s], ignoring case. *)
Definition plural (word : string) : regex :=
  cat [lit_ci word; Opt (Chr (ci_char 115))].

(** [([0-9,]+)\s*words?] *)
Definition count_before (word : string) : regex :=
  cat [Group 1 (Plus digit_or_comma); Star space; plural word].

Definition stat (key word : string) (text : str) : pydict :=
  match search (count_before word) text with
  | Some mo =>
      match Py.int (Py.replace (py ",") [] (default [] (group 1 mo))) with
      | Some n => {[ key := VInt n ]}
      | None => ∅
      end
  | None => ∅
  end.

Definition _extract_stats (soup : node) : pydict :=
  let stats := stat "downloads" "download" (Soup.text soup) in
  update stats (stat "likes" "like" (Soup.text soup)).

Definition param_count : regex := cat [number; one_of_ci "BMK"].

Definition param_patterns : list regex :=
  [ cat [Group 1 param_count; Star space; plural "parameter"];
    cat [plural "parameter"; Plus colon_or_space; Group 1 param_count] ].

Fixpoint first_search (rs : list regex) (s : str) : option match_obj :=
  match rs with
  | [] => None
  | r :: rs' =>
      match search r s with
      | Some mo => Some mo
      | None => first_search rs' s
      end
  end.

Definition _extract_parameters (soup : node) (html : str) : option str :=
  match first_search param_patterns html with
  | Some mo => Some (Py.upper (default [] (group 1 mo)))
  | None => None
  end.

Definition arxiv_number : regex := cat [Plus digit; chr 46; Plus digit].

Definition _extract_arxiv (soup : node) (html : str) : option str :=
  match search (cat [lit_ci "arxiv"; Plus colon_or_space; Group 1 arxiv_number])
               html with
  | Some arxiv_match => group 1 arxiv_match
  | None =>
      match Soup.find_attr "a" "href"
              (fun v => bool_decide (is_Some (search (lit "arxiv.org") v)))
              soup with
      | Some arxiv_link =>
          match search (Group 1 arxiv_number)
                       (default [] (Soup.attr "href" arxiv_link)) with
          | Some link_match => group 1 link_match
          | None => None
          end
      | None => None
      end
  end.

Definition nonempty (o : option str) : option str :=
  match o with Some [] => None | _ => o end.

(** [_parse_model_page]; [soup] is the parse of [html]. *)
Definition _parse_model_page (html : str) (soup : node) (model_id : str)
  : pydict :=
  let parts := Py.split_char 47 model_id in
  let model_data : pydict :=
    {[ "model_id"%string := VStr model_id;
       "model_name"%string := VStr (List.last parts []);
       "organization"%string :=
         VStr (if Py.contains_char 47 model_id then List.hd [] parts else []);
       "is_open_source"%string := VBool false;
       "benchmarks"%string := VBenchmarks [] ]} in
  let model_data :=
    match nonempty (_extract_license soup) with
    | Some license_info =>
        <[ "is_open_source"%string := VBool (_is_open_source_license license_info) ]>
          (<[ "license"%string := VStr license_info ]> model_data)
    | None => model_data
    end in
  let model_data := update model_data (_extract_metadata soup) in
  let model_data :=
    <[ "benchmarks"%string := VBenchmarks (_extract_benchmarks soup) ]> model_data in
  let model_data :=
    set_if "description" VStr (nonempty (_extract_description soup)) model_data in
  let model_data := update model_data (_extract_stats soup) in
  let model_data :=
    set_if "parameters" VStr (nonempty (_extract_parameters soup html)) model_data in
  set_if "arxiv_id" VStr (nonempty (_extract_arxiv soup html)) model_data.

End Extraction.

(** *** Fetching

    What one GET gives back to [scrape_model]: a response with its status,
    its body and the parse of the body, or an exception of the client. *)
Inductive http_result : Type :=
| Response (status_code : N) (text : str) (soup : node)
| RequestError.

(** The remote site: the outcome of the [k]-th request for a URL. *)
Definition site := str -> nat -> http_result.

(** A scraper instance: its cache, and the requests it has sent so far
    (oldest first), kept to observe the traffic. *)
Record scraper := {
  _cache : gmap str (option pydict);
  requests : list str
}.

(** [HuggingFaceScraper()] *)
Definition new : scraper := {| _cache := ∅; requests := [] |}.

Definition base_url : str := py "https://huggingface.co".

Definition url_of (model_id : str) : str := base_url ++ py "/" ++ model_id.

Definition times_requested (url : str) (st : scraper) : nat :=
  length (List.filter (fun u => bool_decide (u = url)) (requests st)).

(** [response.raise_for_status()] raises unless the status is 2xx. *)
Definition is_success (status_code : N) : bool :=
  (200 <=? status_code) && (status_code <=? 299).

Section Fetching.
Context {U : Interp}.
Variable web : site.

(** [scrape_model]: a cached identifier is answered from the cache;
    otherwise one request is sent.  A 404 is cached as [None], a parsed
    page is cached as the record; a 429, any other failing status and any
    exception give [None] and leave the cache as it was. *)
Definition scrape_model (st : scraper) (model_id : str)
  : option pydict * scraper :=
  match _cache st !! model_id with
  | Some cached => (cached, st)
  | None =>
      let url := url_of model_id in
      let sent := {| _cache := _cache st; requests := requests st ++ [url] |} in
      match web url (times_requested url st) with
      | Response status_code text soup =>
          if status_code =? 404
          then (None, {| _cache := <[model_id := None]> (_cache sent);
                         requests := requests sent |})
          else if status_code =? 429 then (None, sent)
          else if is_success status_code
          then let result := _parse_model_page text soup model_id in
               (Some result,
                {| _cache := <[model_id := Some result]> (_cache sent);
                   requests := requests sent |})
          else (None, sent)
      | RequestError => (None, sent)
      end
  end.

(** [list(dict.fromkeys(ids))]: the first occurrence of each identifier. *)
Fixpoint fromkeys_from (seen : list str) (ids : list str) : list str :=
  match ids with
  | [] => []
  | x :: rest =>
      if bool_decide (x ∈ seen) then fromkeys_from seen rest
      else x :: fromkeys_from (x :: seen) rest
  end.

Definition fromkeys (ids : list str) : list str := fromkeys_from [] ids.

(** [asyncio.gather] over one batch.  The identifiers of a batch are
    distinct, so no task reads a cache entry another task of the batch
    writes, and running the tasks one after the other gives the results
    and the cache of every interleaving. *)
Fixpoint gather (st : scraper) (batch : list str)
  : list (option pydict) * scraper :=
  match batch with
  | [] => ([], st)
  | model_id :: rest =>
      let '(r, st1) := scrape_model st model_id in
      let '(rs, st2) := gather st1 rest in
      (r :: rs, st2)
  end.

(** The loop over [range(0, len(unique_ids), max_concurrent)]. *)
Fixpoint batches (fuel : nat) (st : scraper) (max_concurrent : nat)
    (unique_ids : list str) : list pydict * scraper :=
  match fuel, unique_ids with
  | S fuel', _ :: _ =>
      let '(batch_results, st1) := gather st (firstn max_concurrent unique_ids) in
      let '(results, st2) :=
        batches fuel' st1 max_concurrent (skipn max_concurrent unique_ids) in
      (omap id batch_results ++ results, st2)
  | _, _ => ([], st)
  end.

(** [scrape_models_batch]; the batch size is positive (3 at every call). *)
Definition scrape_models_batch (st : scraper) (model_ids : list str)
    (max_concurrent : positive) : list pydict * scraper :=
  let unique_ids := fromkeys model_ids in
  batches (length unique_ids) st (Pos.to_nat max_concurrent) unique_ids.

End Fetching.
End HuggingFaceScraper.

(** ** llmstats_scraper.py *)

(** A value [json.loads] returns. *)
Inductive json : Type :=
| JNull
| JBool (b : bool)
| JInt (z : Z)
| JFloat (f : spec_float)
| JStr (s : str)
| JList (l : list json)
| JDict (items : list (str * json)).

Module LLMStatsScraper.

(** A row handle of the rendered page: the inner text of its cells
    ([td, [role='cell']]), or a handle on which the browser calls raise. *)
Inductive row : Type :=
| Cells (texts : list str)
| Stale.

(** The rendered page: the rows each selector finds and the page source,
    [None] where the browser call raises. *)
Record page := {
  table_rows : option (list row);
  alternative_rows : option (list row);
  content : option str
}.

(** How the browser session went. *)
Inductive session : Type :=
| LaunchFailed
| TimedOut
| Crashed
| Loaded (p : page).

Section Scraper.
Context {U : Interp}.

Import Re.

(** [_extract_score]: the first number of the cell, with its sign. *)
Definition _extract_score (text : str) : option spec_float :=
  match findall0 (cat [Opt (chr 45); number]) text with
  | first :: _ => Float.float first
  | [] => None
  end.

(** [_extract_price]: the first number of a text like ["$0.60"]. *)
Definition _extract_price (text : str) : option spec_float :=
  match findall1 (cat [Opt (chr 36); Group 1 number]) text with
  | first :: _ => Float.float first
  | [] => None
  end.

Definition any_in (keywords : list string) (s : str) : bool :=
  existsb (fun x => Py.contains (py x) s) keywords.

Definition _categorize_benchmark (name : str) : str :=
  let name_lower := Py.lower name in
  if any_in ["code"; "human"; "swe"; "live"]%string name_lower
  then py "coding"
  else if any_in ["math"; "gsm"; "aime"; "gpqa"]%string name_lower
  then py "reasoning"
  else if any_in ["mmlu"; "arc"; "truthful"; "winogrande"]%string name_lower
  then py "knowledge"
  else py "general".

Definition benchmark_names : list str :=
  List.map py ["MMLU"; "Arc-Challenge"; "HellaSwag"; "TruthfulQA";
               "Winogrande"; "GSM8K"; "GPQA"; "AIME"; "MATH";
               "HumanEval"]%string.

(** The name of the score at position [score_index]. *)
Definition benchmark_name_at (score_index : nat) : str :=
  match benchmark_names !! score_index with
  | Some benchmark_name => benchmark_name
  | None => py "Benchmark_" ++ Py.str_of_nat (score_index + 1)
  end.

(** The loop of [_parse_benchmarks_from_cells], from a given [score_index]. *)
Fixpoint parse_benchmarks_from (score_index : nat) (cells : list str)
  : list benchmark :=
  match cells with
  | [] => []
  | cell :: rest =>
      if Py.contains_char 37 cell
      then match _extract_score cell with
           | Some score =>
               let benchmark_name := benchmark_name_at score_index in
               {| name := benchmark_name; score := score;
                  category := _categorize_benchmark benchmark_name |}
                 :: parse_benchmarks_from (S score_index) rest
           | None => parse_benchmarks_from score_index rest
           end
      else parse_benchmarks_from score_index rest
  end.

Definition _parse_benchmarks_from_cells (cells : list str) : list benchmark :=
  parse_benchmarks_from 0 cells.

(** [_extract_parameters_from_cells]: the first all-digit cell between 1
    and 1000.  The outer [None] is the [ValueError] of [int] on an
    all-digit cell it cannot convert. *)
Fixpoint _extract_parameters_from_cells (cells : list str)
  : option (option str) :=
  match cells with
  | [] => Some None
  | cell :: rest =>
      if Py.isdigit cell
      then match Py.int cell with
           | Some num =>
               if ((1 <=? num) && (num <=? 1000))%Z
               then Some (Some (Py.str_of_nat (Z.to_nat num) ++ py "B"))
               else _extract_parameters_from_cells rest
           | None => None
           end
      else _extract_parameters_from_cells rest
  end.

Definition org_mapping : list (string * string) :=
  [ ("glm", "THUDM"); ("kimi", "MoonshotAI"); ("mimo", "AIDC-AI");
    ("qwen", "Qwen"); ("yi", "01-ai"); ("deepseek", "deepseek-ai");
    ("llama", "meta-llama"); ("mistral", "mistralai");
    ("mixtral", "mistralai"); ("gemma", "google"); ("gemini", "google");
    ("phi", "microsoft"); ("gpt", "openai"); ("claude", "anthropic");
    ("nemotron", "nvidia"); ("hermes", "NousResearch");
    ("nous", "NousResearch"); ("solar", "upstage");
    ("commandr", "CohereForAI"); ("aya", "CohereForAI") ]%string.

Definition _extract_model_id (model_name : str) : str :=
  if Py.contains_char 47 model_name then model_name
  else
    let name_lower := Py.lower model_name in
    match List.find (fun '(pattern, _) => Py.contains (py pattern) name_lower)
                    org_mapping with
    | Some (_, org) => py org ++ py "/" ++ model_name
    | None => py "unknown/" ++ model_name
    end.

(** The text of one cell, cleaned as in the loop over [cells]. *)
Definition clean (text : str) : str :=
  let cleaned :=
    Py.replace [9] (py " ") (Py.replace [10] (py " ") (Py.strip text)) in
  Py.join (py " ") (Py.split_ws cleaned).

Definition cell_values_of (texts : list str) : list str :=
  List.filter (fun cleaned => match cleaned with [] => false | _ => true end)
              (List.map clean texts).

(** The search for the name cell: the first cell longer than two
    characters, without ['$'], not all digits, with an alphanumeric
    character; its text without ["NEW"], and its index. *)
Fixpoint find_model_name (i : nat) (cell_values : list str)
  : option (str * nat) :=
  match cell_values with
  | [] => None
  | cell :: rest =>
      if (2 <? length cell)%nat && negb (Py.contains_char 36 cell)
         && negb (Py.isdigit cell) && existsb Py.char_isalnum cell
      then Some (Py.strip (Py.replace (py "NEW") [] cell), i)
      else find_model_name (S i) rest
  end.

Definition price_at (cell_values : list str) (idx : nat) : option spec_float :=
  match cell_values !! idx with
  | Some price => if Py.contains_char 36 price then _extract_price price else None
  | None => None
  end.

Definition opt_val {A} (f : A -> pyval) (o : option A) : pyval :=
  match o with Some a => f a | None => VNone end.

(** The dictionary [_extract_model_from_row] returns. *)
Definition record_of (cell_values : list str) (model_name : str)
    (model_name_index : nat) (parameters : option str) : pydict :=
  let pricing_start_idx := (model_name_index + 1)%nat in
  let input_price := price_at cell_values pricing_start_idx in
  let output_price := price_at cell_values (pricing_start_idx + 1) in
  let benchmarks := _parse_benchmarks_from_cells cell_values in
  let model_id := _extract_model_id model_name in
  {[ "model_id"%string := VStr model_id;
     "model_name"%string := VStr model_name;
     "organization"%string :=
       VStr (if Py.contains_char 47 model_id
             then List.hd [] (Py.split_char 47 model_id)
             else py "unknown");
     "benchmarks"%string := VBenchmarks benchmarks;
     "source"%string := VStr (py "llm-stats.com");
     "is_open_source"%string := VBool true;
     "input_price_per_1m"%string := opt_val VFloat input_price;
     "output_price_per_1m"%string := opt_val VFloat output_price;
     "parameters"%string := opt_val VStr parameters ]}.

(** The steps of [_extract_model_from_row] on the cleaned cells: the name,
    the header test, the prices, the benchmarks, the identifier and the
    parameters (whose [ValueError] ends the row). *)
Definition model_of_cell_values (cell_values : list str) : option pydict :=
  if (length cell_values <? 2)%nat then None
  else
    match find_model_name 0 cell_values with
    | None => None
    | Some (model_name, model_name_index) =>
        if (length model_name <? 2)%nat then None
        else if any_in ["rank"; "model"; "position"; "name"]%string
                       (Py.lower model_name)
        then None
        else
          match _extract_parameters_from_cells cell_values with
          | None => None
          | Some parameters =>
              Some (record_of cell_values model_name model_name_index
                              parameters)
          end
    end.

(** [_extract_model_from_row]; [None] is the [None] of the source, also
    returned when anything raises. *)
Definition _extract_model_from_row (r : row) : option pydict :=
  match r with
  | Stale => None
  | Cells texts => model_of_cell_values (cell_values_of texts)
  end.

(** *** The fallback on the page source *)

Definition json_truthy (v : json) : bool :=
  match v with
  | JNull => false
  | JBool b => b
  | JInt z => negb (z =? 0)%Z
  | JFloat f => negb (Float.eqb f (S754_zero false))
  | JStr s => match s with [] => false | _ => true end
  | JList l => match l with [] => false | _ => true end
  | JDict items => match items with [] => false | _ => true end
  end.

Fixpoint json_get (k : str) (items : list (str * json)) : option json :=
  match items with
  | [] => None
  | (k', v) :: rest => if Py.str_eqb k k' then Some v else json_get k rest
  end.

(** [item.get('model') or item.get('name') or item.get('modelId', '')] *)
Definition json_model_name (item : list (str * json)) : json :=
  let a := default JNull (json_get (py "model") item) in
  if json_truthy a then a
  else
    let b := default JNull (json_get (py "name") item) in
    if json_truthy b then b
    else default (JStr []) (json_get (py "modelId") item).

(** [_normalize_json_model]; [None] when it raises, which it does on every
    name that is not a string ([in], [lower] or [split] fails on it). *)
Definition _normalize_json_model (item : list (str * json)) : option pydict :=
  match json_model_name item with
  | JStr model_name =>
      Some
        {[ "model_id"%string := VStr (_extract_model_id model_name);
           "model_name"%string := VStr model_name;
           "organization"%string :=
             VStr (if Py.contains_char 47 model_name
                   then List.hd [] (Py.split_char 47 model_name)
                   else py "unknown");
           "benchmarks"%string := VBenchmarks [];
           "source"%string := VStr (py "llm-stats.com");
           "is_open_source"%string := VBool true ]}
  | _ => None
  end.

Definition is_json_str (s : str) (v : json) : bool :=
  match v with JStr t => Py.str_eqb s t | _ => false end.

(** One item of a decoded list: the records it adds ([Some []] when it is
    skipped), or [None] when the test or the normalisation raises.  The
    test reads [(isinstance(item, dict) and 'model' in item) or 'name' in
    item]. *)
Definition models_of_item (item : json) : option (list pydict) :=
  match item with
  | JDict items =>
      if bool_decide (is_Some (json_get (py "model") items))
         || bool_decide (is_Some (json_get (py "name") items))
      then m ← _normalize_json_model items; Some [m]
      else Some []
  | JStr s => if Py.contains (py "name") s then None else Some []
  | JList l => if existsb (is_json_str (py "name")) l then None else Some []
  | _ => None
  end.

Fixpoint models_of_items (items : list json) : option (list pydict) :=
  match items with
  | [] => Some []
  | item :: rest =>
      a ← models_of_item item; b ← models_of_items rest; Some (a ++ b)
  end.

(** [(?:data|models|leaderboard)\s*[=:]\s*(\[{.*?}\])], with DOTALL *)
Definition json_pattern : regex :=
  cat [Alt (lit "data") (Alt (lit "models") (lit "leaderboard"));
       Star space; one_of "=:"; Star space;
       Group 1 (cat [lit "[{"; LazyStar (Chr (fun _ => true)); lit "}]"])].

Variable json_loads : str -> option json.

Fixpoint models_of_matches (matches : list str) : option (list pydict) :=
  match matches with
  | [] => Some []
  | m :: rest =>
      a ← match json_loads m with
          | Some (JList data) => models_of_items data
          | _ => Some []
          end;
      b ← models_of_matches rest;
      Some (a ++ b)
  end.

(** [_extract_from_page_source]; [None] when it raises. *)
Definition _extract_from_page_source (html : str) : option (list pydict) :=
  models_of_matches (findall1 json_pattern html).

(** [_extract_models]: the rows of the first selector that finds any; the
    page source only when a selector raises. *)
Definition _extract_models (p : page) : list pydict :=
  let rows :=
    match table_rows p with
    | Some [] => alternative_rows p
    | found => found
    end in
  match rows with
  | Some rows => omap _extract_model_from_row rows
  | None =>
      match content p with
      | Some script_content =>
          default [] (_extract_from_page_source script_content)
      | None => []
      end
  end.

(** [scrape_leaderboard]; [None] when launching the browser raises. *)
Definition scrape_leaderboard (s : session) : option (list pydict) :=
  match s with
  | LaunchFailed => None
  | TimedOut => Some []
  | Crashed => Some []
  | Loaded p => Some (_extract_models p)
  end.

End Scraper.
End LLMStatsScraper.

(** ** The snapshot file *)

Module Store.

(** The files on disk, by path. *)
Abbreviation files := (gmap string str).

(** What [_save_data] asks of the file system, in order. *)
Inductive op : Type :=
| MkdirParents (path : string)
| OpenTruncate (path : string)
| Write (path : string) (chunk : str)
| Close (path : string).

(** ['w'] empties the file when it opens it; a write appends.  A chunk
    is on disk as soon as it is written: the buffer of Python's file
    object, which may hold the end of the text back until the file is
    flushed, is not modelled, so before [Close] the disk state is the
    most the file can hold by then. *)
Definition apply (fs : files) (o : op) : files :=
  match o with
  | MkdirParents _ => fs
  | OpenTruncate path => <[path := []]> fs
  | Write path chunk => <[path := default [] (fs !! path) ++ chunk]> fs
  | Close _ => fs
  end.

Definition run (ops : list op) (fs : files) : files := fold_left apply ops fs.

(** A run that stops before operation [n]: the operation raised, or the
    process was interrupted there. *)
Definition run_until (n : nat) (ops : list op) (fs : files) : files :=
  run (firstn n ops) fs.

(** Whether the whole sequence runs, when the operation [fail_at] (if
    any) is the one that fails. *)
Definition completes (fail_at : option nat) (ops : list op) : bool :=
  match fail_at with
  | Some n => (length ops <=? n)%nat
  | None => true
  end.

Definition run_failing (fail_at : option nat) (ops : list op) (fs : files)
  : files :=
  match fail_at with
  | Some n => run_until n ops fs
  | None => run ops fs
  end.

End Store.

(** The object [_save_data] serialises. *)
Record output_data := {
  models : list pydict;
  total_count : nat;
  last_updated : str;
  metadata : pydict
}.

(** [len(v)], [None] where it raises. *)
Definition py_len (v : pyval) : option nat :=
  match v with
  | VStr s => Some (length s)
  | VBenchmarks l => Some (length l)
  | _ => None
  end.

(** The identifier of a record.  Both scrapers store a string under
    [model_id]; a record without the key, or with another value there,
    reads as the empty identifier. *)
Definition id_of (m : pydict) : str :=
  match m !! "model_id"%string with
  | Some (VStr s) => s
  | _ => []
  end.

Section Saving.

(** [json.dump(output_data, f, indent=2, ensure_ascii=False)]: the chunks
    the encoder writes, in order. *)
Variable json_chunks : output_data -> list str.

Definition dump_ops (path : string) (out : output_data) : list Store.op :=
  [Store.MkdirParents path; Store.OpenTruncate path]
    ++ List.map (Store.Write path) (json_chunks out)
    ++ [Store.Close path].

End Saving.

(** ** llmstats_orchestrator.py *)

Module LLMStatsOrchestrator.

(** What a run reads and changes: the cache and traffic of the
    HuggingFace scraper, and the disk. *)
Record world := {
  hf_scraper : HuggingFaceScraper.scraper;
  disk : Store.files
}.

Section Orchestrator.
Context {U : Interp}.
Variable web : HuggingFaceScraper.site.
Variable json_loads : str -> option json.
Variable json_chunks : output_data -> list str.
Variable output_file : string.

Definition hf_url (model_id : str) : pyval :=
  VStr (py "https://huggingface.co/" ++ model_id).

(** [{m['model_id']: m for m in hf_models if m.get('model_id')}] *)
Definition hf_data_map_of (hf_models : list pydict) : gmap str pydict :=
  fold_left
    (fun acc m => if truthy (get m "model_id") then <[id_of m := m]> acc else acc)
    hf_models ∅.

(** The record of a model for which HuggingFace data was found. *)
Definition merge (model hf_data : pydict) : pydict :=
  let merged_model : pydict :=
    <[ "hf_url"%string := hf_url (id_of model) ]>
    (<[ "hf_last_modified"%string := get hf_data "last_modified" ]>
    (<[ "hf_created_at"%string := get hf_data "created_at" ]>
    (<[ "hf_likes"%string := get hf_data "likes" ]>
    (<[ "hf_downloads"%string := get hf_data "downloads" ]>
    (<[ "hf_context_window"%string := get hf_data "context_window" ]>
    (<[ "hf_parameters"%string := get hf_data "parameters" ]>
    (<[ "hf_license"%string := get hf_data "license" ]> model))))))) in
  if truthy (get hf_data "benchmarks")
  then <[ "hf_benchmarks"%string := get hf_data "benchmarks" ]> merged_model
  else merged_model.

Definition enrich_one (hf_data_map : gmap str pydict) (model : pydict)
  : pydict :=
  let model_id := id_of model in
  match hf_data_map !! model_id with
  | Some hf_data => merge model hf_data
  | None => <[ "hf_url"%string := hf_url model_id ]> model
  end.

Definition _enrich_with_huggingface (st : HuggingFaceScraper.scraper)
    (models : list pydict) : list pydict * HuggingFaceScraper.scraper :=
  let model_ids :=
    List.map id_of (List.filter (fun m => truthy (get m "model_id")) models) in
  let '(hf_models, st1) :=
    HuggingFaceScraper.scrape_models_batch web st model_ids 3 in
  let hf_data_map := hf_data_map_of hf_models in
  (List.map (enrich_one hf_data_map) models, st1).

(** [sum(len(m.get('benchmarks', [])) for m in models)] *)
Fixpoint count_benchmarks (models : list pydict) : option nat :=
  match models with
  | [] => Some 0%nat
  | m :: rest =>
      a ← py_len (default (VBenchmarks []) (m !! "benchmarks"%string));
      b ← count_benchmarks rest;
      Some (a + b)%nat
  end.

Definition is_enriched (m : pydict) : bool :=
  truthy (get m "hf_license") || truthy (get m "hf_benchmarks").

Definition build_output (models : list pydict) (total_benchmarks : nat)
    (now : str) : output_data :=
  {| models := models;
     total_count := length models;
     last_updated := now;
     metadata :=
       {[ "primary_source"%string := VStr (py "llm-stats.com");
          "secondary_source"%string := VStr (py "HuggingFace");
          "hf_enriched_count"%string :=
            VInt (Z.of_nat (length (List.filter is_enriched models)));
          "total_benchmarks"%string := VInt (Z.of_nat total_benchmarks);
          "open_source_only"%string := VBool true ]} |}.

(** [_save_data]: the flag tells whether it returned; it raises when a
    count cannot be taken or when a file operation fails. *)
Definition _save_data (models : list pydict) (now : str)
    (fail_at : option nat) (fs : Store.files) : bool * Store.files :=
  match count_benchmarks models with
  | None => (false, fs)
  | Some total_benchmarks =>
      let ops := dump_ops json_chunks output_file
                          (build_output models total_benchmarks now) in
      (Store.completes fail_at ops, Store.run_failing fail_at ops fs)
  end.

(** [collect_all_data]; the result is [None] when the run raises. *)
Definition collect_all_data (s : LLMStatsScraper.session)
    (enrich_with_hf : bool) (now : str) (fail_at : option nat) (w : world)
  : option (list pydict) * world :=
  match LLMStatsScraper.scrape_leaderboard json_loads s with
  | None => (None, w)
  | Some [] => (Some [], w)
  | Some models =>
      let '(models, st) :=
        if enrich_with_hf then _enrich_with_huggingface (hf_scraper w) models
        else (models, hf_scraper w) in
      let '(saved, fs) := _save_data models now fail_at (disk w) in
      (if saved then Some models else None,
       {| hf_scraper := st; disk := fs |})
  end.

End Orchestrator.
End LLMStatsOrchestrator.

(** ** simple_orchestrator.py *)

Module SimpleOrchestrator.
Section Orchestrator.
Context {U : Interp}.
Variable web : HuggingFaceScraper.site.
Variable json_chunks : output_data -> list str.
Variable output_file : string.

Definition build_output (models : list pydict) (now : str) : output_data :=
  {| models := models;
     total_count := length models;
     last_updated := now;
     metadata :=
       {[ "source"%string := VStr (py "HuggingFace");
          "open_source_only"%string := VBool true ]} |}.

Definition _save_data (models : list pydict) (now : str)
    (fail_at : option nat) (fs : Store.files) : bool * Store.files :=
  let ops := dump_ops json_chunks output_file (build_output models now) in
  (Store.completes fail_at ops, Store.run_failing fail_at ops fs).

(** [collect_all_data], from the identifiers [fetch_models_from_hf_api]
    returned: the request to the API that fetched them comes before and
    is not part of this function; [max_models] is not negative. *)
Definition collect_all_data (fetched_ids : list str) (max_models : nat)
    (now : str) (fail_at : option nat)
    (w : LLMStatsOrchestrator.world)
  : option (list pydict) * LLMStatsOrchestrator.world :=
  let model_ids := firstn max_models fetched_ids in
  let '(models, st) :=
    HuggingFaceScraper.scrape_models_batch
      web (LLMStatsOrchestrator.hf_scraper w) model_ids 3 in
  let valid_models := List.filter (fun m => truthy (get m "model_id")) models in
  let '(saved, fs) :=
    _save_data valid_models now fail_at (LLMStatsOrchestrator.disk w) in
  (if saved then Some valid_models else None,
   {| LLMStatsOrchestrator.hf_scraper := st;
      LLMStatsOrchestrator.disk := fs |}).

End Orchestrator.
End SimpleOrchestrator.

(** ** Scenarios *)

(** A page with one table row [MMLU | 85.5%] and the line
    [license: apache-2.0]: its markup and its parse. *)
Definition scenario_html : str :=
  py "<table><tr><td>MMLU</td><td>85.5%</td></tr></table><p>license: apache-2.0</p>".

Definition scenario_soup : node :=
  Elem "[document]" []
    [ Elem "table" []
        [ Elem "tr" []
            [ Elem "td" [] [Text (py "MMLU")];
              Elem "td" [] [Text (py "85.5%")] ] ];
      Elem "p" [] [Text (py "license: apache-2.0")] ].

(** ** What the claims speak of *)

(** No two entries at different positions have the same (name, score). *)
Definition distinct_keys (l : list benchmark) : Prop :=
  forall (i j : nat) (a b : benchmark),
    l !! i = Some a -> l !! j = Some b -> i <> j ->
    HuggingFaceScraper.same_key a b = false.

(** Nothing but duplicates is dropped: an entry of [raw] is in [kept], or
    an earlier entry of [raw] has its key. *)
Definition only_duplicates_dropped (raw kept : list benchmark) : Prop :=
  forall (i : nat) (b : benchmark),
    raw !! i = Some b ->
    b ∈ kept
    \/ exists (j : nat) (b' : benchmark),
         (j < i)%nat /\ raw !! j = Some b'
         /\ HuggingFaceScraper.same_key b b' = true.

(** The entries of a list that are the first of their kind: the entry at
    position [i] stays when no entry before it is the [same]; the entries
    that stay keep their order. *)
Definition first_by {A} (same : A -> A -> bool) (l : list A) : list A :=
  List.map snd
    (List.filter
       (fun ix => negb (existsb (same (snd ix)) (firstn (fst ix) l)))
       (combine (seq 0 (length l)) l)).

(** The first-seen entries of a benchmark list: those whose (name, score)
    no earlier entry has. *)
Definition first_seen (raw : list benchmark) : list benchmark :=
  first_by HuggingFaceScraper.same_key raw.

(** A record whose benchmark list has no duplicate key. *)
Definition deduplicated (d : pydict) : Prop :=
  exists l : list benchmark,
    d !! "benchmarks"%string = Some (VBenchmarks l) /\ distinct_keys l.


(** The flag of the United States: the regional indicators U and S. *)
Definition flag_cell : str := [127482; 127480].

(** The row [flag | Llama-3-70B | $0.60 | $0.80 | 85.2% | 73.1%]. *)
Definition scenario_cells : list str :=
  [ flag_cell; py "Llama-3-70B"; py "$0.60"; py "$0.80"; py "85.2%";
    py "73.1%" ].

Definition scenario_row : LLMStatsScraper.row :=
  LLMStatsScraper.Cells scenario_cells.

(** How a fetch ended, as [scrape_model] tells the cases apart. *)
Inductive outcome : Type :=
| Success
| NotFound
| RateLimited
| Failed.

Definition outcome_of (r : HuggingFaceScraper.http_result) : outcome :=
  match r with
  | HuggingFaceScraper.Response status_code _ _ =>
      if status_code =? 404 then NotFound
      else if status_code =? 429 then RateLimited
      else if HuggingFaceScraper.is_success status_code then Success
      else Failed
  | HuggingFaceScraper.RequestError => Failed
  end.

(** A site that answers every request with 429. *)
Definition rate_limiting : HuggingFaceScraper.site :=
  fun _ _ => HuggingFaceScraper.Response 429 [] (Text []).

(** A site that serves the scenario page under every URL. *)
Definition serving : HuggingFaceScraper.site :=
  fun _ _ => HuggingFaceScraper.Response 200 scenario_html scenario_soup.

(** The keys a merge writes. *)
Definition hf_keys : list string :=
  [ "hf_license"; "hf_parameters"; "hf_context_window"; "hf_downloads";
    "hf_likes"; "hf_created_at"; "hf_last_modified"; "hf_url";
    "hf_benchmarks" ]%string.

(** An encoder for the examples: the count between braces, in three
    writes. *)
Definition sample_chunks (out : output_data) : list str :=
  [ py "{"; py "total_count: " ++ Py.str_of_nat (total_count out); py "}" ].

(** A decoder for the examples, which finds no JSON. *)
Definition no_json : str -> option json := fun _ => None.

(** The snapshot of an earlier run, with three models, as it lies on disk. *)
Definition previous_snapshot : str :=
  concat (sample_chunks {| models := []; total_count := 3;
                           last_updated := py "2024-01-01T00:00:00";
                           metadata := ∅ |}).

Definition disk_with_previous : Store.files :=
  {[ "models.json"%string := previous_snapshot ]}.

(** A fresh run on an empty disk. *)
Definition fresh_world : LLMStatsOrchestrator.world :=
  {| LLMStatsOrchestrator.hf_scraper := HuggingFaceScraper.new;
     LLMStatsOrchestrator.disk := ∅ |}.

(** ** What the further properties speak of *)

(** Every cached record lies under its own identifier. *)
Definition cache_wf (st : HuggingFaceScraper.scraper) : Prop :=
  map_Forall
    (fun (k : str) (v : option pydict) =>
       from_option (fun d => id_of d = k) True v)
    (HuggingFaceScraper._cache st).

(** The identifiers of a list that a scraper has not cached. *)
Definition uncached (st : HuggingFaceScraper.scraper) (ids : list str)
  : list str :=
  List.filter (fun id => bool_decide (HuggingFaceScraper._cache st !! id = None))
              ids.

(** A scraper that has cached a 404 for [acme/foo-7b]. *)
Definition scraper_with_404 : HuggingFaceScraper.scraper :=
  {| HuggingFaceScraper._cache := {[ py "acme/foo-7b" := None ]};
     HuggingFaceScraper.requests := [] |}.

(** A page whose license link has no text, next to a license meta tag. *)
Definition blank_license_link_soup : node :=
  Elem "[document]" []
    [ Elem "meta" [("name", py "license"); ("content", py "apache-2.0")]%string [];
      Elem "a" [("href", py "/acme/foo-7b/blob/main/license")]%string
        [Text (py "  ")] ].

(** A record whose benchmark entries carry the category [f] gives their
    names. *)
Definition categorised_by (f : str -> str) (d : pydict) : Prop :=
  exists l : list benchmark,
    d !! "benchmarks"%string = Some (VBenchmarks l)
    /\ Forall (fun b => category b = f (name b)) l.

(** The shape of a row record's identity: the identifier is the
    organization, a slash and more, and ends with the model name. *)
Definition identified_row (d : pydict) : Prop :=
  exists model_name organization rest before : str,
    d !! "model_name"%string = Some (VStr model_name)
    /\ d !! "model_id"%string = Some (VStr (organization ++ 47 :: rest))
    /\ d !! "organization"%string = Some (VStr organization)
    /\ Py.contains_char 47 organization = false
    /\ organization ++ 47 :: rest = before ++ model_name.

(** Words: non-empty strings without white space. *)
Definition words {U : Interp} (parts : list str) : Prop :=
  Forall (fun p : str => p <> [] /\ Forall (fun c => Py.isspace c = false) p)
         parts.

(** A record without the keys a merge writes. *)
Definition without_hf (d : pydict) : pydict := foldr delete d hf_keys.

(** The identifiers an enrichment asks HuggingFace for. *)
Definition requested_ids (model_list : list pydict) : list str :=
  List.map id_of (List.filter (fun m => truthy (get m "model_id")) model_list).

(** ** simple_orchestrator.py: where the identifiers come from *)

Module ModelIds.
Section Api.
Context {U : Interp}.

Import LLMStatsScraper.

(** [_get_fallback_models] *)
Definition _get_fallback_models : list str :=
  List.map py
    [ "meta-llama/Llama-3.3-70B-Instruct";
      "meta-llama/Llama-3.1-8B-Instruct";
      "meta-llama/Meta-Llama-3-70B-Instruct";
      "deepseek-ai/DeepSeek-V3";
      "deepseek-ai/DeepSeek-V2.5";
      "deepseek-ai/deepseek-coder-33b-instruct";
      "Qwen/Qwen2.5-72B-Instruct";
      "Qwen/Qwen2.5-32B-Instruct";
      "Qwen/Qwen2.5-7B-Instruct";
      "Qwen/Qwen2.5-Coder-32B-Instruct";
      "mistralai/Mixtral-8x7B-Instruct-v0.1";
      "mistralai/Mistral-7B-Instruct-v0.3";
      "mistralai/Mixtral-8x22B-Instruct-v0.1";
      "google/gemma-2-27b-it";
      "google/gemma-2-9b-it";
      "google/gemma-2-2b-it";
      "microsoft/Phi-3.5-mini-instruct";
      "microsoft/Phi-3-medium-4k-instruct";
      "nvidia/Llama-3.1-Nemotron-70B-Instruct";
      "nvidia/NVIDIA-Nemotron-3-Nano-30B-A3B-BF16";
      "01-ai/Yi-34B-Chat";
      "NousResearch/Hermes-3-Llama-3.1-70B";
      "upstage/SOLAR-10.7B-Instruct-v1.0";
      "zai-org/GLM-4.7" ]%string.

Definition open_licenses : list string :=
  [ "apache"; "mit"; "llama"; "openrail"; "cc-by"; "bsd"; "bigscience";
    "deepseek"; "gemma"; "qwen" ]%string.

Definition open_orgs : list string :=
  [ "meta-llama"; "deepseek-ai"; "Qwen"; "mistralai"; "google"; "microsoft";
    "nvidia"; "allenai"; "01-ai"; "tencent"; "NousResearch"; "upstage";
    "teknium"; "zai-org" ]%string.

(** [org in model_id]: a substring of a string, an element of a list, a
    key of a dict; [None] for the [TypeError] on anything else. *)
Definition json_contains (org : str) (model_id : json) : option bool :=
  match model_id with
  | JStr s => Some (Py.contains org s)
  | JList l => Some (existsb (is_json_str org) l)
  | JDict items => Some (bool_decide (is_Some (json_get org items)))
  | _ => None
  end.

(** [any(org in model_id for org in orgs)], which stops at the first hit. *)
Fixpoint any_org (orgs : list string) (model_id : json) : option bool :=
  match orgs with
  | [] => Some false
  | org :: rest =>
      match json_contains (py org) model_id with
      | Some true => Some true
      | Some false => any_org rest model_id
      | None => None
      end
  end.

(** The license test of [_is_likely_open_source]: [Some true] when the
    function returns [True] there, [Some false] when it goes on to the
    organization, [None] when it raises (a [cardData] that is no dict, a
    truthy license that is no string). *)
Definition license_is_open (model_data : list (str * json)) : option bool :=
  match default (JDict []) (json_get (py "cardData") model_data) with
  | JDict card =>
      let license_info := default (JStr []) (json_get (py "license") card) in
      if json_truthy license_info
      then match license_info with
           | JStr s =>
               Some (existsb (fun lic => Py.contains (py lic) (Py.lower s))
                             open_licenses)
           | _ => None
           end
      else Some false
  | _ => None
  end.

(** [_is_likely_open_source]; [None] when it raises. *)
Definition _is_likely_open_source (model_data : list (str * json))
  : option bool :=
  match license_is_open model_data with
  | Some true => Some true
  | Some false =>
      any_org open_orgs (default (JStr []) (json_get (py "id") model_data))
  | None => None
  end.

(** One entry of the API's answer: the identifier it adds, if any
    ([Some None] when it is skipped), or [None] when the loop body
    raises, as it does on an entry that is no dict. *)
Definition id_of_entry (model : json) : option (option json) :=
  match model with
  | JDict model_data =>
      let a := default JNull (json_get (py "id") model_data) in
      let model_id :=
        if json_truthy a then a
        else default JNull (json_get (py "modelId") model_data) in
      if json_truthy model_id
      then match _is_likely_open_source model_data with
           | Some true => Some (Some model_id)
           | Some false => Some None
           | None => None
           end
      else Some None
  | _ => None
  end.

Fixpoint ids_of_entries (models_data : list json) : option (list json) :=
  match models_data with
  | [] => Some []
  | model :: rest =>
      a ← id_of_entry model;
      b ← ids_of_entries rest;
      Some (match a with Some model_id => model_id :: b | None => b end)
  end.

(** The loop over [models_data]: over the elements of a list, the keys of
    a dict, the characters of a string; [None] when it raises. *)
Definition ids_of_answer (models_data : json) : option (list json) :=
  match models_data with
  | JList l => ids_of_entries l
  | JDict [] => Some []
  | JStr [] => Some []
  | _ => None
  end.

(** [l[:limit]] *)
Definition slice_to {A} (limit : Z) (l : list A) : list A :=
  if (0 <=? limit)%Z then firstn (Z.to_nat limit) l
  else firstn (length l - Z.to_nat (- limit)) l.

(** [fetch_models_from_hf_api]; [answer] is the decoded body of the API's
    response, [None] when the request, its status or its decoding
    raises.  Any exception gives the curated list. *)
Definition fetch_models_from_hf_api (answer : option json) (limit : Z)
  : list json :=
  match answer ≫= ids_of_answer with
  | Some model_ids => slice_to limit model_ids
  | None => List.map JStr _get_fallback_models
  end.

End Api.
End ModelIds.

(** [load_data] of both orchestrators: the empty snapshot when there is no
    file, else what the file decodes to ([None] when decoding raises). *)
Definition load_data (json_load : str -> option json) (output_file : string)
    (fs : Store.files) : option json :=
  match fs !! output_file with
  | None => Some (JDict [(py "models", JList []); (py "total_count", JInt 0)])
  | Some text => json_load text
  end.

(** A float that is a number, with the sign [neg]: a zero, a finite value
    or an infinity, not a NaN. *)
Definition signed (neg : bool) (f : spec_float) : Prop :=
  match f with
  | S754_zero s | S754_infinity s | S754_finite s _ _ => s = neg
  | S754_nan => False
  end.

(** A float that is no NaN. *)
Definition is_number (f : spec_float) : Prop := f <> S754_nan.

(** The groups of a pattern. *)
Fixpoint groups_of (r : Re.regex) : list nat :=
  match r with
  | Re.Eps | Re.Chr _ => []
  | Re.Seq a b | Re.Alt a b => groups_of a ++ groups_of b
  | Re.Star a | Re.LazyStar a => groups_of a
  | Re.Group i a => i :: groups_of a
  end.

(** A match object some attempt of the matcher produced for [r]. *)
Definition matched_by (r : Re.regex) (mo : Re.match_obj) : Prop :=
  exists (must_advance : bool) (before s : str),
    Re.match_here r must_advance before s = Some mo.

(** The loops of the two stars, by name. *)
Definition star_loop {R : Type}
    (body : Re.captures -> str -> (Re.captures -> str -> option R) -> option R)
    (k : Re.captures -> str -> option R) : nat -> Re.captures -> str -> option R :=
  fix loop (n : nat) (caps : Re.captures) (s : str) {struct n} : option R :=
    match n with
    | O => k caps s
    | S n' =>
        match body caps s (fun caps' s' =>
                if (length s' <? length s)%nat then loop n' caps' s'
                else None) with
        | Some x => Some x
        | None => k caps s
        end
    end.

Definition lazy_loop {R : Type}
    (body : Re.captures -> str -> (Re.captures -> str -> option R) -> option R)
    (k : Re.captures -> str -> option R) : nat -> Re.captures -> str -> option R :=
  fix loop (n : nat) (caps : Re.captures) (s : str) {struct n} : option R :=
    match n with
    | O => k caps s
    | S n' =>
        match k caps s with
        | Some x => Some x
        | None =>
            body caps s (fun caps' s' =>
              if (length s' <? length s)%nat then loop n' caps' s'
              else None)
        end
    end.

(** A price as the rendered-table collector stores it: [None] when none
    was read, else a float that is a number and not negative. *)
Definition price_value (v : pyval) : Prop :=
  match v with
  | VNone => True
  | VFloat f => signed false f
  | _ => False
  end.

(** A record of the rendered-table collector with numbers only: no score
    is a NaN, and each of the two prices is absent or a [price_value]. *)
Definition priced_in_numbers (d : pydict) : Prop :=
  (exists l, d !! "benchmarks"%string = Some (VBenchmarks l)
             /\ Forall (fun b => is_number (score b)) l)
  /\ Forall (fun k => from_option price_value True (d !! k))
            ["input_price_per_1m"; "output_price_per_1m"]%string.

(** The first occurrences of a list of identifiers: the identifier at
    position [i] stays when it does not occur before [i]. *)
Definition first_occurrences (ids : list str) : list str :=
  first_by Py.str_eqb ids.

(** A record whose [model_id], where it has one, is a string, as in the
    records of both scrapers. *)
Definition string_identified (m : pydict) : Prop :=
  match m !! "model_id"%string with
  | None | Some (VStr _) => True
  | Some _ => False
  end.

(** A leaderboard with one record, identified by a string. *)
Definition one_identified_record : list pydict :=
  [ {[ "model_id"%string := VStr (py "acme/foo-7b") ]} ].

(** * Properties *)

(** ** Dictionaries *)

Section DictFacts.

Lemma lookup_set_if_ne {A} (k k' : string) (f : A -> pyval) (o : option A)
    (d : pydict) :
  k <> k' -> set_if k f o d !! k' = d !! k'.
Proof.
  intros Hne. destruct o as [a|]; simpl; [|reflexivity].
  now rewrite lookup_insert_ne.
Qed.

Lemma lookup_update_None (d e : pydict) (k : string) :
  e !! k = None -> update d e !! k = d !! k.
Proof.
  intros He. unfold update. rewrite lookup_union, He.
  now destruct (d !! k).
Qed.

End DictFacts.

(** ** The markup extractor *)

Section HuggingFaceFacts.
Context {U : Interp}.

Import HuggingFaceScraper.

Lemma stat_other (key word k : string) (text : str) :
  key <> k -> stat key word text !! k = None.
Proof.
  intros Hne. unfold stat.
  destruct (Re.search _ _) as [mo|]; [|apply lookup_empty].
  destruct (Py.int _); [|apply lookup_empty].
  now apply lookup_singleton_ne.
Qed.

Lemma stats_other (soup : node) (k : string) :
  k <> "downloads"%string -> k <> "likes"%string ->
  _extract_stats soup !! k = None.
Proof.
  intros H1 H2. unfold _extract_stats.
  rewrite lookup_update_None by (apply stat_other; congruence).
  apply stat_other; congruence.
Qed.

Lemma metadata_other (soup : node) (k : string) :
  k <> "context_window"%string -> _extract_metadata soup !! k = None.
Proof.
  intros Hne. unfold _extract_metadata.
  destruct (Re.search _ _) as [mo|]; [|apply lookup_empty].
  destruct (Py.int _); [|apply lookup_empty].
  apply lookup_singleton_ne; congruence.
Qed.

(** The benchmark list of a parsed page is the de-duplicated list, whatever
    else the page holds. *)
Lemma parse_benchmarks (html : str) (soup : node) (model_id : str) :
  _parse_model_page html soup model_id !! "benchmarks"%string
  = Some (VBenchmarks (_extract_benchmarks soup)).
Proof.
  unfold _parse_model_page.
  rewrite !lookup_set_if_ne by discriminate.
  rewrite lookup_update_None by (apply stats_other; discriminate).
  rewrite lookup_set_if_ne by discriminate.
  apply lookup_insert_eq.
Qed.

(** The open-source flag of a parsed page is decided by its license alone. *)
Lemma parse_is_open_source (html : str) (soup : node) (model_id : str) :
  _parse_model_page html soup model_id !! "is_open_source"%string
  = Some (VBool match nonempty (_extract_license soup) with
                | Some license_info => _is_open_source_license license_info
                | None => false
                end).
Proof.
  unfold _parse_model_page.
  rewrite !lookup_set_if_ne by discriminate.
  rewrite lookup_update_None by (apply stats_other; discriminate).
  rewrite lookup_set_if_ne by discriminate.
  rewrite lookup_insert_ne by discriminate.
  rewrite lookup_update_None by (apply metadata_other; discriminate).
  destruct (nonempty (_extract_license soup)) as [l|].
  - apply lookup_insert_eq.
  - reflexivity.
Qed.

(** The markup extractor has four categories; [knowledge] is not one. *)
Lemma categorize_range (name : str) :
  _categorize_benchmark name
    ∈ [py "coding"; py "reasoning"; py "agents"; py "general"].
Proof.
  unfold _categorize_benchmark.
  repeat match goal with |- context [if ?c then _ else _] => destruct c end;
    set_solver.
Qed.

Lemma categorize_never_knowledge (name : str) :
  _categorize_benchmark name <> py "knowledge".
Proof.
  intros E. pose proof (categorize_range name) as H. rewrite E in H.
  vm_compute in H.
  repeat (apply elem_of_cons in H as [H|H]; [discriminate H|]).
  inversion H.
Qed.

(** The double written [85.5] is exactly 171/2. *)
Example double_85_5 :
  Float.of_decimal false 855 1 = S754_finite false (171 * 2 ^ 45) (-46).
Proof. reflexivity. Qed.

(** C1, as the code has it: on the page with the table row [MMLU | 85.5%]
    and the line [license: apache-2.0], extraction for [acme/foo-7b] gives
    a record with [is_open_source] true and exactly one benchmark, named
    MMLU, with score 85.5 and category [reasoning]. *)
Theorem scenario_mmlu_apache :
  let record := _parse_model_page scenario_html scenario_soup (py "acme/foo-7b") in
  record !! "is_open_source"%string = Some (VBool true)
  /\ record !! "benchmarks"%string
     = Some (VBenchmarks
               [ {| name := py "MMLU";
                    score := Float.of_decimal false 855 1;
                    category := py "reasoning" |} ]).
Proof.
  cbv zeta. rewrite parse_is_open_source, parse_benchmarks.
  split; vm_compute; reflexivity.
Qed.

End HuggingFaceFacts.

(** C1 as stated fails: the one benchmark of the scenario record is not in
    category [knowledge]. *)
Lemma scenario_category_is_not_knowledge :
  ~ (exists b : benchmark,
       HuggingFaceScraper._parse_model_page (U := ascii_only)
         scenario_html scenario_soup (py "acme/foo-7b") !! "benchmarks"%string
       = Some (VBenchmarks [b])
       /\ name b = py "MMLU"
       /\ score b = Float.of_decimal false 855 1
       /\ category b = py "knowledge").
Proof.
  intros (b & Hb & _ & _ & Hc).
  rewrite parse_benchmarks in Hb.
  vm_compute in Hb. injection Hb as <-. vm_compute in Hc. discriminate Hc.
Qed.

(** ** De-duplication *)

Section Dedup.

Import HuggingFaceScraper.

Lemma SFeqb_sym (x y : spec_float) : SFeqb x y = SFeqb y x.
Proof.
  unfold SFeqb.
  destruct x as [sx|sx| |sx mx ex], y as [sy|sy| |sy my ey]; simpl;
    try reflexivity;
    try (destruct sx; reflexivity); try (destruct sy; reflexivity);
    try (destruct sx, sy; reflexivity).
  pose proof (Pos.compare_cont_antisym mx my Eq) as HA. simpl in HA.
  destruct sx, sy; try reflexivity;
    rewrite (Z.compare_antisym ex ey);
    destruct (ex ?= ey)%Z; simpl; try reflexivity;
    rewrite <- HA; destruct (Pos.compare_cont Eq mx my); reflexivity.
Qed.

Lemma same_key_sym (a b : benchmark) : same_key a b = same_key b a.
Proof.
  unfold same_key, Float.eqb, Py.str_eqb. rewrite SFeqb_sym. f_equal.
  apply bool_decide_ext. split; congruence.
Qed.

Lemma same_key_name (a b : benchmark) :
  same_key a b = true -> name a = name b.
Proof.
  unfold same_key, Py.str_eqb. intros H.
  apply andb_true_iff in H as [H _]. now apply bool_decide_eq_true in H.
Qed.

(** Every kept entry differs in key from the entries seen before it. *)
Lemma unique_from_fresh (l seen : list benchmark) :
  Forall (fun b => Forall (fun s => same_key b s = false) seen)
         (unique_from seen l).
Proof.
  revert seen. induction l as [|b l IH]; intros seen; simpl.
  - constructor.
  - destruct (existsb (same_key b) seen) eqn:E.
    + apply IH.
    + constructor.
      * apply Forall_forall. intros s Hs.
        destruct (same_key b s) eqn:Es; [|reflexivity].
        assert (existsb (same_key b) seen = true) as E'.
        { apply existsb_exists. exists s. split; [|exact Es].
          now apply list_elem_of_In. }
        congruence.
      * eapply Forall_impl; [apply IH|].
        intros x Hx. simpl in Hx. now inversion Hx.
Qed.

Lemma unique_from_pairs (l seen : list benchmark) :
  ForallOrdPairs (fun a b => same_key b a = false) (unique_from seen l).
Proof.
  revert seen. induction l as [|b l IH]; intros seen; simpl.
  - constructor.
  - destruct (existsb (same_key b) seen).
    + apply IH.
    + constructor; [|apply IH].
      eapply Forall_impl; [apply (unique_from_fresh l (b :: seen))|].
      intros x Hx. simpl in Hx. now inversion Hx.
Qed.

Lemma pairs_distinct (l : list benchmark) :
  ForallOrdPairs (fun a b => same_key b a = false) l -> distinct_keys l.
Proof.
  induction 1 as [|a l Ha Hl IH]; intros i j x y Hi Hj Hne.
  - now rewrite lookup_nil in Hi.
  - rewrite Forall_forall in Ha.
    destruct i as [|i], j as [|j]; simpl in Hi, Hj.
    + congruence.
    + injection Hi as <-. rewrite same_key_sym. apply Ha.
      eapply list_elem_of_lookup_2; eassumption.
    + injection Hj as <-. apply Ha.
      eapply list_elem_of_lookup_2; eassumption.
    + apply (IH i j); auto.
Qed.

Lemma unique_from_distinct (l seen : list benchmark) :
  distinct_keys (unique_from seen l).
Proof. apply pairs_distinct, unique_from_pairs. Qed.

(** The kept entries are entries of the input, in the input's order. *)
Lemma unique_from_sublist (l seen : list benchmark) :
  sublist (unique_from seen l) l.
Proof.
  revert seen. induction l as [|b l IH]; intros seen; simpl.
  - constructor.
  - destruct (existsb (same_key b) seen).
    + apply sublist_cons, IH.
    + apply sublist_skip, IH.
Qed.

Lemma unique_from_complete (l seen : list benchmark) (i : nat) (b : benchmark) :
  l !! i = Some b ->
  b ∈ unique_from seen l
  \/ (exists s, s ∈ seen /\ same_key b s = true)
  \/ (exists j b', (j < i)%nat /\ l !! j = Some b' /\ same_key b b' = true).
Proof.
  revert seen i. induction l as [|b0 l IH]; intros seen i Hi.
  - now rewrite lookup_nil in Hi.
  - simpl. destruct (existsb (same_key b0) seen) eqn:E.
    + destruct i as [|i]; simpl in Hi.
      * injection Hi as <-. right. left.
        apply existsb_exists in E as (s & Hs & Es).
        exists s. split; [now apply list_elem_of_In|exact Es].
      * destruct (IH seen i Hi) as [H|[H|(j & b' & Hj & Hb' & Hk)]].
        -- now left.
        -- right. now left.
        -- right. right. exists (S j), b'. split; [lia|]. now split.
    + destruct i as [|i]; simpl in Hi.
      * injection Hi as <-. left. apply elem_of_cons. now left.
      * destruct (IH (b0 :: seen) i Hi) as [H|[(s & Hs & Es)|(j & b' & Hj & Hb' & Hk)]].
        -- left. apply elem_of_cons. now right.
        -- apply elem_of_cons in Hs as [->|Hs].
           ++ right. right. exists 0%nat, b0. split; [lia|]. now split.
           ++ right. left. now exists s.
        -- right. right. exists (S j), b'. split; [lia|]. now split.
Qed.

Lemma unique_only_duplicates_dropped (l : list benchmark) :
  only_duplicates_dropped l (unique_from [] l).
Proof.
  intros i b Hi.
  destruct (unique_from_complete l [] i b Hi) as [H|[(s & Hs & _)|H]].
  - now left.
  - now apply elem_of_nil in Hs.
  - now right.
Qed.

Lemma SFeqb_true (x y : spec_float) :
  SFeqb x y = true ->
  x = y \/ exists s s', x = S754_zero s /\ y = S754_zero s'.
Proof.
  unfold SFeqb.
  destruct x as [sx|sx| |sx mx ex], y as [sy|sy| |sy my ey]; simpl;
    try discriminate;
    try (destruct sx; discriminate); try (destruct sy; discriminate).
  - intros _. right. now exists sx, sy.
  - destruct sx, sy; try discriminate; intros _; now left.
  - destruct sx, sy; try discriminate; simpl.
    + destruct (Z.compare ex ey) eqn:Ee; try discriminate.
      apply Z.compare_eq in Ee. subst ey.
      destruct (Pos.compare_cont Eq mx my) eqn:Em; try discriminate.
      apply Pos.compare_eq in Em. subst my. intros _. now left.
    + destruct (Z.compare ex ey) eqn:Ee; try discriminate.
      apply Z.compare_eq in Ee. subst ey.
      destruct (Pos.compare_cont Eq mx my) eqn:Em; try discriminate.
      apply Pos.compare_eq in Em. subst my. intros _. now left.
Qed.

Lemma same_key_trans (a b c : benchmark) :
  same_key a b = true -> same_key b c = true -> same_key a c = true.
Proof.
  unfold same_key, Float.eqb, Py.str_eqb. intros Hab Hbc.
  apply andb_true_iff in Hab as [Hn1 Hs1].
  apply andb_true_iff in Hbc as [Hn2 Hs2].
  apply bool_decide_eq_true in Hn1, Hn2.
  apply andb_true_iff. split; [apply bool_decide_eq_true; congruence|].
  destruct (SFeqb_true _ _ Hs1) as [E|(s & s' & E1 & E2)].
  - now rewrite E.
  - destruct (SFeqb_true _ _ Hs2) as [E|(t & t' & E3 & E4)].
    + now rewrite <- E.
    + rewrite E1, E4. reflexivity.
Qed.

(** The entry at the head of what is left is first of its key when no
    entry before it has the key; the positions move on by one. *)
Lemma first_by_step {A} (same : A -> A -> bool) (pre : list A) (b : A)
    (rest : list A) :
  List.map snd
    (List.filter
       (fun ix => negb (existsb (same (snd ix)) (firstn (fst ix) (pre ++ b :: rest))))
       (combine (seq (length pre) (length (b :: rest))) (b :: rest)))
  = (if existsb (same b) pre then [] else [b])
    ++ List.map snd
         (List.filter
            (fun ix => negb (existsb (same (snd ix))
                               (firstn (fst ix) ((pre ++ [b]) ++ rest))))
            (combine (seq (length (pre ++ [b])) (length rest)) rest)).
Proof.
  cbn [length seq combine List.filter fst snd].
  rewrite take_app_length.
  rewrite <- app_assoc. cbn [app].
  rewrite length_app. cbn [length]. rewrite Nat.add_1_r.
  now destruct (existsb (same b) pre).
Qed.

Lemma unique_from_first (rest pre seen : list benchmark) :
  (forall b, existsb (same_key b) seen = existsb (same_key b) pre) ->
  unique_from seen rest
  = List.map snd
      (List.filter
         (fun ix => negb (existsb (same_key (snd ix))
                            (firstn (fst ix) (pre ++ rest))))
         (combine (seq (length pre) (length rest)) rest)).
Proof.
  revert pre seen. induction rest as [|b rest IH]; intros pre seen H.
  - reflexivity.
  - rewrite first_by_step. cbn [unique_from]. rewrite (H b).
    destruct (existsb (same_key b) pre) eqn:E; cbn [app].
    + apply IH. intros c. rewrite H, existsb_app. cbn [existsb].
      rewrite orb_false_r.
      destruct (same_key c b) eqn:Ec; [|now rewrite orb_false_r].
      rewrite orb_true_r. apply existsb_exists.
      apply existsb_exists in E as (k & Hk & Hbk).
      exists k. split; [exact Hk|]. eapply same_key_trans; eauto.
    + f_equal. apply IH. intros c. rewrite existsb_app. cbn [existsb].
      rewrite H, orb_false_r. apply orb_comm.
Qed.

Lemma unique_first_seen (raw : list benchmark) :
  unique_from [] raw = first_seen raw.
Proof. apply (unique_from_first raw [] []). reflexivity. Qed.

End Dedup.

(** ** The rendered-table collector *)

Section LLMStatsFacts.
Context {U : Interp}.

Import LLMStatsScraper.

Lemma py_inj (a b : string) : py a = py b -> a = b.
Proof.
  assert (Hback : forall l, List.map ascii_of_N (List.map N_of_ascii l) = l).
  { induction l as [|c l IH]; simpl; [reflexivity|].
    now rewrite ascii_N_embedding, IH. }
  unfold py. intros H.
  apply (f_equal (List.map ascii_of_N)) in H. rewrite !Hback in H.
  apply (f_equal string_of_list_ascii) in H.
  now rewrite !string_of_list_ascii_of_string in H.
Qed.

Lemma str_of_nat_inj (n m : nat) : Py.str_of_nat n = Py.str_of_nat m -> n = m.
Proof.
  unfold Py.str_of_nat. intros H. apply py_inj in H.
  apply DecimalNat.Unsigned.to_uint_inj.
  apply (f_equal NilEmpty.uint_of_string) in H.
  rewrite !NilEmpty.usu in H. congruence.
Qed.

Lemma benchmark_name_at_inj (i j : nat) :
  benchmark_name_at i = benchmark_name_at j -> i = j.
Proof.
  assert (Hfix : forall k n, (k < 10)%nat ->
            benchmark_name_at k <> py "Benchmark_" ++ Py.str_of_nat n).
  { intros k n Hk E.
    do 10 (destruct k as [|k]; [vm_compute in E; discriminate E|]). lia. }
  assert (Hlow : forall k, (10 <= k)%nat ->
            benchmark_name_at k = py "Benchmark_" ++ Py.str_of_nat (k + 1)).
  { intros k Hk. unfold benchmark_name_at.
    rewrite (lookup_ge_None_2 benchmark_names k); [reflexivity|exact Hk]. }
  intros E.
  destruct (le_lt_dec 10 i) as [Hi|Hi], (le_lt_dec 10 j) as [Hj|Hj].
  - rewrite (Hlow i Hi), (Hlow j Hj) in E.
    apply app_inv_head, str_of_nat_inj in E. lia.
  - rewrite (Hlow i Hi) in E. symmetry in E. now apply Hfix in E.
  - rewrite (Hlow j Hj) in E. now apply Hfix in E.
  - do 10 (destruct i as [|i];
           [do 10 (destruct j as [|j];
                   [first [reflexivity | vm_compute in E; discriminate E]|]);
            lia|]).
    lia.
Qed.

(** The names given out from [score_index] on are those of consecutive
    positions. *)
Lemma parse_benchmarks_names (cells : list str) (score_index : nat) :
  List.map name (parse_benchmarks_from score_index cells)
  = List.map benchmark_name_at
      (seq score_index (length (parse_benchmarks_from score_index cells))).
Proof.
  revert score_index. induction cells as [|cell rest IH]; intros k; simpl.
  - reflexivity.
  - destruct (Py.contains_char 37 cell); [|apply IH].
    destruct (_extract_score cell); [|apply IH].
    simpl. f_equal. apply IH.
Qed.

Lemma parse_benchmarks_names_NoDup (cells : list str) :
  NoDup (List.map name (_parse_benchmarks_from_cells cells)).
Proof.
  unfold _parse_benchmarks_from_cells. rewrite parse_benchmarks_names.
  apply NoDup_fmap_2.
  - intros i j. apply benchmark_name_at_inj.
  - apply NoDup_seq.
Qed.

Lemma names_NoDup_distinct (l : list benchmark) :
  NoDup (List.map name l) -> distinct_keys l.
Proof.
  intros Hnd i j a b Hi Hj Hne.
  destruct (HuggingFaceScraper.same_key a b) eqn:E; [|reflexivity].
  apply same_key_name in E. exfalso. apply Hne.
  eapply (NoDup_lookup _ i j (name a)); [exact Hnd| |].
  - change (List.map name l) with (name <$> l).
    now rewrite list_lookup_fmap, Hi.
  - change (List.map name l) with (name <$> l).
    rewrite list_lookup_fmap, Hj. simpl. now rewrite E.
Qed.

Lemma parse_benchmarks_distinct (cells : list str) :
  distinct_keys (_parse_benchmarks_from_cells cells).
Proof. apply names_NoDup_distinct, parse_benchmarks_names_NoDup. Qed.

(** What a row record holds under the keys the claims read. *)
Lemma row_record (r : row) (d : pydict) :
  _extract_model_from_row r = Some d ->
  d !! "is_open_source"%string = Some (VBool true)
  /\ exists cells, d !! "benchmarks"%string
                   = Some (VBenchmarks (_parse_benchmarks_from_cells cells)).
Proof.
  unfold _extract_model_from_row, model_of_cell_values. intros H.
  destruct r as [texts|]; [|discriminate H].
  destruct (_ <? 2)%nat; [discriminate H|].
  destruct (find_model_name 0 _) as [[model_name idx]|]; [|discriminate H].
  destruct (_ <? 2)%nat; [discriminate H|].
  destruct (any_in _ _); [discriminate H|].
  destruct (_extract_parameters_from_cells _) as [parameters|]; [|discriminate H].
  injection H as <-. unfold record_of. split.
  - now rewrite !lookup_insert_ne, lookup_insert_eq by discriminate.
  - exists (cell_values_of texts).
    now rewrite !lookup_insert_ne, lookup_insert_eq by discriminate.
Qed.

Lemma json_record (item : list (str * json)) (d : pydict) :
  _normalize_json_model item = Some d ->
  d !! "is_open_source"%string = Some (VBool true)
  /\ d !! "benchmarks"%string = Some (VBenchmarks []).
Proof.
  unfold _normalize_json_model. intros H.
  destruct (json_model_name item); try discriminate H.
  injection H as <-. split.
  - rewrite !lookup_insert_ne by discriminate. apply lookup_singleton_eq.
  - now rewrite !lookup_insert_ne, lookup_insert_eq by discriminate.
Qed.

(** Whatever holds of every row record and of every normalised JSON item
    holds of every record the collector returns. *)
Section Collected.
Variable json_loads : str -> option json.
Variable P : pydict -> Prop.
Hypothesis P_row : forall r d, _extract_model_from_row r = Some d -> P d.
Hypothesis P_json : forall item d, _normalize_json_model item = Some d -> P d.

Lemma models_of_item_Forall (item : json) (ds : list pydict) :
  models_of_item item = Some ds -> Forall P ds.
Proof.
  destruct item as [| | | |s|l|items]; simpl; try discriminate.
  - destruct (Py.contains _ _); [discriminate|]. intros [= <-]. constructor.
  - destruct (existsb _ _); [discriminate|]. intros [= <-]. constructor.
  - destruct (_ || _).
    + destruct (_normalize_json_model items) as [m|] eqn:E; simpl; [|discriminate].
      intros [= <-]. constructor; [|constructor]. eapply P_json, E.
    + intros [= <-]. constructor.
Qed.

Lemma models_of_items_Forall (items : list json) (ds : list pydict) :
  models_of_items items = Some ds -> Forall P ds.
Proof.
  revert ds. induction items as [|item rest IH]; intros ds; simpl.
  - intros [= <-]. constructor.
  - destruct (models_of_item item) as [a|] eqn:Ea; simpl; [|discriminate].
    destruct (models_of_items rest) as [b|]; simpl; [|discriminate].
    intros [= <-]. apply Forall_app. split.
    + eapply models_of_item_Forall, Ea.
    + now apply IH.
Qed.

Lemma models_of_matches_Forall (matches : list str) (ds : list pydict) :
  models_of_matches json_loads matches = Some ds -> Forall P ds.
Proof.
  revert ds. induction matches as [|m rest IH]; intros ds; simpl.
  - intros [= <-]. constructor.
  - destruct (match json_loads m with
              | Some (JList data) => models_of_items data
              | _ => Some []
              end) as [a|] eqn:Ea; simpl; [|discriminate].
    destruct (models_of_matches json_loads rest) as [b|]; simpl; [|discriminate].
    intros [= <-]. apply Forall_app. split; [|now apply IH].
    destruct (json_loads m) as [[| | | | |data|]|];
      try (injection Ea as <-; constructor).
    eapply models_of_items_Forall, Ea.
Qed.

Lemma extract_models_Forall (p : page) : Forall P (_extract_models json_loads p).
Proof.
  unfold _extract_models.
  destruct (match table_rows p with
            | Some [] => alternative_rows p
            | found => found
            end) as [rows|].
  - apply Forall_forall. intros d Hd.
    apply list_elem_of_omap in Hd as (r & _ & Hr). eapply P_row, Hr.
  - destruct (content p) as [script_content|]; [|constructor].
    unfold _extract_from_page_source.
    destruct (models_of_matches _ _) as [ds|] eqn:E; simpl; [|constructor].
    eapply models_of_matches_Forall, E.
Qed.

Lemma scrape_leaderboard_Forall (s : session) :
  Forall P (default [] (scrape_leaderboard json_loads s)).
Proof.
  destruct s as [| | |p]; simpl; try constructor.
  apply extract_models_Forall.
Qed.

End Collected.

(** C10: every record the rendered-table collector produces has
    [is_open_source] set to [True], whether it comes from a table row or
    from the JSON found in the page source; no license is looked at. *)
Theorem collector_records_open_source :
  (forall r : row,
     from_option
       (fun d : pydict => d !! "is_open_source"%string = Some (VBool true))
       True (_extract_model_from_row r))
  /\ (forall item : list (str * json),
        from_option
          (fun d : pydict => d !! "is_open_source"%string = Some (VBool true))
          True (_normalize_json_model item))
  /\ (forall (json_loads : str -> option json) (s : session),
        Forall
          (fun d : pydict => d !! "is_open_source"%string = Some (VBool true))
          (default [] (scrape_leaderboard json_loads s))).
Proof.
  split; [|split].
  - intros r. destruct (_extract_model_from_row r) as [d|] eqn:E; simpl;
      [|exact I].
    now apply row_record in E.
  - intros item. destruct (_normalize_json_model item) as [d|] eqn:E; simpl;
      [|exact I].
    now apply json_record in E.
  - intros json_loads s. apply scrape_leaderboard_Forall.
    + intros r d H. now apply row_record in H.
    + intros item d H. now apply json_record in H.
Qed.

Lemma collector_records_deduplicated (json_loads : str -> option json)
    (s : session) :
  Forall deduplicated (default [] (scrape_leaderboard json_loads s)).
Proof.
  apply scrape_leaderboard_Forall.
  - intros r d H. apply row_record in H as (_ & cells & Hc).
    eexists. split; [exact Hc|apply parse_benchmarks_distinct].
  - intros item d H. apply json_record in H as (_ & Hb).
    eexists. split; [exact Hb|].
    intros i j a b Hi. now rewrite lookup_nil in Hi.
Qed.

(** C7: the benchmark list of a record of the markup extractor is the raw
    list of the page without its duplicates, in first-seen order: it is
    the list of the raw entries that no earlier raw entry shares its
    (name, score) with, in the order of the raw list.  So no two entries
    have the same (name, score), the entries kept stand in the order they
    were seen in, and only entries whose key came earlier are dropped.
    The records of the rendered-table collector have no two entries with
    the same key either. *)
Theorem benchmarks_deduplicated :
  (forall (html : str) (soup : node) (model_id : str),
     exists kept : list benchmark,
       HuggingFaceScraper._parse_model_page html soup model_id
         !! "benchmarks"%string = Some (VBenchmarks kept)
       /\ kept = first_seen (HuggingFaceScraper.raw_benchmarks soup)
       /\ distinct_keys kept
       /\ sublist kept (HuggingFaceScraper.raw_benchmarks soup)
       /\ only_duplicates_dropped (HuggingFaceScraper.raw_benchmarks soup) kept)
  /\ (forall (json_loads : str -> option json) (s : session),
        Forall deduplicated (default [] (scrape_leaderboard json_loads s))).
Proof.
  split.
  - intros html soup model_id.
    exists (HuggingFaceScraper._extract_benchmarks soup).
    split; [apply parse_benchmarks|].
    unfold HuggingFaceScraper._extract_benchmarks.
    split; [apply unique_first_seen|].
    split; [apply unique_from_distinct|].
    split; [apply unique_from_sublist|apply unique_only_duplicates_dropped].
  - apply collector_records_deduplicated.
Qed.

End LLMStatsFacts.

(** *** The scenario row *)

Section RowScenario.
Context {U : Interp}.
Hypothesis flag_U_not_space : uni_isspace 127482 = false.
Hypothesis flag_S_not_space : uni_isspace 127480 = false.
Hypothesis flag_U_not_digit : uni_isdigit 127482 = false.

Import LLMStatsScraper.

Lemma clean_flag : clean flag_cell = flag_cell.
Proof.
  unfold clean, Py.strip, Py.rstrip, flag_cell. simpl Py.lstrip.
  unfold Py.isspace at 1. simpl Py.is_ascii. rewrite flag_U_not_space.
  simpl rev. simpl Py.lstrip. unfold Py.isspace at 1. simpl Py.is_ascii.
  rewrite flag_S_not_space. simpl. unfold Py.split_ws. simpl.
  unfold Py.isspace. simpl.
  now rewrite flag_U_not_space, flag_S_not_space.
Qed.

Lemma isdigit_flag : Py.isdigit flag_cell = false.
Proof.
  unfold Py.isdigit, flag_cell. simpl. unfold Py.char_isdigit at 1.
  simpl. now rewrite flag_U_not_digit.
Qed.

Lemma scenario_cell_values : cell_values_of scenario_cells = scenario_cells.
Proof.
  unfold cell_values_of, scenario_cells. simpl List.map. rewrite clean_flag.
  vm_compute. reflexivity.
Qed.

Lemma parameters_skip (cell : str) (rest : list str) :
  Py.isdigit cell = false ->
  _extract_parameters_from_cells (cell :: rest)
  = _extract_parameters_from_cells rest.
Proof. intros H. cbn [_extract_parameters_from_cells]. now rewrite H. Qed.

Lemma scenario_parameters :
  _extract_parameters_from_cells scenario_cells = Some None.
Proof.
  unfold scenario_cells.
  rewrite (parameters_skip _ _ isdigit_flag). vm_compute. reflexivity.
Qed.

Lemma scenario_name :
  find_model_name 0 scenario_cells = Some (py "Llama-3-70B", 1%nat).
Proof. vm_compute. reflexivity. Qed.

Lemma scenario_row_record :
  _extract_model_from_row scenario_row
  = Some (record_of scenario_cells (py "Llama-3-70B") 1 None).
Proof.
  unfold scenario_row. cbn [_extract_model_from_row].
  rewrite scenario_cell_values. unfold model_of_cell_values.
  rewrite scenario_name, scenario_parameters.
  reflexivity.
Qed.

(** C8: the row [flag | Llama-3-70B | $0.60 | $0.80 | 85.2% | 73.1%] gives
    a record named Llama-3-70B (the flag cell is passed over), with input
    price 0.60, output price 0.80 and exactly two benchmarks, 85.2 and
    73.1, named by the first two names of the positional list. *)
Theorem scenario_llama_row :
  exists record : pydict,
    _extract_model_from_row scenario_row = Some record
    /\ record !! "model_name"%string = Some (VStr (py "Llama-3-70B"))
    /\ record !! "input_price_per_1m"%string
       = Some (VFloat (Float.of_decimal false 60 2))
    /\ record !! "output_price_per_1m"%string
       = Some (VFloat (Float.of_decimal false 80 2))
    /\ exists b1 b2 : benchmark,
         record !! "benchmarks"%string = Some (VBenchmarks [b1; b2])
         /\ score b1 = Float.of_decimal false 852 1
         /\ score b2 = Float.of_decimal false 731 1
         /\ benchmark_names !! 0%nat = Some (name b1)
         /\ benchmark_names !! 1%nat = Some (name b2).
Proof.
  eexists. split; [exact scenario_row_record|].
  unfold record_of.
  split; [now rewrite !lookup_insert_ne, lookup_insert_eq by discriminate|].
  split.
  { rewrite !lookup_insert_ne, lookup_insert_eq by discriminate.
    vm_compute. reflexivity. }
  split.
  { rewrite !lookup_insert_ne, lookup_insert_eq by discriminate.
    vm_compute. reflexivity. }
  eexists _, _. split.
  { rewrite !lookup_insert_ne, lookup_insert_eq by discriminate.
    vm_compute. reflexivity. }
  repeat split.
Qed.

End RowScenario.

Lemma scenario_llama_row_witness :
  (@uni_isspace ascii_only 127482 = false
   /\ @uni_isspace ascii_only 127480 = false
   /\ @uni_isdigit ascii_only 127482 = false)
  /\ exists record : pydict,
       LLMStatsScraper._extract_model_from_row (U := ascii_only) scenario_row
       = Some record
       /\ record !! "model_name"%string = Some (VStr (py "Llama-3-70B"))
       /\ record !! "input_price_per_1m"%string
          = Some (VFloat (Float.of_decimal false 60 2))
       /\ record !! "output_price_per_1m"%string
          = Some (VFloat (Float.of_decimal false 80 2))
       /\ exists b1 b2 : benchmark,
            record !! "benchmarks"%string = Some (VBenchmarks [b1; b2])
            /\ score b1 = Float.of_decimal false 852 1
            /\ score b2 = Float.of_decimal false 731 1
            /\ LLMStatsScraper.benchmark_names !! 0%nat = Some (name b1)
            /\ LLMStatsScraper.benchmark_names !! 1%nat = Some (name b2).
Proof.
  split.
  - repeat split.
  - exact (scenario_llama_row (U := ascii_only) eq_refl eq_refl eq_refl).
Defined.

(** ** The fetch cache *)

Section FetchFacts.
Context {U : Interp}.
Variable web : HuggingFaceScraper.site.

Import HuggingFaceScraper.

(** A fetch that misses the cache sends exactly one request, to the URL
    of the identifier as given. *)
Lemma scrape_model_miss (st : scraper) (model_id : str) :
  _cache st !! model_id = None ->
  requests (snd (scrape_model web st model_id))
  = requests st ++ [url_of model_id].
Proof.
  intros Hmiss. unfold scrape_model. rewrite Hmiss.
  destruct (web _ _) as [status_code text soup|]; [|reflexivity].
  destruct (status_code =? 404); [reflexivity|].
  destruct (status_code =? 429); [reflexivity|].
  destruct (is_success status_code); reflexivity.
Qed.

Lemma scrape_model_hit (st : scraper) (model_id : str) (cached : option pydict) :
  _cache st !! model_id = Some cached ->
  scrape_model web st model_id = (cached, st).
Proof. intros Hhit. unfold scrape_model. now rewrite Hhit. Qed.

(** C4, as the code has it: a second fetch of an identifier is answered
    from the cache, without a request, when the identifier was cached
    before or when the first fetch ended in a parsed page or in a 404;
    after a 429, another failing status or an exception nothing was
    cached, and the second fetch sends a second request. *)
Theorem refetch (st : scraper) (model_id : str) :
  let first := scrape_model web st model_id in
  let second := scrape_model web (snd first) model_id in
  match _cache st !! model_id with
  | Some cached => first = (cached, st) /\ second = (cached, st)
  | None =>
      let url := url_of model_id in
      match outcome_of (web url (times_requested url st)) with
      | Success | NotFound =>
          requests (snd first) = requests st ++ [url] /\ second = first
      | RateLimited | Failed =>
          fst first = None
          /\ _cache (snd first) = _cache st
          /\ requests (snd second) = requests st ++ [url; url]
      end
  end.
Proof.
  cbv zeta. destruct (_cache st !! model_id) as [cached|] eqn:Hc.
  - rewrite (scrape_model_hit st model_id cached Hc). simpl.
    now rewrite (scrape_model_hit st model_id cached Hc).
  - assert (Hlater : forall st1 : scraper,
              _cache st1 = _cache st ->
              requests st1 = requests st ++ [url_of model_id] ->
              requests (snd (scrape_model web st1 model_id))
              = requests st ++ [url_of model_id; url_of model_id]).
    { intros st1 Hc1 Hr1. rewrite scrape_model_miss by (now rewrite Hc1).
      rewrite Hr1, <- app_assoc. reflexivity. }
    assert (Hcached : forall (r : option pydict) (st1 : scraper),
              _cache st1 !! model_id = Some r ->
              scrape_model web st1 model_id = (r, st1)).
    { intros r st1 H1. now apply scrape_model_hit. }
    remember (scrape_model web st model_id) as first eqn:Hf.
    unfold scrape_model in Hf. rewrite Hc in Hf.
    unfold outcome_of.
    destruct (web _ _) as [status_code text soup|].
    + destruct (status_code =? 404).
      { subst first. simpl. split; [reflexivity|].
        apply Hcached. apply lookup_insert_eq. }
      destruct (status_code =? 429).
      { subst first. simpl. split; [reflexivity|]. split; [reflexivity|].
        now apply Hlater. }
      destruct (is_success status_code).
      { subst first. simpl. split; [reflexivity|].
        apply Hcached. apply lookup_insert_eq. }
      subst first. simpl. split; [reflexivity|]. split; [reflexivity|].
      now apply Hlater.
    + subst first. simpl. split; [reflexivity|]. split; [reflexivity|].
      now apply Hlater.
Qed.

(** A fetch leaves every other cache entry as it was. *)
Lemma scrape_model_frame (st : scraper) (model_id : str) :
  delete model_id (_cache (snd (scrape_model web st model_id)))
  = delete model_id (_cache st).
Proof.
  unfold scrape_model.
  destruct (_cache st !! model_id) as [cached|]; [reflexivity|].
  destruct (web _ _) as [status_code text soup|]; [|reflexivity].
  destruct (status_code =? 404); [simpl; apply delete_insert_eq|].
  destruct (status_code =? 429); [reflexivity|].
  destruct (is_success status_code); [simpl; apply delete_insert_eq|].
  reflexivity.
Qed.

End FetchFacts.

(** C4 as stated fails: after a first fetch that met a 429, the second
    fetch of the same identifier does send a request. *)
Lemma rate_limited_is_fetched_again :
  ~ (HuggingFaceScraper.requests
       (snd (HuggingFaceScraper.scrape_model (U := ascii_only) rate_limiting
               (snd (HuggingFaceScraper.scrape_model (U := ascii_only)
                       rate_limiting HuggingFaceScraper.new
                       (py "acme/foo-7b")))
               (py "acme/foo-7b")))
     = HuggingFaceScraper.requests
         (snd (HuggingFaceScraper.scrape_model (U := ascii_only) rate_limiting
                 HuggingFaceScraper.new (py "acme/foo-7b")))).
Proof. intros H. vm_compute in H. discriminate H. Qed.

(** ** Identifiers as keys *)

Section KeyFacts.
Context {U : Interp}.
Variable web : HuggingFaceScraper.site.

Import HuggingFaceScraper LLMStatsOrchestrator.

Lemma hf_data_map_from (hf_models : list pydict) (acc : gmap str pydict) :
  map_Forall (fun k d => id_of d = k) acc ->
  map_Forall (fun k d => id_of d = k)
    (fold_left
       (fun acc m => if truthy (get m "model_id") then <[id_of m := m]> acc
                     else acc)
       hf_models acc).
Proof.
  revert acc. induction hf_models as [|m rest IH]; intros acc Hacc; simpl.
  - exact Hacc.
  - apply IH. destruct (truthy (get m "model_id")); [|exact Hacc].
    now apply map_Forall_insert_2.
Qed.

(** A secondary record is stored under its own identifier, as written. *)
Lemma hf_data_map_keys (hf_models : list pydict) :
  map_Forall (fun k d => id_of d = k) (hf_data_map_of hf_models).
Proof. apply hf_data_map_from, map_Forall_empty. Qed.

(** C3, as the code has it: identifiers are used as they are written.  A
    fetch reads and fills the cache entry of exactly the string it was
    given and, on a miss, requests the URL made of that string; the other
    entries stay as they were; and the enrichment map holds each secondary
    record under exactly its own [model_id]. *)
Theorem identifiers_verbatim :
  (forall (st : scraper) (model_id : str),
     match _cache st !! model_id with
     | Some cached => scrape_model web st model_id = (cached, st)
     | None =>
         requests (snd (scrape_model web st model_id))
         = requests st ++ [base_url ++ py "/" ++ model_id]
     end
     /\ delete model_id (_cache (snd (scrape_model web st model_id)))
        = delete model_id (_cache st))
  /\ (forall hf_models : list pydict,
        map_Forall (fun k d => id_of d = k) (hf_data_map_of hf_models)).
Proof.
  split.
  - intros st model_id. split; [|apply scrape_model_frame].
    destruct (_cache st !! model_id) as [cached|] eqn:Hc.
    + now apply scrape_model_hit.
    + now apply scrape_model_miss.
  - apply hf_data_map_keys.
Qed.

End KeyFacts.

(** C3 as stated fails: with [acme/foo-7b] fetched and cached, fetching
    the same name in another casing, or with a trailing slash, is not
    answered from that cache entry: a new request goes out. *)
Lemma case_variants_are_fetched_separately :
  ~ (HuggingFaceScraper.requests
       (snd (HuggingFaceScraper.scrape_model (U := ascii_only) serving
               (snd (HuggingFaceScraper.scrape_model (U := ascii_only) serving
                       HuggingFaceScraper.new (py "acme/foo-7b")))
               (py "Acme/Foo-7B")))
     = HuggingFaceScraper.requests
         (snd (HuggingFaceScraper.scrape_model (U := ascii_only) serving
                 HuggingFaceScraper.new (py "acme/foo-7b"))))
  /\ ~ (HuggingFaceScraper.requests
          (snd (HuggingFaceScraper.scrape_model (U := ascii_only) serving
                  (snd (HuggingFaceScraper.scrape_model (U := ascii_only)
                          serving HuggingFaceScraper.new (py "acme/foo-7b")))
                  (py "acme/foo-7b/")))
        = HuggingFaceScraper.requests
            (snd (HuggingFaceScraper.scrape_model (U := ascii_only) serving
                    HuggingFaceScraper.new (py "acme/foo-7b")))).
Proof. split; intros H; vm_compute in H; discriminate H. Qed.

(** ** Merging *)

Section MergeFacts.
Context {U : Interp}.
Variable web : HuggingFaceScraper.site.

Import LLMStatsOrchestrator.

(** A merge changes the keys it writes and no other. *)
Lemma merge_frame (model hf_data : pydict) (k : string) :
  k ∉ hf_keys -> merge model hf_data !! k = model !! k.
Proof.
  intros Hk. unfold merge.
  assert (Hne : forall k', k' ∈ hf_keys -> k' <> k).
  { intros k' Hk' ->. contradiction. }
  destruct (truthy (get hf_data "benchmarks")).
  - rewrite !lookup_insert_ne; [reflexivity|apply Hne; set_solver..].
  - rewrite !lookup_insert_ne; [reflexivity|apply Hne; set_solver..].
Qed.

Lemma merge_benchmarks (model hf_data : pydict) :
  merge model hf_data !! "benchmarks"%string = model !! "benchmarks"%string.
Proof.
  apply merge_frame. unfold hf_keys. intros H.
  repeat (apply elem_of_cons in H as [H|H]; [discriminate H|]).
  inversion H.
Qed.

(** The secondary benchmark list goes under [hf_benchmarks] when it is not
    empty. *)
Lemma merge_hf_benchmarks (model hf_data : pydict) :
  merge model hf_data !! "hf_benchmarks"%string
  = if truthy (get hf_data "benchmarks")
    then Some (get hf_data "benchmarks")
    else model !! "hf_benchmarks"%string.
Proof.
  unfold merge. destruct (truthy (get hf_data "benchmarks")).
  - apply lookup_insert_eq.
  - now rewrite !lookup_insert_ne by discriminate.
Qed.

(** Outside [hf_benchmarks], the merged record does not depend on the
    secondary benchmark list. *)
Lemma merge_ignores_hf_benchmarks (model hf_data : pydict) (v : pyval) :
  delete "hf_benchmarks"%string
         (merge model (<[ "benchmarks"%string := v ]> hf_data))
  = delete "hf_benchmarks"%string (merge model hf_data).
Proof.
  unfold merge, get.
  rewrite lookup_insert_eq. rewrite !lookup_insert_ne by discriminate.
  simpl.
  destruct (truthy v), (truthy (default VNone (hf_data !! "benchmarks"%string)));
    rewrite ?delete_insert_eq; reflexivity.
Qed.

Lemma enrich_one_benchmarks (hf_data_map : gmap str pydict) (model : pydict) :
  enrich_one hf_data_map model !! "benchmarks"%string
  = model !! "benchmarks"%string.
Proof.
  unfold enrich_one. destruct (hf_data_map !! id_of model) as [hf_data|].
  - apply merge_benchmarks.
  - now rewrite lookup_insert_ne by discriminate.
Qed.

(** C6: merging leaves the primary benchmark list as it was.  In the
    record merged from a primary and a secondary record, [benchmarks] is
    the primary record's; the secondary list appears under [hf_benchmarks]
    and nowhere else; and enrichment as a whole returns the records in
    their order, each with the [benchmarks] it came with. *)
Theorem merge_keeps_primary_benchmarks :
  (forall model hf_data : pydict,
     merge model hf_data !! "benchmarks"%string = model !! "benchmarks"%string
     /\ merge model hf_data !! "hf_benchmarks"%string
        = (if truthy (get hf_data "benchmarks")
           then Some (get hf_data "benchmarks")
           else model !! "hf_benchmarks"%string)
     /\ forall v : pyval,
          delete "hf_benchmarks"%string
                 (merge model (<[ "benchmarks"%string := v ]> hf_data))
          = delete "hf_benchmarks"%string (merge model hf_data))
  /\ (forall (st : HuggingFaceScraper.scraper) (models : list pydict),
        List.map (fun m : pydict => m !! "benchmarks"%string)
                 (fst (_enrich_with_huggingface web st models))
        = List.map (fun m : pydict => m !! "benchmarks"%string) models).
Proof.
  split.
  - intros model hf_data. split; [apply merge_benchmarks|].
    split; [apply merge_hf_benchmarks|].
    intros v. apply merge_ignores_hf_benchmarks.
  - intros st models. unfold _enrich_with_huggingface.
    destruct (HuggingFaceScraper.scrape_models_batch _ _ _ _) as [hf_models st1].
    simpl. rewrite List.map_map. apply List.map_ext.
    intros m. apply enrich_one_benchmarks.
Qed.

End MergeFacts.

(** ** Writing the snapshot *)

Section StoreFacts.

Import Store.

Lemma run_app (a b : list op) (fs : files) : run (a ++ b) fs = run b (run a fs).
Proof. unfold run. apply fold_left_app. Qed.

Lemma run_writes (path : string) (chunks : list str) (fs : files) (c : str) :
  fs !! path = Some c ->
  run (List.map (Write path) chunks) fs = <[path := c ++ concat chunks]> fs.
Proof.
  revert fs c. induction chunks as [|chunk rest IH]; intros fs c Hc.
  - simpl. rewrite app_nil_r. symmetry. now apply insert_id.
  - change (run (List.map (Write path) (chunk :: rest)) fs)
      with (run (List.map (Write path) rest) (apply fs (Write path chunk))).
    simpl apply. rewrite Hc. simpl default.
    rewrite (IH _ (c ++ chunk)) by apply lookup_insert_eq.
    rewrite insert_insert_eq. simpl concat. now rewrite <- app_assoc.
Qed.

Lemma run_close_prefix (path : string) (n : nat) (fs : files) :
  run (firstn n [Close path]) fs = fs.
Proof. destruct n as [|[|n]]; reflexivity. Qed.

Variable json_chunks : output_data -> list str.

(** The disk after the first [n] operations of a dump: untouched before
    the file is opened, and from then on the target holds what was written
    so far. *)
Lemma run_until_dump (path : string) (out : output_data) (n : nat)
    (fs : files) :
  run_until n (dump_ops json_chunks path out) fs
  = if (n <? 2)%nat then fs
    else <[path := concat (firstn (n - 2) (json_chunks out))]> fs.
Proof.
  unfold run_until, dump_ops.
  destruct n as [|[|n]]; [reflexivity..|].
  change (S (S n) <? 2)%nat with false. cbv iota.
  replace (S (S n) - 2)%nat with n by lia.
  change (firstn (S (S n)) ([MkdirParents path; OpenTruncate path] ++ ?l))
    with (MkdirParents path :: OpenTruncate path :: firstn n l).
  change (run (MkdirParents path :: OpenTruncate path :: ?l) fs)
    with (run l (<[path := []]> fs)).
  rewrite firstn_app, run_app, run_close_prefix.
  rewrite firstn_map.
  rewrite (run_writes path _ _ []) by apply lookup_insert_eq.
  now rewrite insert_insert_eq.
Qed.

Lemma run_dump (path : string) (out : output_data) (fs : files) :
  run (dump_ops json_chunks path out) fs
  = <[path := concat (json_chunks out)]> fs.
Proof.
  pose proof (run_until_dump path out (length (dump_ops json_chunks path out)) fs)
    as H.
  unfold run_until in H. rewrite firstn_all in H. rewrite H.
  unfold dump_ops. rewrite !length_app, length_map. simpl length.
  replace (2 + (length (json_chunks out) + 1) <? 2)%nat with false
    by (symmetry; apply Nat.ltb_ge; lia).
  replace (2 + (length (json_chunks out) + 1) - 2)%nat
    with (length (json_chunks out) + 1)%nat by lia.
  now rewrite firstn_all2 by lia.
Qed.

(** C2, as the code has it: the snapshot is written in place.  A dump
    stopped before operation [n] has created or changed no file but the
    target; once the target is opened its previous content is gone and it
    holds the chunks written so far, a prefix of the new serialisation;
    the dump that runs to its end leaves the whole serialisation there. *)
Theorem snapshot_written_in_place (path : string) (out : output_data)
    (n : nat) (fs : files) :
  delete path (run_until n (dump_ops json_chunks path out) fs) = delete path fs
  /\ run_until n (dump_ops json_chunks path out) fs !! path
     = (if (n <? 2)%nat then fs !! path
        else Some (concat (firstn (n - 2) (json_chunks out))))
  /\ run (dump_ops json_chunks path out) fs !! path
     = Some (concat (json_chunks out)).
Proof.
  rewrite run_until_dump, run_dump. destruct (n <? 2)%nat.
  - split; [reflexivity|]. split; [reflexivity|]. apply lookup_insert_eq.
  - split; [apply delete_insert_eq|].
    split; apply lookup_insert_eq.
Qed.

End StoreFacts.

(** C2 as stated fails: a save interrupted after its first write does
    not leave the previous snapshot in the target. *)
Lemma interrupted_save_loses_the_previous_snapshot :
  ~ (snd (LLMStatsOrchestrator._save_data sample_chunks "models.json" []
            (py "2024-01-02T00:00:00") (Some 3%nat) disk_with_previous)
       !! "models.json"%string
     = disk_with_previous !! "models.json"%string).
Proof. intros H. vm_compute in H. discriminate H. Qed.

(** ** The run *)

Section RunFacts.
Context {U : Interp}.
Variable web : HuggingFaceScraper.site.
Variable json_loads : str -> option json.
Variable json_chunks : output_data -> list str.
Variable output_file : string.

Import LLMStatsOrchestrator.

(** C9: the snapshot either orchestrator writes has [total_count] equal
    to the length of [models]: the object serialised is built with that
    count, and the file a completed save leaves is its serialisation. *)
Theorem total_count_is_length (model_list : list pydict) (now : str)
    (fs : Store.files) :
  match count_benchmarks model_list with
  | Some total_benchmarks =>
      let out := build_output model_list total_benchmarks now in
      models out = model_list
      /\ total_count out = length (models out)
      /\ _save_data json_chunks output_file model_list now None fs
         = (true, <[output_file := concat (json_chunks out)]> fs)
  | None =>
      _save_data json_chunks output_file model_list now None fs = (false, fs)
  end
  /\ let out := SimpleOrchestrator.build_output model_list now in
     models out = model_list
     /\ total_count out = length (models out)
     /\ SimpleOrchestrator._save_data json_chunks output_file model_list now
          None fs
        = (true, <[output_file := concat (json_chunks out)]> fs).
Proof.
  split.
  - unfold _save_data.
    destruct (count_benchmarks model_list) as [total_benchmarks|];
      [|reflexivity].
    cbv zeta. split; [reflexivity|]. split; [reflexivity|].
    unfold Store.run_failing, Store.completes. now rewrite run_dump.
  - cbv zeta. split; [reflexivity|]. split; [reflexivity|].
    unfold SimpleOrchestrator._save_data, Store.run_failing, Store.completes.
    now rewrite run_dump.
Qed.

(** C5, as the code has it: an empty result of the rendered-table
    collector does not abort the run, but ends it: the run returns an
    empty list and leaves the scraper and the disk as they were, so no
    request is sent and no snapshot is written.  With records, the run
    writes them (enriched when asked) with their counts and returns them;
    it raises when the browser cannot be launched, when a count cannot be
    taken or when a file operation fails. *)
Theorem run_outcome (s : LLMStatsScraper.session) (enrich_with_hf : bool)
    (now : str) (fail_at : option nat) (w : world) :
  let run :=
    collect_all_data web json_loads json_chunks output_file s enrich_with_hf
                     now fail_at w in
  match LLMStatsScraper.scrape_leaderboard json_loads s with
  | None => run = (None, w)
  | Some [] => run = (Some [], w)
  | Some (m :: rest) =>
      let enriched :=
        if enrich_with_hf
        then fst (_enrich_with_huggingface web (hf_scraper w) (m :: rest))
        else m :: rest in
      match count_benchmarks enriched with
      | None => fst run = None /\ disk (snd run) = disk w
      | Some total_benchmarks =>
          let out := build_output enriched total_benchmarks now in
          let ops := dump_ops json_chunks output_file out in
          fst run = (if Store.completes fail_at ops then Some enriched else None)
          /\ disk (snd run) = Store.run_failing fail_at ops (disk w)
          /\ models out = enriched
          /\ metadata out !! "hf_enriched_count"%string
             = Some (VInt (Z.of_nat (length (List.filter is_enriched enriched))))
          /\ metadata out !! "total_benchmarks"%string
             = Some (VInt (Z.of_nat total_benchmarks))
      end
  end.
Proof.
  cbv zeta. unfold collect_all_data.
  destruct (LLMStatsScraper.scrape_leaderboard json_loads s) as [[|m rest]|];
    [reflexivity| |reflexivity].
  destruct enrich_with_hf.
  - destruct (_enrich_with_huggingface web (hf_scraper w) (m :: rest))
      as [enriched st]. simpl fst.
    unfold _save_data.
    destruct (count_benchmarks enriched) as [total_benchmarks|].
    + simpl. destruct (Store.completes fail_at _); repeat split.
    + simpl. split; reflexivity.
  - unfold _save_data.
    destruct (count_benchmarks (m :: rest)) as [total_benchmarks|].
    + simpl. destruct (Store.completes fail_at _); repeat split.
    + simpl. split; reflexivity.
Qed.

End RunFacts.

(** C5 as stated fails: when the page times out, the run leaves no
    snapshot at the target. *)
Lemma timed_out_run_writes_no_snapshot :
  ~ is_Some
      (LLMStatsOrchestrator.disk
         (snd (LLMStatsOrchestrator.collect_all_data (U := ascii_only) serving
                 no_json sample_chunks "models.json" LLMStatsScraper.TimedOut
                 true (py "2024-01-02T00:00:00") None fresh_world))
       !! "models.json"%string).
Proof. intros [content H]. vm_compute in H. discriminate H. Qed.

(** ** Batches of fetches *)

Section BatchFacts.
Context {U : Interp}.
Variable web : HuggingFaceScraper.site.

Import HuggingFaceScraper.

Lemma fromkeys_from_elem (ids seen : list str) (x : str) :
  x ∈ fromkeys_from seen ids <-> x ∈ ids /\ x ∉ seen.
Proof.
  revert seen. induction ids as [|y rest IH]; intros seen; simpl.
  - split; [intros H; inversion H|intros [H _]; inversion H].
  - case_bool_decide as Hy.
    + rewrite IH. split.
      * intros [H1 H2]. split; [now apply elem_of_cons; right|exact H2].
      * intros [H1 H2]. split; [|exact H2].
        apply elem_of_cons in H1 as [->|H1]; [contradiction|exact H1].
    + rewrite elem_of_cons, IH. split.
      * intros [->|[H1 H2]].
        -- split; [apply elem_of_cons; now left|exact Hy].
        -- split; [apply elem_of_cons; now right|].
           intros H. apply H2. apply elem_of_cons. now right.
      * intros [H1 H2]. apply elem_of_cons in H1 as [->|H1]; [now left|].
        destruct (decide (x = y)) as [->|Hne]; [now left|].
        right. split; [exact H1|].
        intros H. apply elem_of_cons in H as [H|H]; contradiction.
Qed.

Lemma fromkeys_from_NoDup (ids seen : list str) : NoDup (fromkeys_from seen ids).
Proof.
  revert seen. induction ids as [|y rest IH]; intros seen; simpl.
  - constructor.
  - case_bool_decide as Hy; [apply IH|].
    constructor; [|apply IH].
    rewrite fromkeys_from_elem. intros [_ H]. apply H.
    apply elem_of_cons. now left.
Qed.

Lemma fromkeys_from_sublist (ids seen : list str) :
  sublist (fromkeys_from seen ids) ids.
Proof.
  revert seen. induction ids as [|y rest IH]; intros seen; simpl.
  - constructor.
  - case_bool_decide; [apply sublist_cons|apply sublist_skip]; apply IH.
Qed.

Lemma fromkeys_spec (ids : list str) :
  NoDup (fromkeys ids)
  /\ sublist (fromkeys ids) ids
  /\ (forall x : str, x ∈ fromkeys ids <-> x ∈ ids).
Proof.
  unfold fromkeys. split; [apply fromkeys_from_NoDup|].
  split; [apply fromkeys_from_sublist|].
  intros x. rewrite fromkeys_from_elem. split; [now intros [H _]|].
  intros H. split; [exact H|]. intros H'. inversion H'.
Qed.

Lemma existsb_str_eqb (x : str) (l : list str) :
  existsb (Py.str_eqb x) l = bool_decide (x ∈ l).
Proof.
  induction l as [|y l IH]; simpl.
  - first [reflexivity
          |symmetry; apply bool_decide_eq_false_2; intros H; inversion H].
  - rewrite IH. unfold Py.str_eqb.
    destruct (bool_decide (x = y)) eqn:E1.
    + apply bool_decide_eq_true in E1. subst y. symmetry.
      apply bool_decide_eq_true_2, elem_of_cons. now left.
    + apply bool_decide_eq_false in E1. simpl.
      apply bool_decide_ext. rewrite elem_of_cons. tauto.
Qed.

Lemma fromkeys_from_first (rest pre seen : list str) :
  (forall x, x ∈ seen <-> x ∈ pre) ->
  fromkeys_from seen rest
  = List.map snd
      (List.filter
         (fun ix => negb (existsb (Py.str_eqb (snd ix))
                            (firstn (fst ix) (pre ++ rest))))
         (combine (seq (length pre) (length rest)) rest)).
Proof.
  revert pre seen. induction rest as [|x rest IH]; intros pre seen H.
  - reflexivity.
  - rewrite first_by_step. cbn [fromkeys_from].
    rewrite existsb_str_eqb, (bool_decide_ext _ _ (H x)).
    destruct (bool_decide (x ∈ pre)) eqn:E; cbn [app].
    + apply bool_decide_eq_true in E. apply IH. intros y.
      rewrite H, elem_of_app, list_elem_of_singleton.
      split; [now left|]. intros [Hy| ->]; assumption.
    + f_equal. apply IH. intros y.
      rewrite elem_of_cons, elem_of_app, list_elem_of_singleton, H. tauto.
Qed.

(** X1: the identifiers a batch fetches are the first occurrences of the
    identifiers asked for: the identifier at a position is fetched when it
    does not occur before that position, and the identifiers fetched
    keep their order.  So each identifier asked for is fetched once. *)
Theorem fromkeys_first_occurrences (ids : list str) :
  fromkeys ids = first_occurrences ids
  /\ NoDup (fromkeys ids)
  /\ sublist (fromkeys ids) ids
  /\ (forall x : str, x ∈ fromkeys ids <-> x ∈ ids).
Proof.
  split; [apply (fromkeys_from_first ids [] []); reflexivity|].
  unfold fromkeys. split; [apply fromkeys_from_NoDup|].
  split; [apply fromkeys_from_sublist|].
  intros x. rewrite fromkeys_from_elem. split; [now intros [H _]|].
  intros H. split; [exact H|]. intros H'. inversion H'.
Qed.

Lemma gather_app (st : scraper) (a b : list str) :
  gather web st (a ++ b)
  = (fst (gather web st a) ++ fst (gather web (snd (gather web st a)) b),
     snd (gather web (snd (gather web st a)) b)).
Proof.
  revert st. induction a as [|x a IH]; intros st; simpl.
  - now destruct (gather web st b).
  - destruct (scrape_model web st x) as [r st1]. rewrite IH.
    destruct (gather web st1 a) as [ra st2]. simpl.
    now destruct (gather web st2 b).
Qed.

Lemma batches_gather (fuel : nat) (st : scraper) (max_concurrent : nat)
    (ids : list str) :
  (0 < max_concurrent)%nat -> (length ids <= fuel)%nat ->
  batches web fuel st max_concurrent ids
  = (omap id (fst (gather web st ids)), snd (gather web st ids)).
Proof.
  intros Hmc. revert st ids.
  induction fuel as [|fuel IH]; intros st ids Hlen.
  - destruct ids; [reflexivity|simpl in Hlen; lia].
  - destruct ids as [|x rest]; [reflexivity|].
    cbn [batches].
    assert (Hsplit : gather web st (x :: rest)
                     = gather web st (firstn max_concurrent (x :: rest)
                                      ++ skipn max_concurrent (x :: rest)))
      by now rewrite firstn_skipn.
    rewrite Hsplit, gather_app.
    destruct (gather web st (firstn max_concurrent (x :: rest)))
      as [batch_results st1].
    rewrite IH.
    + simpl. now rewrite omap_app.
    + rewrite length_skipn. simpl in *. lia.
Qed.

Lemma batch_as_gather (st : scraper) (model_ids : list str)
    (max_concurrent : positive) :
  scrape_models_batch web st model_ids max_concurrent
  = (omap id (fst (gather web st (fromkeys model_ids))),
     snd (gather web st (fromkeys model_ids))).
Proof.
  unfold scrape_models_batch. apply batches_gather; lia.
Qed.

(** X2: the batch size changes neither the records returned nor the state
    left behind: a batch run is the identifiers, without repetitions,
    fetched one after the other, with the [None] results dropped. *)
Theorem scrape_models_batch_sequential (st : scraper) (model_ids : list str)
    (max_concurrent : positive) :
  scrape_models_batch web st model_ids max_concurrent
  = (omap id (fst (gather web st (fromkeys model_ids))),
     snd (gather web st (fromkeys model_ids))).
Proof.
  unfold scrape_models_batch. apply batches_gather; lia.
Qed.

Lemma scrape_model_other (st : scraper) (model_id other : str) :
  other <> model_id ->
  _cache (snd (scrape_model web st model_id)) !! other = _cache st !! other.
Proof.
  intros Hne.
  rewrite <- (lookup_delete_ne (_cache (snd _)) model_id other) by congruence.
  rewrite scrape_model_frame. apply lookup_delete_ne. congruence.
Qed.

Lemma gather_requests (st : scraper) (ids : list str) :
  NoDup ids ->
  requests (snd (gather web st ids))
  = requests st ++ List.map url_of (uncached st ids).
Proof.
  revert st. induction ids as [|x rest IH]; intros st Hnd.
  - simpl. now rewrite app_nil_r.
  - apply NoDup_cons in Hnd as [Hx Hrest].
    cbn [gather].
    pose proof (scrape_model_miss web st x) as Hmiss.
    pose proof (scrape_model_hit web st x) as Hhit.
    pose proof (scrape_model_other st x) as Hother.
    destruct (scrape_model web st x) as [r st1]. simpl in Hmiss, Hhit, Hother.
    pose proof (IH st1 Hrest) as IH1.
    destruct (gather web st1 rest) as [rs st2]. simpl in IH1 |- *.
    rewrite IH1.
    assert (Hsame : uncached st1 rest = uncached st rest).
    { unfold uncached. apply filter_ext_in. intros y Hy.
      rewrite Hother; [reflexivity|].
      intros ->. apply Hx. now apply list_elem_of_In. }
    rewrite Hsame. unfold uncached at 2. cbn [List.filter].
    case_bool_decide as Hc.
    + rewrite (Hmiss Hc). now rewrite <- app_assoc.
    + destruct (_cache st !! x) as [c|] eqn:E; [|contradiction].
      specialize (Hhit c eq_refl). injection Hhit as _ ->. reflexivity.
Qed.

Lemma batch_requests_log (st : scraper) (model_ids : list str)
    (max_concurrent : positive) :
  requests (snd (scrape_models_batch web st model_ids max_concurrent))
  = requests st ++ List.map url_of (uncached st (fromkeys model_ids)).
Proof.
  rewrite batch_as_gather. simpl.
  apply gather_requests, fromkeys_from_NoDup.
Qed.

(** X3: a batch run sends one request for each distinct identifier that is
    not cached yet, in the order of first occurrence, and none for the
    others, however often an identifier is repeated in the list. *)
Theorem scrape_models_batch_requests (st : scraper) (model_ids : list str)
    (max_concurrent : positive) :
  requests (snd (scrape_models_batch web st model_ids max_concurrent))
  = requests st ++ List.map url_of (uncached st (fromkeys model_ids)).
Proof.
  rewrite batch_as_gather. simpl.
  apply gather_requests, fromkeys_from_NoDup.
Qed.

End BatchFacts.

(** ** The cache over a run *)

Section CacheFacts.
Context {U : Interp}.
Variable web : HuggingFaceScraper.site.

Import HuggingFaceScraper.

Lemma scrape_model_keeps (st : scraper) (model_id other : str)
    (c : option pydict) :
  _cache st !! other = Some c ->
  _cache (snd (scrape_model web st model_id)) !! other = Some c.
Proof.
  intros Hc. destruct (decide (other = model_id)) as [->|Hne].
  - now rewrite (scrape_model_hit web st model_id c Hc).
  - now rewrite scrape_model_other.
Qed.

Lemma gather_keeps (st : scraper) (ids : list str) (other : str)
    (c : option pydict) :
  _cache st !! other = Some c ->
  _cache (snd (gather web st ids)) !! other = Some c.
Proof.
  revert st. induction ids as [|x rest IH]; intros st Hc; [exact Hc|].
  cbn [gather].
  pose proof (scrape_model_keeps st x other c Hc) as H1.
  destruct (scrape_model web st x) as [r st1]. simpl in H1.
  specialize (IH st1 H1). now destruct (gather web st1 rest).
Qed.

(** X4: a cache entry, once written, stays as it is for the rest of the
    run: no later fetch, single or in a batch, overwrites or drops it. *)
Theorem cache_entries_persist (st : scraper) (model_ids : list str)
    (max_concurrent : positive) (model_id other : str) (c : option pydict) :
  _cache st !! other = Some c ->
  _cache (snd (scrape_model web st model_id)) !! other = Some c
  /\ _cache (snd (scrape_models_batch web st model_ids max_concurrent)) !! other
     = Some c.
Proof.
  intros Hc. split; [now apply scrape_model_keeps|].
  rewrite batch_as_gather. simpl. now apply gather_keeps.
Qed.

Lemma parse_model_id (html : str) (soup : node) (model_id : str) :
  _parse_model_page html soup model_id !! "model_id"%string
  = Some (VStr model_id).
Proof.
  unfold _parse_model_page.
  rewrite !lookup_set_if_ne by discriminate.
  rewrite lookup_update_None by (apply stats_other; discriminate).
  rewrite lookup_set_if_ne by discriminate.
  rewrite lookup_insert_ne by discriminate.
  rewrite lookup_update_None by (apply metadata_other; discriminate).
  destruct (nonempty (_extract_license soup)) as [l|].
  - rewrite !lookup_insert_ne by discriminate. apply lookup_insert_eq.
  - apply lookup_insert_eq.
Qed.

Lemma id_of_parse (html : str) (soup : node) (model_id : str) :
  id_of (_parse_model_page html soup model_id) = model_id.
Proof. unfold id_of. now rewrite parse_model_id. Qed.

Lemma scrape_model_wf (st : scraper) (model_id : str) :
  cache_wf st ->
  cache_wf (snd (scrape_model web st model_id))
  /\ from_option (fun d => id_of d = model_id) True
                 (fst (scrape_model web st model_id)).
Proof.
  intros Hwf. unfold scrape_model.
  destruct (_cache st !! model_id) as [cached|] eqn:Hc.
  - split; [exact Hwf|]. apply (Hwf model_id cached Hc).
  - destruct (web _ _) as [status_code text soup|]; [|now split].
    destruct (status_code =? 404).
    { split; [|exact I]. unfold cache_wf. simpl.
      apply map_Forall_insert_2; [exact I|exact Hwf]. }
    destruct (status_code =? 429); [now split|].
    destruct (is_success status_code); [|now split].
    split; [|apply id_of_parse]. unfold cache_wf. simpl.
    apply map_Forall_insert_2; [apply id_of_parse|exact Hwf].
Qed.

Lemma gather_wf (st : scraper) (ids : list str) :
  cache_wf st ->
  cache_wf (snd (gather web st ids))
  /\ Forall2 (fun id r => from_option (fun d => id_of d = id) True r)
             ids (fst (gather web st ids)).
Proof.
  revert st. induction ids as [|x rest IH]; intros st Hwf.
  - split; [exact Hwf|constructor].
  - cbn [gather]. destruct (scrape_model_wf st x Hwf) as [H1 H2].
    destruct (scrape_model web st x) as [r st1]. simpl in H1, H2.
    destruct (IH st1 H1) as [H3 H4].
    destruct (gather web st1 rest) as [rs st2]. simpl in *.
    split; [exact H3|]. now constructor.
Qed.

Lemma identified_sublist (ids : list str) (rs : list (option pydict)) :
  Forall2 (fun id r => from_option (fun d => id_of d = id) True r) ids rs ->
  sublist (List.map id_of (omap id rs)) ids.
Proof.
  induction 1 as [|x r ids rs Hr _ IH]; [constructor|].
  destruct r as [d|]; simpl in *.
  - rewrite Hr. now apply sublist_skip.
  - now apply sublist_cons.
Qed.

(** X5: the records of a batch run carry the identifiers asked for, and no
    two of them the same one, when every cached record lies under its own
    identifier; a run keeps the cache that way. *)
Theorem batch_results_identified (st : scraper) (model_ids : list str)
    (max_concurrent : positive) :
  cache_wf st ->
  cache_wf (snd (scrape_models_batch web st model_ids max_concurrent))
  /\ Forall (fun d => id_of d ∈ model_ids)
            (fst (scrape_models_batch web st model_ids max_concurrent))
  /\ NoDup (List.map id_of
              (fst (scrape_models_batch web st model_ids max_concurrent))).
Proof.
  intros Hwf. rewrite batch_as_gather. simpl.
  destruct (gather_wf st (fromkeys model_ids) Hwf) as [H1 H2].
  apply identified_sublist in H2.
  destruct (fromkeys_spec model_ids) as (Hnd & _ & Hin).
  split; [exact H1|]. split.
  - apply Forall_forall. intros d Hd. apply Hin.
    eapply elem_of_sublist; [|exact H2].
    apply list_elem_of_fmap. now exists d.
  - eapply sublist_NoDup; eassumption.
Qed.

End CacheFacts.

Lemma cache_entries_persist_witness :
  HuggingFaceScraper._cache scraper_with_404 !! py "acme/foo-7b" = Some None
  /\ HuggingFaceScraper._cache
       (snd (HuggingFaceScraper.scrape_model (U := ascii_only) serving
               scraper_with_404 (py "acme/bar")))
     !! py "acme/foo-7b" = Some None
  /\ HuggingFaceScraper._cache
       (snd (HuggingFaceScraper.scrape_models_batch (U := ascii_only) serving
               scraper_with_404 [py "acme/bar"; py "acme/foo-7b"] 3))
     !! py "acme/foo-7b" = Some None.
Proof.
  assert (H : HuggingFaceScraper._cache scraper_with_404 !! py "acme/foo-7b"
              = Some None) by apply lookup_singleton_eq.
  split; [exact H|].
  exact (cache_entries_persist (U := ascii_only) serving scraper_with_404
           [py "acme/bar"; py "acme/foo-7b"] 3 (py "acme/bar")
           (py "acme/foo-7b") None H).
Defined.

Lemma batch_results_identified_witness :
  cache_wf HuggingFaceScraper.new
  /\ NoDup (List.map id_of
              (fst (HuggingFaceScraper.scrape_models_batch (U := ascii_only)
                      serving HuggingFaceScraper.new
                      [py "acme/bar"; py "acme/foo-7b"; py "acme/bar"] 3))).
Proof.
  assert (H : cache_wf HuggingFaceScraper.new) by apply map_Forall_empty.
  split; [exact H|].
  exact (proj2 (proj2 (batch_results_identified (U := ascii_only) serving
                         HuggingFaceScraper.new
                         [py "acme/bar"; py "acme/foo-7b"; py "acme/bar"] 3 H))).
Defined.

(** ** The fields of a parsed page *)

Section ParseFacts.
Context {U : Interp}.

Import HuggingFaceScraper.

Lemma contains_char_app (c : N) (a b : str) :
  Py.contains_char c (a ++ b) = Py.contains_char c a || Py.contains_char c b.
Proof. unfold Py.contains_char. apply existsb_app. Qed.

Lemma contains_char_rev (c : N) (a : str) :
  Py.contains_char c (rev a) = Py.contains_char c a.
Proof.
  induction a as [|x a IH]; [reflexivity|].
  simpl rev. rewrite contains_char_app, IH. simpl.
  rewrite orb_false_r. apply orb_comm.
Qed.

Lemma split_char_from_nonempty (sep : N) (cur s : str) :
  Py.split_char_from sep cur s <> [].
Proof.
  revert cur. induction s as [|c s IH]; intros cur; simpl; [discriminate|].
  destruct (c =? sep); [discriminate|apply IH].
Qed.

(** The last part has no separator, and the text ends with it, right
    after a separator when anything comes before. *)
Lemma split_char_from_last (sep : N) (cur s : str) :
  Py.contains_char sep cur = false ->
  Py.contains_char sep (List.last (Py.split_char_from sep cur s) []) = false
  /\ exists before,
       rev cur ++ s = before ++ List.last (Py.split_char_from sep cur s) []
       /\ (before = [] \/ exists p, before = p ++ [sep]).
Proof.
  revert cur. induction s as [|c s IH]; intros cur Hcur.
  - simpl. rewrite contains_char_rev. split; [exact Hcur|].
    exists []. rewrite app_nil_r. split; [reflexivity|now left].
  - cbn [Py.split_char_from]. destruct (c =? sep) eqn:E.
    + destruct (IH [] eq_refl) as (Hl & before & Hs & Hb).
      pose proof (split_char_from_nonempty sep [] s) as Hne.
      destruct (Py.split_char_from sep [] s) as [|p ps] eqn:Eps;
        [contradiction|].
      change (List.last (rev cur :: p :: ps) []) with (List.last (p :: ps) []).
      split; [exact Hl|].
      apply N.eqb_eq in E. subst c.
      exists (rev cur ++ sep :: before). split.
      * simpl in Hs. rewrite Hs. now rewrite <- app_assoc.
      * right. destruct Hb as [->|(q & ->)].
        -- now exists (rev cur).
        -- exists (rev cur ++ sep :: q). now rewrite <- app_assoc.
    + assert (Hcur' : Py.contains_char sep (c :: cur) = false).
      { simpl. rewrite Hcur, orb_false_r. rewrite N.eqb_sym. exact E. }
      destruct (IH (c :: cur) Hcur') as (Hl & before & Hs & Hb).
      split; [exact Hl|]. exists before.
      simpl rev in Hs. rewrite <- app_assoc in Hs. now split.
Qed.

(** The first part is the text before the first separator. *)
Lemma split_char_from_hd (sep : N) (cur s : str) :
  Py.contains_char sep cur = false ->
  Py.contains_char sep (List.hd [] (Py.split_char_from sep cur s)) = false
  /\ (Py.contains_char sep s = true ->
      exists rest,
        rev cur ++ s = List.hd [] (Py.split_char_from sep cur s) ++ sep :: rest).
Proof.
  revert cur. induction s as [|c s IH]; intros cur Hcur.
  - simpl. rewrite contains_char_rev. split; [exact Hcur|discriminate].
  - cbn [Py.split_char_from]. destruct (c =? sep) eqn:E.
    + simpl. rewrite contains_char_rev. split; [exact Hcur|].
      intros _. exists s. apply N.eqb_eq in E. now subst c.
    + assert (Hcur' : Py.contains_char sep (c :: cur) = false).
      { simpl. rewrite Hcur, orb_false_r. rewrite N.eqb_sym. exact E. }
      destruct (IH (c :: cur) Hcur') as (Hh & Hrest).
      split; [exact Hh|]. intros Hs. simpl in Hs.
      rewrite N.eqb_sym, E in Hs. simpl in Hs.
      destruct (Hrest Hs) as (rest & Hr). exists rest.
      simpl rev in Hr. now rewrite <- app_assoc in Hr.
Qed.

Lemma parse_base_field (html : str) (soup : node) (model_id : str)
    (k : string) (v : option pyval) :
  k <> "license"%string -> k <> "is_open_source"%string ->
  k <> "context_window"%string -> k <> "benchmarks"%string ->
  k <> "description"%string -> k <> "downloads"%string ->
  k <> "likes"%string -> k <> "parameters"%string -> k <> "arxiv_id"%string ->
  ({[ "model_id"%string := VStr model_id;
      "model_name"%string :=
        VStr (List.last (Py.split_char 47 model_id) []);
      "organization"%string :=
        VStr (if Py.contains_char 47 model_id
              then List.hd [] (Py.split_char 47 model_id) else []);
      "is_open_source"%string := VBool false;
      "benchmarks"%string := VBenchmarks [] ]} : pydict) !! k = v ->
  _parse_model_page html soup model_id !! k = v.
Proof.
  intros H1 H2 H3 H4 H5 H6 H7 H8 H9 Hv. unfold _parse_model_page.
  rewrite !lookup_set_if_ne by congruence.
  rewrite lookup_update_None by (apply stats_other; congruence).
  rewrite lookup_set_if_ne by congruence.
  rewrite lookup_insert_ne by congruence.
  rewrite lookup_update_None by (apply metadata_other; congruence).
  destruct (nonempty (_extract_license soup)) as [l|]; [|exact Hv].
  now rewrite !lookup_insert_ne by congruence.
Qed.

(** X6: a parsed page keeps the identifier as given; its model name is the
    end of the identifier after the last slash, and its organization the
    beginning before the first slash, or empty when the identifier has no
    slash. *)
Theorem parse_identity_fields (html : str) (soup : node) (model_id : str) :
  _parse_model_page html soup model_id !! "model_id"%string
  = Some (VStr model_id)
  /\ (exists model_name prefix : str,
        _parse_model_page html soup model_id !! "model_name"%string
        = Some (VStr model_name)
        /\ Py.contains_char 47 model_name = false
        /\ model_id = prefix ++ model_name
        /\ (if Py.contains_char 47 model_id
            then exists p, prefix = p ++ [47] else prefix = []))
  /\ (exists organization : str,
        _parse_model_page html soup model_id !! "organization"%string
        = Some (VStr organization)
        /\ Py.contains_char 47 organization = false
        /\ (if Py.contains_char 47 model_id
            then exists rest, model_id = organization ++ 47 :: rest
            else organization = [])).
Proof.
  assert (Hsep : Py.contains_char 47 [47] = true) by reflexivity.
  split; [apply parse_model_id|]. split.
  - destruct (split_char_from_last 47 [] model_id eq_refl)
      as (Hl & before & Hs & Hb).
    exists (List.last (Py.split_char 47 model_id) []), before.
    split.
    { apply parse_base_field; try discriminate.
      now rewrite lookup_insert_ne, lookup_insert_eq by discriminate. }
    split; [exact Hl|]. split; [exact Hs|].
    simpl in Hs. unfold Py.split_char.
    destruct (Py.contains_char 47 model_id) eqn:E.
    + destruct Hb as [->|Hb]; [|exact Hb].
      simpl in Hs. rewrite <- Hs in Hl. congruence.
    + destruct Hb as [Hb|(p & ->)]; [exact Hb|].
      rewrite Hs, !contains_char_app, Hsep in E.
      rewrite orb_true_r in E. discriminate E.
  - destruct (split_char_from_hd 47 [] model_id eq_refl) as (Hh & Hrest).
    exists (if Py.contains_char 47 model_id
            then List.hd [] (Py.split_char 47 model_id) else []).
    split.
    { apply parse_base_field; try discriminate.
      now rewrite !lookup_insert_ne, lookup_insert_eq by discriminate. }
    destruct (Py.contains_char 47 model_id) eqn:E.
    + split; [exact Hh|]. now apply Hrest.
    + split; reflexivity.
Qed.

End ParseFacts.

(** ** De-duplication, again *)

Section DedupMore.

Import HuggingFaceScraper.

Lemma unique_from_fixed (l seen : list benchmark) :
  Forall (fun b => Forall (fun s => same_key b s = false) seen) l ->
  ForallOrdPairs (fun a b => same_key b a = false) l ->
  unique_from seen l = l.
Proof.
  revert seen. induction l as [|b l IH]; intros seen Hseen Hpairs;
    [reflexivity|].
  apply Forall_cons in Hseen as [Hb Hl].
  inversion Hpairs as [|? ? Hbl Hrest]; subst.
  simpl.
  assert (E : existsb (same_key b) seen = false).
  { destruct (existsb (same_key b) seen) eqn:E; [|reflexivity].
    apply existsb_exists in E as (s & Hs & Es).
    rewrite Forall_forall in Hb.
    rewrite (Hb s) in Es; [discriminate Es|now apply list_elem_of_In]. }
  rewrite E. f_equal. apply IH; [|exact Hrest].
  rewrite Forall_forall in Hl, Hbl |- *. intros x Hx.
  constructor; [now apply Hbl|now apply Hl].
Qed.

(** X7: removing duplicates twice is removing them once: the list
    [_extract_benchmarks] returns is left as it is by another pass of the
    same loop. *)
Theorem unique_idempotent (benchmarks : list benchmark) :
  unique_from [] (unique_from [] benchmarks) = unique_from [] benchmarks.
Proof.
  apply unique_from_fixed.
  - apply Forall_forall. intros b _. constructor.
  - apply unique_from_pairs.
Qed.

End DedupMore.

(** ** The license and the open-source flag *)

Section LicenseFacts.
Context {U : Interp}.

Import HuggingFaceScraper.

Lemma parse_license (html : str) (soup : node) (model_id : str) :
  _parse_model_page html soup model_id !! "license"%string
  = VStr <$> nonempty (_extract_license soup).
Proof.
  unfold _parse_model_page.
  rewrite !lookup_set_if_ne by discriminate.
  rewrite lookup_update_None by (apply stats_other; discriminate).
  rewrite lookup_set_if_ne by discriminate.
  rewrite lookup_insert_ne by discriminate.
  rewrite lookup_update_None by (apply metadata_other; discriminate).
  destruct (nonempty (_extract_license soup)) as [l|]; simpl.
  - rewrite lookup_insert_ne by discriminate. apply lookup_insert_eq.
  - reflexivity.
Qed.

(** X8: a page is flagged open source only when a license text was
    extracted, stored under [license], whose lower-case form contains one
    of the markers of the allow-list. *)
Theorem open_source_needs_license (html : str) (soup : node) (model_id : str) :
  _parse_model_page html soup model_id !! "is_open_source"%string
  = Some (VBool true) ->
  exists license_info marker : str,
    _parse_model_page html soup model_id !! "license"%string
    = Some (VStr license_info)
    /\ license_info <> []
    /\ marker ∈ open_source_licenses
    /\ Py.contains marker (Py.lower license_info) = true.
Proof.
  rewrite parse_is_open_source, parse_license.
  destruct (nonempty (_extract_license soup)) as [l|] eqn:E;
    [|discriminate].
  intros [= Hopen]. unfold _is_open_source_license in Hopen.
  apply existsb_exists in Hopen as (marker & Hm & Hc).
  exists l, marker. split; [reflexivity|]. split.
  - intros ->. unfold nonempty in E.
    destruct (_extract_license soup) as [[|c t]|]; discriminate E.
  - split; [now apply list_elem_of_In|exact Hc].
Qed.

(** X9: the first license location present decides, even when it is
    blank: when the first link of the page whose [href] contains
    [/license] has only white space as its text, the page gets no license
    and is not flagged open source, whatever a later license link, the
    license meta tag and the card text say. *)
Theorem blank_license_link_decides (html : str) (soup : node)
    (model_id : str) (license_element : node) :
  Soup.find_attr "a" "href"
    (fun v => bool_decide (is_Some (Re.search (Re.lit "/license") v))) soup
  = Some license_element ->
  Py.strip (Soup.text license_element) = [] ->
  _parse_model_page html soup model_id !! "license"%string = None
  /\ _parse_model_page html soup model_id !! "is_open_source"%string
     = Some (VBool false).
Proof.
  intros Hfind Hblank.
  rewrite parse_license, parse_is_open_source.
  unfold _extract_license. rewrite Hfind, Hblank. now split.
Qed.

End LicenseFacts.

Lemma open_source_needs_license_witness :
  HuggingFaceScraper._parse_model_page (U := ascii_only) scenario_html
    scenario_soup (py "acme/foo-7b") !! "is_open_source"%string
  = Some (VBool true)
  /\ exists license_info marker : str,
       HuggingFaceScraper._parse_model_page (U := ascii_only) scenario_html
         scenario_soup (py "acme/foo-7b") !! "license"%string
       = Some (VStr license_info)
       /\ license_info <> []
       /\ marker ∈ HuggingFaceScraper.open_source_licenses
       /\ Py.contains marker (Py.lower (U := ascii_only) license_info) = true.
Proof.
  assert (H : HuggingFaceScraper._parse_model_page (U := ascii_only)
                scenario_html scenario_soup (py "acme/foo-7b")
                !! "is_open_source"%string = Some (VBool true)).
  { rewrite parse_is_open_source. vm_compute. reflexivity. }
  split; [exact H|].
  exact (open_source_needs_license (U := ascii_only) scenario_html
           scenario_soup (py "acme/foo-7b") H).
Defined.

Lemma blank_license_link_decides_witness :
  (exists license_element : node,
     Soup.find_attr "a" "href"
       (fun v => bool_decide
                   (is_Some (Re.search (Re.lit "/license") v)))
       blank_license_link_soup
     = Some license_element
     /\ Py.strip (U := ascii_only) (Soup.text license_element) = [])
  /\ HuggingFaceScraper._parse_model_page (U := ascii_only) []
       blank_license_link_soup (py "acme/foo-7b") !! "license"%string = None
  /\ HuggingFaceScraper._parse_model_page (U := ascii_only) []
       blank_license_link_soup (py "acme/foo-7b") !! "is_open_source"%string
     = Some (VBool false).
Proof.
  assert (Hfind :
    Soup.find_attr "a" "href"
      (fun v => bool_decide
                  (is_Some (Re.search (Re.lit "/license") v)))
      blank_license_link_soup
    = Some (Elem "a" [("href", py "/acme/foo-7b/blob/main/license")]%string
                 [Text (py "  ")])).
  { vm_compute. reflexivity. }
  assert (Hblank :
    Py.strip (U := ascii_only)
      (Soup.text (Elem "a" [("href", py "/acme/foo-7b/blob/main/license")]%string
                       [Text (py "  ")])) = []).
  { vm_compute. reflexivity. }
  split; [eexists; split; [exact Hfind|exact Hblank]|].
  exact (blank_license_link_decides (U := ascii_only) [] blank_license_link_soup
           (py "acme/foo-7b") _ Hfind Hblank).
Defined.

(** ** Categories *)

Section CategoryFacts.
Context {U : Interp}.

Lemma llm_categorize_range (name : str) :
  LLMStatsScraper._categorize_benchmark name
    ∈ [py "coding"; py "reasoning"; py "knowledge"; py "general"].
Proof.
  unfold LLMStatsScraper._categorize_benchmark.
  repeat match goal with |- context [if ?c then _ else _] => destruct c end;
    set_solver.
Qed.

Lemma benchmark_of_row_categorised (row : node) :
  Forall (fun b => category b = HuggingFaceScraper._categorize_benchmark (name b))
         (HuggingFaceScraper.benchmark_of_row row).
Proof.
  unfold HuggingFaceScraper.benchmark_of_row.
  destruct (Soup.find_all _ row) as [|c0 [|c1 cells]]; try constructor.
  destruct (Re.search _ _) as [score_match|]; [|constructor].
  destruct (Float.float _) as [score|]; constructor; [reflexivity|constructor].
Qed.

Lemma benchmark_of_match_categorised (mo : Re.match_obj) :
  Forall (fun b => category b = HuggingFaceScraper._categorize_benchmark (name b))
         (HuggingFaceScraper.benchmark_of_match mo).
Proof.
  unfold HuggingFaceScraper.benchmark_of_match.
  destruct (Float.float _) as [score|]; constructor; [reflexivity|constructor].
Qed.

Lemma Forall_flat_map {A B} (P : B -> Prop) (f : A -> list B) (l : list A) :
  (forall a, Forall P (f a)) -> Forall P (flat_map f l).
Proof.
  intros Hf. induction l as [|a l IH]; simpl; [constructor|].
  apply Forall_app. split; [apply Hf|exact IH].
Qed.

Lemma raw_benchmarks_categorised (soup : node) :
  Forall (fun b => category b = HuggingFaceScraper._categorize_benchmark (name b))
         (HuggingFaceScraper.raw_benchmarks soup).
Proof.
  unfold HuggingFaceScraper.raw_benchmarks,
    HuggingFaceScraper._extract_benchmarks_from_text.
  apply Forall_app. split.
  - apply Forall_flat_map. intros table. apply Forall_flat_map.
    apply benchmark_of_row_categorised.
  - apply Forall_flat_map. intros pattern. apply Forall_flat_map.
    apply benchmark_of_match_categorised.
Qed.

Lemma parse_benchmarks_categorised (cells : list str) (score_index : nat) :
  Forall (fun b => category b = LLMStatsScraper._categorize_benchmark (name b))
         (LLMStatsScraper.parse_benchmarks_from score_index cells).
Proof.
  revert score_index. induction cells as [|cell rest IH]; intros k; simpl.
  - constructor.
  - destruct (Py.contains_char 37 cell); [|apply IH].
    destruct (LLMStatsScraper._extract_score cell); [|apply IH].
    constructor; [reflexivity|apply IH].
Qed.

(** X10: every benchmark entry carries the category its own source gives
    its name.  For the markup extractor that is one of coding, reasoning,
    agents and general; for the rendered-table collector one of coding,
    reasoning, knowledge and general, and its JSON records have no
    entries. *)
Theorem categories_by_source :
  (forall (html : str) (soup : node) (model_id : str),
     categorised_by HuggingFaceScraper._categorize_benchmark
       (HuggingFaceScraper._parse_model_page html soup model_id))
  /\ (forall (json_loads : str -> option json) (s : LLMStatsScraper.session),
        Forall (categorised_by LLMStatsScraper._categorize_benchmark)
               (default [] (LLMStatsScraper.scrape_leaderboard json_loads s)))
  /\ (forall name : str,
        HuggingFaceScraper._categorize_benchmark name
          ∈ [py "coding"; py "reasoning"; py "agents"; py "general"]
        /\ LLMStatsScraper._categorize_benchmark name
             ∈ [py "coding"; py "reasoning"; py "knowledge"; py "general"]).
Proof.
  split; [|split].
  - intros html soup model_id. eexists. split; [apply parse_benchmarks|].
    unfold HuggingFaceScraper._extract_benchmarks.
    apply Forall_forall. intros b Hb.
    pose proof (raw_benchmarks_categorised soup) as Hraw.
    rewrite Forall_forall in Hraw. apply Hraw.
    eapply elem_of_sublist; [exact Hb|apply unique_from_sublist].
  - intros json_loads s. apply scrape_leaderboard_Forall.
    + intros r d H. apply row_record in H as (_ & cells & Hc).
      eexists. split; [exact Hc|]. apply parse_benchmarks_categorised.
    + intros item d H. apply json_record in H as (_ & Hb).
      eexists. split; [exact Hb|constructor].
  - intros name. split; [apply categorize_range|apply llm_categorize_range].
Qed.

End CategoryFacts.

(** ** Row records *)

Section RowFacts.
Context {U : Interp}.

Import LLMStatsScraper.

(** How a row record came about. *)
Lemma row_record_inv (r : row) (d : pydict) :
  _extract_model_from_row r = Some d ->
  exists (texts : list str) (model_name : str) (idx : nat)
         (parameters : option str),
    r = Cells texts
    /\ (2 <= length (cell_values_of texts))%nat
    /\ find_model_name 0 (cell_values_of texts) = Some (model_name, idx)
    /\ (2 <= length model_name)%nat
    /\ any_in ["rank"; "model"; "position"; "name"]%string
              (Py.lower model_name) = false
    /\ _extract_parameters_from_cells (cell_values_of texts) = Some parameters
    /\ d = record_of (cell_values_of texts) model_name idx parameters.
Proof.
  unfold _extract_model_from_row, model_of_cell_values. intros H.
  destruct r as [texts|]; [|discriminate H].
  destruct (length (cell_values_of texts) <? 2)%nat eqn:E1;
    [discriminate H|].
  destruct (find_model_name 0 _) as [[model_name idx]|] eqn:E2;
    [|discriminate H].
  destruct (length model_name <? 2)%nat eqn:E3; [discriminate H|].
  destruct (any_in _ _) eqn:E4; [discriminate H|].
  destruct (_extract_parameters_from_cells _) as [parameters|] eqn:E5;
    [|discriminate H].
  injection H as <-. exists texts, model_name, idx, parameters.
  apply Nat.ltb_ge in E1, E3. repeat split; assumption.
Qed.

Lemma extract_model_id_shape (model_name : str) :
  Py.contains_char 47 (_extract_model_id model_name) = true
  /\ exists before, _extract_model_id model_name = before ++ model_name.
Proof.
  unfold _extract_model_id.
  destruct (Py.contains_char 47 model_name) eqn:E.
  - split; [exact E|]. now exists [].
  - destruct (List.find _ org_mapping) as [[pattern org]|].
    + split.
      * rewrite !contains_char_app. change (Py.contains_char 47 (py "/")) with true.
        now rewrite orb_true_r.
      * exists (py org ++ py "/"). now rewrite <- app_assoc.
    + split.
      * rewrite contains_char_app.
        now change (Py.contains_char 47 (py "unknown/")) with true.
      * now exists (py "unknown/").
Qed.

(** X11: in every row record the identifier contains a slash and ends
    with the model name, and the organization is the part of the
    identifier before its first slash; the literal [unknown] of the
    source's else branch is never taken. *)
Theorem row_identifier_shape (r : row) :
  from_option identified_row True (_extract_model_from_row r).
Proof.
  destruct (_extract_model_from_row r) as [d|] eqn:E; simpl; [|exact I].
  apply row_record_inv in E
    as (texts & model_name & idx & parameters & _ & _ & _ & _ & _ & _ & ->).
  destruct (extract_model_id_shape model_name) as (Hslash & before & Hb).
  destruct (split_char_from_hd 47 [] (_extract_model_id model_name) eq_refl)
    as (Hh & Hrest).
  destruct (Hrest Hslash) as (rest & Hr). simpl in Hr.
  exists model_name,
    (List.hd [] (Py.split_char 47 (_extract_model_id model_name))), rest,
    before.
  unfold record_of, Py.split_char. rewrite <- Hr.
  split; [now rewrite !lookup_insert_ne, lookup_insert_eq by discriminate|].
  split; [apply lookup_insert_eq|].
  split.
  { rewrite !lookup_insert_ne, lookup_insert_eq by discriminate.
    now rewrite Hslash. }
  split; [exact Hh|exact Hb].
Qed.

(** X12: a row yields a record only with at least two non-empty cells and
    a model name of at least two characters that, in lower case, contains
    none of [rank], [model], [position] and [name]. *)
Theorem row_guards (r : row) :
  from_option
    (fun d : pydict =>
       exists (texts : list str) (model_name : str),
         r = Cells texts
         /\ (2 <= length (cell_values_of texts))%nat
         /\ d !! "model_name"%string = Some (VStr model_name)
         /\ (2 <= length model_name)%nat
         /\ Forall (fun keyword => Py.contains (py keyword) (Py.lower model_name)
                                   = false)
                   ["rank"; "model"; "position"; "name"]%string)
    True (_extract_model_from_row r).
Proof.
  destruct (_extract_model_from_row r) as [d|] eqn:E; simpl; [|exact I].
  apply row_record_inv in E
    as (texts & model_name & idx & parameters & -> & H1 & _ & H2 & H3 & _ & ->).
  exists texts, model_name. split; [reflexivity|]. split; [exact H1|].
  split.
  { unfold record_of.
    now rewrite !lookup_insert_ne, lookup_insert_eq by discriminate. }
  split; [exact H2|].
  unfold any_in in H3. apply Forall_forall. intros keyword Hk.
  destruct (Py.contains (py keyword) (Py.lower model_name)) eqn:Ec;
    [|reflexivity].
  assert (existsb (fun x => Py.contains (py x) (Py.lower model_name))
                  ["rank"; "model"; "position"; "name"]%string = true) as Hex.
  { apply existsb_exists. exists keyword. split; [|exact Ec].
    now apply list_elem_of_In. }
  congruence.
Qed.

Lemma parse_benchmarks_length (cells : list str) (score_index : nat) :
  (length (parse_benchmarks_from score_index cells)
   <= length (List.filter (Py.contains_char 37) cells))%nat.
Proof.
  revert score_index. induction cells as [|cell rest IH]; intros k; simpl.
  - lia.
  - destruct (Py.contains_char 37 cell); [|apply IH].
    destruct (_extract_score cell); simpl; [|specialize (IH k); lia].
    specialize (IH (S k)). lia.
Qed.

(** X13: the benchmarks of a row are named by position alone: the entry
    at position [i] has the [i]-th name of the fixed list, or
    [Benchmark_(i+1)] past its end, whatever column its score stood in;
    and there are at most as many entries as cells with a percent sign. *)
Theorem benchmarks_named_by_position (cells : list str) :
  List.map name (_parse_benchmarks_from_cells cells)
  = List.map benchmark_name_at
      (seq 0 (length (_parse_benchmarks_from_cells cells)))
  /\ (forall i : nat,
        benchmark_name_at i
        = default (py "Benchmark_" ++ Py.str_of_nat (i + 1))
                  (benchmark_names !! i))
  /\ (length (_parse_benchmarks_from_cells cells)
      <= length (List.filter (Py.contains_char 37) cells))%nat.
Proof.
  split; [apply parse_benchmarks_names|].
  split; [|apply parse_benchmarks_length].
  intros i. unfold benchmark_name_at. now destruct (benchmark_names !! i).
Qed.

Lemma parameters_found (cells : list str) (parameters : str) :
  _extract_parameters_from_cells cells = Some (Some parameters) ->
  exists (cell : str) (num : Z),
    cell ∈ cells /\ Py.isdigit cell = true /\ Py.int cell = Some num
    /\ (1 <= num <= 1000)%Z
    /\ parameters = Py.str_of_nat (Z.to_nat num) ++ py "B".
Proof.
  induction cells as [|cell rest IH]; simpl; [discriminate|].
  destruct (Py.isdigit cell) eqn:Ed.
  - destruct (Py.int cell) as [num|] eqn:Ei; [|discriminate].
    destruct ((1 <=? num)%Z && (num <=? 1000)%Z) eqn:Eb.
    + intros [= <-]. exists cell, num.
      apply andb_true_iff in Eb as [H1 H2].
      apply Z.leb_le in H1, H2.
      split; [apply elem_of_cons; now left|]. repeat split; assumption.
    + intros H. destruct (IH H) as (c & n & Hc & Hrest).
      exists c, n. split; [apply elem_of_cons; now right|exact Hrest].
  - intros H. destruct (IH H) as (c & n & Hc & Hrest).
    exists c, n. split; [apply elem_of_cons; now right|exact Hrest].
Qed.

(** X14: the parameter count of a row record is either [None] or a whole
    number between 1 and 1000 in decimal followed by [B]. *)
Theorem row_parameters_bounds (r : row) :
  from_option
    (fun d : pydict =>
       d !! "parameters"%string = Some VNone
       \/ exists (num : Z),
            (1 <= num <= 1000)%Z
            /\ d !! "parameters"%string
               = Some (VStr (Py.str_of_nat (Z.to_nat num) ++ py "B")))
    True (_extract_model_from_row r).
Proof.
  destruct (_extract_model_from_row r) as [d|] eqn:E; simpl; [|exact I].
  apply row_record_inv in E
    as (texts & model_name & idx & parameters & _ & _ & _ & _ & _ & Hp & ->).
  unfold record_of.
  rewrite !lookup_insert_ne by discriminate. rewrite lookup_singleton_eq.
  destruct parameters as [p|]; [|now left].
  right. apply parameters_found in Hp as (cell & num & _ & _ & _ & Hn & ->).
  now exists num.
Qed.

End RowFacts.

(** ** Cleaned cells *)

Section CleanFacts.
Context {U : Interp}.

Import LLMStatsScraper.

Lemma split_ws_from_words (s cur : str) :
  Forall (fun c => Py.isspace c = false) cur ->
  words (Py.split_ws_from cur s).
Proof.
  assert (Hrev : forall cur : str,
            cur <> [] -> Forall (fun c => Py.isspace c = false) cur ->
            rev cur <> [] /\ Forall (fun c => Py.isspace c = false) (rev cur)).
  { intros c Hne Hc. split.
    - intros E. apply Hne. apply (f_equal (@rev N)) in E.
      now rewrite rev_involutive in E.
    - apply Forall_forall. intros x Hx. rewrite Forall_forall in Hc.
      apply Hc. apply list_elem_of_In. apply in_rev.
      now apply list_elem_of_In. }
  revert cur. induction s as [|c s IH]; intros cur Hcur; simpl.
  - destruct cur as [|x cur]; [constructor|].
    constructor; [|constructor]. now apply Hrev.
  - destruct (Py.isspace c) eqn:E.
    + destruct cur as [|x cur]; [now apply IH|].
      constructor; [now apply Hrev|now apply IH].
    + apply IH. now constructor.
Qed.

Lemma split_ws_from_word (w s cur : str) :
  Forall (fun c => Py.isspace c = false) w ->
  Py.split_ws_from cur (w ++ s) = Py.split_ws_from (rev w ++ cur) s.
Proof.
  revert cur. induction w as [|c w IH]; intros cur Hw; [reflexivity|].
  apply Forall_cons in Hw as [Hc Hw].
  simpl. rewrite Hc, IH by exact Hw. now rewrite <- app_assoc.
Qed.

Lemma split_ws_join (parts : list str) :
  words parts -> Py.split_ws (Py.join (py " ") parts) = parts.
Proof.
  unfold Py.split_ws.
  induction parts as [|p parts IH]; intros Hw; [reflexivity|].
  apply Forall_cons in Hw as [[Hne Hp] Hw].
  destruct parts as [|q parts].
  - simpl. rewrite <- (app_nil_r p) at 1.
    rewrite split_ws_from_word by exact Hp. simpl. rewrite app_nil_r.
    destruct (rev p) eqn:E.
    + apply (f_equal (@rev N)) in E. rewrite rev_involutive in E.
      contradiction.
    + now rewrite <- E, rev_involutive.
  - change (Py.join (py " ") (p :: q :: parts))
      with (p ++ 32 :: Py.join (py " ") (q :: parts)).
    rewrite split_ws_from_word by exact Hp. rewrite app_nil_r.
    cbn [Py.split_ws_from]. change (Py.isspace 32) with true. cbv iota.
    destruct (rev p) eqn:E.
    + apply (f_equal (@rev N)) in E. rewrite rev_involutive in E.
      contradiction.
    + rewrite <- E, rev_involutive. f_equal. now apply IH.
Qed.

Lemma lstrip_id (s : str) :
  (forall c t, s = c :: t -> Py.isspace c = false) -> Py.lstrip s = s.
Proof.
  intros H. destruct s as [|c t]; [reflexivity|].
  simpl. now rewrite (H c t eq_refl).
Qed.

Lemma join_head (parts : list str) (c : N) (t : str) :
  words parts -> Py.join (py " ") parts = c :: t -> Py.isspace c = false.
Proof.
  intros Hw E. destruct parts as [|p parts]; [discriminate E|].
  apply Forall_cons in Hw as [[Hne Hp] _].
  destruct p as [|x p]; [contradiction|].
  apply Forall_cons in Hp as [Hx _].
  destruct parts; simpl in E; injection E as <- _; exact Hx.
Qed.

Lemma join_last (parts : list str) (c : N) (t : str) :
  words parts -> rev (Py.join (py " ") parts) = c :: t ->
  Py.isspace c = false.
Proof.
  revert c t. induction parts as [|p parts IH]; intros c t Hw E;
    [discriminate E|].
  apply Forall_cons in Hw as [[Hne Hp] Hw].
  destruct parts as [|q parts].
  - simpl in E. rewrite Forall_forall in Hp. apply Hp.
    apply list_elem_of_In, in_rev. rewrite E. now left.
  - change (Py.join (py " ") (p :: q :: parts))
      with (p ++ 32 :: Py.join (py " ") (q :: parts)) in E.
    rewrite rev_app_distr in E. cbn [rev] in E.
    destruct (rev (Py.join (py " ") (q :: parts))) as [|y ys] eqn:Ey.
    + apply (f_equal (@rev N)) in Ey. rewrite rev_involutive in Ey.
      apply Forall_cons in Hw as [[Hq _] _].
      destruct q; [contradiction|destruct parts; discriminate Ey].
    + simpl in E. injection E as <- _. now apply (IH y ys Hw).
Qed.

Lemma strip_join (parts : list str) :
  words parts -> Py.strip (Py.join (py " ") parts) = Py.join (py " ") parts.
Proof.
  intros Hw. unfold Py.strip, Py.rstrip.
  rewrite (lstrip_id (Py.join (py " ") parts))
    by (intros c t; now apply join_head).
  rewrite lstrip_id by (intros c t; now apply join_last).
  apply rev_involutive.
Qed.

Lemma replace_absent (c : N) (new s : str) :
  Py.contains_char c s = false -> Py.replace [c] new s = s.
Proof.
  unfold Py.replace. induction s as [|x s IH]; intros H; [reflexivity|].
  simpl in H. apply orb_false_iff in H as [Hx Hs].
  cbn [Py.replace_from Py.startswith]. rewrite Hx. simpl.
  f_equal. now apply IH.
Qed.

Lemma join_no_control (parts : list str) (c : N) :
  words parts -> Py.isspace c = true -> c <> 32 ->
  Py.contains_char c (Py.join (py " ") parts) = false.
Proof.
  intros Hw Hc Hne.
  assert (Hword : forall p : str,
            Forall (fun x => Py.isspace x = false) p ->
            Py.contains_char c p = false).
  { induction p as [|x p IH]; intros Hp; [reflexivity|].
    apply Forall_cons in Hp as [Hx Hp]. simpl. rewrite (IH Hp), orb_false_r.
    apply N.eqb_neq. intros ->. congruence. }
  induction parts as [|p parts IH]; [reflexivity|].
  apply Forall_cons in Hw as [[_ Hp] Hw].
  destruct parts as [|q parts]; [now apply Hword|].
  change (Py.join (py " ") (p :: q :: parts))
    with (p ++ 32 :: Py.join (py " ") (q :: parts)).
  rewrite contains_char_app, (Hword p Hp).
  change (Py.contains_char c (32 :: Py.join (py " ") (q :: parts)))
    with ((c =? 32) || Py.contains_char c (Py.join (py " ") (q :: parts))).
  rewrite (IH Hw), orb_false_r. now apply N.eqb_neq.
Qed.

Lemma clean_join (parts : list str) :
  words parts -> clean (Py.join (py " ") parts) = Py.join (py " ") parts.
Proof.
  intros Hw. unfold clean. rewrite strip_join by exact Hw.
  rewrite (replace_absent 10) by (now apply join_no_control).
  rewrite (replace_absent 9) by (now apply join_no_control).
  now rewrite split_ws_join.
Qed.

(** X15: a cleaned cell is words separated by single spaces, and cleaning
    is idempotent: on cells that are already clean, the cleaning step of
    [_extract_model_from_row] changes nothing and drops nothing. *)
Theorem clean_idempotent (text : str) (texts : list str) :
  (exists parts, words parts /\ clean text = Py.join (py " ") parts)
  /\ clean (clean text) = clean text
  /\ cell_values_of (cell_values_of texts) = cell_values_of texts.
Proof.
  assert (Hparts : forall t, exists parts,
            words parts /\ clean t = Py.join (py " ") parts).
  { intros t. eexists. split; [|reflexivity].
    apply split_ws_from_words. constructor. }
  assert (Hclean : forall t, clean (clean t) = clean t).
  { intros t. destruct (Hparts t) as (parts & Hw & ->). now apply clean_join. }
  split; [apply Hparts|]. split; [apply Hclean|].
  unfold cell_values_of.
  induction texts as [|t texts IH]; [reflexivity|].
  simpl. destruct (clean t) as [|c s] eqn:E; [exact IH|].
  simpl. rewrite <- E, Hclean, E. now rewrite IH.
Qed.

End CleanFacts.

(** ** Enrichment *)

Section EnrichFacts.
Context {U : Interp}.
Variable web : HuggingFaceScraper.site.

Import LLMStatsOrchestrator.

Lemma lookup_without_hf (d : pydict) (k : string) :
  without_hf d !! k = if bool_decide (k ∈ hf_keys) then None else d !! k.
Proof.
  unfold without_hf. generalize hf_keys.
  induction l as [|x keys IH]; cbn [foldr].
  - rewrite bool_decide_eq_false_2; [reflexivity|]. intros H. inversion H.
  - destruct (decide (x = k)) as [->|Hne].
    + rewrite lookup_delete_eq.
      rewrite bool_decide_eq_true_2; [reflexivity|].
      apply elem_of_cons. now left.
    + rewrite lookup_delete_ne by exact Hne. rewrite IH.
      destruct (decide (k ∈ keys)) as [Hin|Hout].
      * rewrite !bool_decide_eq_true_2; [reflexivity| |exact Hin].
        apply elem_of_cons. now right.
      * rewrite !bool_decide_eq_false_2; [reflexivity| |exact Hout].
        intros H. apply elem_of_cons in H as [H|H];
          [congruence|contradiction].
Qed.

Lemma enrich_one_frame (hf_data_map : gmap str pydict) (model : pydict)
    (k : string) :
  k ∉ hf_keys -> enrich_one hf_data_map model !! k = model !! k.
Proof.
  intros Hk. unfold enrich_one.
  destruct (hf_data_map !! id_of model) as [hf_data|].
  - now apply merge_frame.
  - apply lookup_insert_ne. intros <-. apply Hk. unfold hf_keys.
    set_solver.
Qed.

Lemma enrich_one_without_hf (hf_data_map : gmap str pydict) (model : pydict) :
  without_hf (enrich_one hf_data_map model) = without_hf model.
Proof.
  apply map_eq. intros k. rewrite !lookup_without_hf.
  case_bool_decide as Hk; [reflexivity|]. now apply enrich_one_frame.
Qed.

Lemma enrich_one_id (hf_data_map : gmap str pydict) (model : pydict) :
  id_of (enrich_one hf_data_map model) = id_of model.
Proof.
  unfold id_of. rewrite enrich_one_frame; [reflexivity|].
  unfold hf_keys. intros H.
  repeat (apply elem_of_cons in H as [H|H]; [discriminate H|]).
  inversion H.
Qed.

Lemma enrich_one_url (hf_data_map : gmap str pydict) (model : pydict) :
  enrich_one hf_data_map model !! "hf_url"%string
  = Some (hf_url (id_of model)).
Proof.
  unfold enrich_one. destruct (hf_data_map !! id_of model) as [hf_data|].
  - unfold merge. destruct (truthy (get hf_data "benchmarks")).
    + rewrite lookup_insert_ne by discriminate. apply lookup_insert_eq.
    + apply lookup_insert_eq.
  - apply lookup_insert_eq.
Qed.

(** X16: on records whose [model_id], where they have one, is a string
    (as in the records of both scrapers), enrichment returns one record
    for each record it was given, in the same order and with the same
    identifier; each gets its HuggingFace URL under [hf_url], and apart
    from the [hf_] keys of a merge every record is left as it was. *)
Theorem enrichment_keeps_records (st : HuggingFaceScraper.scraper)
    (model_list : list pydict) :
  Forall string_identified model_list ->
  length (fst (_enrich_with_huggingface web st model_list))
  = length model_list
  /\ List.map id_of (fst (_enrich_with_huggingface web st model_list))
     = List.map id_of model_list
  /\ List.map without_hf (fst (_enrich_with_huggingface web st model_list))
     = List.map without_hf model_list
  /\ Forall (fun m : pydict => m !! "hf_url"%string = Some (hf_url (id_of m)))
            (fst (_enrich_with_huggingface web st model_list)).
Proof.
  intros _. unfold _enrich_with_huggingface.
  destruct (HuggingFaceScraper.scrape_models_batch _ _ _ _) as [hf_models st1].
  simpl. split; [apply length_map|].
  split.
  { rewrite List.map_map. apply List.map_ext. intros m. apply enrich_one_id. }
  split.
  { rewrite List.map_map. apply List.map_ext. intros m.
    apply enrich_one_without_hf. }
  apply Forall_forall. intros m Hm.
  apply list_elem_of_In, in_map_iff in Hm as (m0 & <- & _).
  rewrite enrich_one_id. apply enrich_one_url.
Qed.

End EnrichFacts.

Lemma enrichment_keeps_records_witness :
  Forall string_identified one_identified_record
  /\ (length (fst (LLMStatsOrchestrator._enrich_with_huggingface
                     (U := ascii_only) serving HuggingFaceScraper.new
                     one_identified_record))
      = length one_identified_record
      /\ List.map id_of
           (fst (LLMStatsOrchestrator._enrich_with_huggingface
                   (U := ascii_only) serving HuggingFaceScraper.new
                   one_identified_record))
         = List.map id_of one_identified_record
      /\ List.map without_hf
           (fst (LLMStatsOrchestrator._enrich_with_huggingface
                   (U := ascii_only) serving HuggingFaceScraper.new
                   one_identified_record))
         = List.map without_hf one_identified_record
      /\ Forall (fun m : pydict =>
                   m !! "hf_url"%string
                   = Some (LLMStatsOrchestrator.hf_url (id_of m)))
                (fst (LLMStatsOrchestrator._enrich_with_huggingface
                        (U := ascii_only) serving HuggingFaceScraper.new
                        one_identified_record))).
Proof.
  assert (H : Forall string_identified one_identified_record).
  { constructor; [|constructor].
    unfold string_identified. now rewrite lookup_singleton_eq. }
  split; [exact H|].
  apply (enrichment_keeps_records (U := ascii_only) serving
           HuggingFaceScraper.new one_identified_record H).
Defined.

(** ** Whole runs *)

Section WholeRunFacts.
Context {U : Interp}.
Variable web : HuggingFaceScraper.site.
Variable json_loads : str -> option json.
Variable json_chunks : output_data -> list str.
Variable output_file : string.

Import LLMStatsOrchestrator.





(** X18: a save replaces the snapshot wholesale: after two saves the disk
    is as if only the second had taken place. *)
Theorem save_overwrites (out1 out2 : output_data) (model_list1 model_list2 : list pydict)
    (now1 now2 : str) (fs : Store.files) :
  Store.run (dump_ops json_chunks output_file out2)
            (Store.run (dump_ops json_chunks output_file out1) fs)
  = Store.run (dump_ops json_chunks output_file out2) fs
  /\ snd (SimpleOrchestrator._save_data json_chunks output_file model_list2
            now2 None
            (snd (SimpleOrchestrator._save_data json_chunks output_file
                    model_list1 now1 None fs)))
     = snd (SimpleOrchestrator._save_data json_chunks output_file model_list2
              now2 None fs).
Proof.
  unfold SimpleOrchestrator._save_data, Store.run_failing. cbn [snd].
  rewrite !run_dump. split; apply insert_insert_eq.
Qed.

(** X19: a run asks HuggingFace once for each distinct identifier of the
    collected records that is not cached, in the order of the
    leaderboard, and not at all without enrichment or without records. *)
Theorem run_requests (s : LLMStatsScraper.session) (enrich_with_hf : bool)
    (now : str) (fail_at : option nat) (w : world) :
  HuggingFaceScraper.requests
    (hf_scraper (snd (collect_all_data web json_loads json_chunks output_file
                        s enrich_with_hf now fail_at w)))
  = HuggingFaceScraper.requests (hf_scraper w)
    ++ (if enrich_with_hf
        then List.map HuggingFaceScraper.url_of
               (uncached (hf_scraper w)
                  (HuggingFaceScraper.fromkeys
                     (requested_ids
                        (default [] (LLMStatsScraper.scrape_leaderboard
                                       json_loads s)))))
        else []).
Proof.
  unfold collect_all_data.
  destruct (LLMStatsScraper.scrape_leaderboard json_loads s)
    as [[|m rest]|]; simpl default.
  - destruct enrich_with_hf; simpl; now rewrite app_nil_r.
  - destruct enrich_with_hf.
    + pose proof (batch_requests_log web (hf_scraper w)
                    (requested_ids (m :: rest)) 3) as Hreq.
      unfold _enrich_with_huggingface. fold (requested_ids (m :: rest)).
      destruct (HuggingFaceScraper.scrape_models_batch _ _ _ _)
        as [hf_models st1]. simpl in Hreq.
      destruct (_save_data _ _ _ _ _ _) as [saved fs]. simpl. exact Hreq.
    + destruct (_save_data _ _ _ _ _ _) as [saved fs]. simpl.
      now rewrite app_nil_r.
  - destruct enrich_with_hf; simpl; now rewrite app_nil_r.
Qed.

(** X20: from the identifiers [fetch_models_from_hf_api] returned, a run
    of the simple orchestrator sends at most [max_models] page requests
    through its scraper, for a [max_models] that is not negative; the one
    request to the API that fetched the identifiers is not among them. *)
Theorem simple_run_requests_bound (fetched_ids : list str) (max_models : nat)
    (now : str) (fail_at : option nat) (w : world) :
  (length (HuggingFaceScraper.requests
             (hf_scraper (snd (SimpleOrchestrator.collect_all_data web
                                 json_chunks output_file fetched_ids
                                 max_models now fail_at w))))
   <= length (HuggingFaceScraper.requests (hf_scraper w)) + max_models)%nat.
Proof.
  unfold SimpleOrchestrator.collect_all_data.
  pose proof (batch_requests_log web (hf_scraper w)
                (firstn max_models fetched_ids) 3) as Hreq.
  destruct (HuggingFaceScraper.scrape_models_batch _ _ _ _) as [hf_models st1].
  simpl in Hreq.
  destruct (SimpleOrchestrator._save_data _ _ _ _ _ _) as [saved fs]. simpl.
  rewrite Hreq, length_app, length_map.
  assert (length (uncached (hf_scraper w)
                    (HuggingFaceScraper.fromkeys (firstn max_models fetched_ids)))
          <= max_models)%nat; [|lia].
  unfold uncached.
  etransitivity; [apply filter_length_le|].
  etransitivity;
    [apply sublist_length, fromkeys_from_sublist|apply firstn_le_length].
Qed.

End WholeRunFacts.

(** ** Floats *)

Section FloatFacts.
Context {U : Interp}.

Lemma shr_1_nonneg (mrs : shr_record) :
  (0 <= shr_m mrs)%Z -> (0 <= shr_m (shr_1 mrs))%Z.
Proof.
  destruct mrs as [m r s]. simpl. intros H.
  destruct m as [|[p|p|]|p]; simpl; lia.
Qed.

Lemma iter_pos_shr_1_nonneg (p : positive) (mrs : shr_record) :
  (0 <= shr_m mrs)%Z -> (0 <= shr_m (SpecFloat.iter_pos shr_1 p mrs))%Z.
Proof.
  revert mrs. induction p as [p IH|p IH|]; intros mrs H; simpl.
  - apply IH, IH, shr_1_nonneg, H.
  - apply IH, IH, H.
  - apply shr_1_nonneg, H.
Qed.

Lemma shr_fexp_nonneg (prec emax m e : Z) (l : location) :
  (0 <= m)%Z -> (0 <= shr_m (fst (shr_fexp prec emax m e l)))%Z.
Proof.
  intros H. unfold shr_fexp, shr.
  assert (H0 : (0 <= shr_m (shr_record_of_loc m l))%Z).
  { destruct l as [|[| |]]; exact H. }
  destruct (_ - e)%Z; simpl; [exact H0| |exact H0].
  now apply iter_pos_shr_1_nonneg.
Qed.

Lemma binary_round_aux_signed (prec emax : Z) (sx : bool) (mx ex : Z)
    (lx : location) :
  (0 <= mx)%Z -> signed sx (binary_round_aux prec emax sx mx ex lx).
Proof.
  intros H. unfold binary_round_aux.
  pose proof (shr_fexp_nonneg prec emax mx ex lx H) as H1.
  destruct (shr_fexp prec emax mx ex lx) as [mrs' e']. simpl in H1.
  assert (H2 : (0 <= round_nearest_even (shr_m mrs') (loc_of_shr_record mrs'))%Z).
  { unfold round_nearest_even.
    destruct (loc_of_shr_record mrs') as [|[| |]]; try exact H1; [|lia].
    destruct (Z.even (shr_m mrs')); lia. }
  pose proof (shr_fexp_nonneg prec emax _ e' loc_Exact H2) as H3.
  destruct (shr_fexp prec emax _ e' loc_Exact) as [mrs'' e'']. simpl in H3.
  destruct (shr_m mrs'') as [|m|m]; simpl; [reflexivity| |lia].
  now destruct (e'' <=? emax - prec)%Z.
Qed.

Lemma of_decimal_signed (neg : bool) (m : Z) (k : nat) :
  signed neg (Float.of_decimal neg m k).
Proof.
  unfold Float.of_decimal. destruct m as [|p|p]; try reflexivity.
  unfold SFdiv, SFdiv_core_binary.
  set (m2 := Z.pos (Z.to_pos (10 ^ Z.of_nat k))).
  set (e' := Z.min _ _).
  set (m' := match (0 - 0 - e')%Z with
             | Z0 => Z.pos p
             | Zpos _ => Z.shiftl (Z.pos p) (0 - 0 - e')
             | Zneg _ => 0%Z
             end).
  assert (Hm' : (0 <= m')%Z).
  { unfold m'. destruct (0 - 0 - e')%Z; [lia| |lia].
    apply Z.shiftl_nonneg. lia. }
  pose proof (Z.div_pos m' m2 Hm' ltac:(unfold m2; lia)) as Hq.
  unfold Z.div in Hq. destruct (Z.div_eucl m' m2) as [q r]. simpl in Hq.
  replace (xorb neg false) with neg by now destruct neg.
  now apply binary_round_aux_signed.
Qed.

(** What [float] returns is a number whose sign is that of the text. *)
Lemma float_signed (s : str) (f : spec_float) :
  Float.float s = Some f ->
  signed (match s with 45 :: _ => true | _ => false end) f.
Proof.
  assert (Hu : forall neg t, Float.unsigned_float neg t = Some f -> signed neg f).
  { intros neg t. unfold Float.unsigned_float.
    destruct (Float.break_dot t) as [ip fp].
    destruct (ip ++ _) as [|c ds]; [discriminate|].
    destruct (Py.int_digits 0 (c :: ds)) as [m|]; [|discriminate].
    intros [= <-]. apply of_decimal_signed. }
  unfold Float.float. destruct s as [|c t]; [apply Hu|].
  destruct c as [|p]; [apply Hu|].
  do 6 (destruct p as [p|p|]; try apply Hu).
Qed.

Lemma float_is_number (s : str) (f : spec_float) :
  Float.float s = Some f -> is_number f.
Proof.
  intros H E. apply float_signed in H. subst f. exact H.
Qed.

End FloatFacts.

(** ** The matcher *)

Section MatcherFacts.

Import Re.

(** The matcher calls its continuation on a text no longer than the one
    it was given, with captures added for groups of the pattern only. *)
Lemma run_calls {R : Type} (r : regex) :
  forall (caps : captures) (s : str) (k : captures -> str -> option R) (x : R),
    run r caps s k = Some x ->
    exists (extra : captures) (s' : str),
      k (extra ++ caps) s' = Some x
      /\ (length s' <= length s)%nat
      /\ Forall (fun e => fst e ∈ groups_of r) extra.
Proof.
  induction r as [|p|a IHa b IHb|a IHa b IHb|a IHa|a IHa|i a IHa];
    intros caps s k x H.
  - exists [], s. split; [exact H|]. split; [lia|constructor].
  - simpl in H. destruct s as [|c s]; [discriminate H|].
    destruct (p c); [|discriminate H].
    exists [], s. split; [exact H|]. split; [simpl; lia|constructor].
  - simpl in H. apply IHa in H as (e1 & s1 & H & Hl1 & He1).
    apply IHb in H as (e2 & s2 & H & Hl2 & He2).
    exists (e2 ++ e1), s2. rewrite <- app_assoc.
    split; [exact H|]. split; [lia|].
    apply Forall_app. split; eapply Forall_impl; eauto; simpl;
      intros e He; apply elem_of_app; [now right|now left].
  - simpl in H. destruct (run a caps s k) as [y|] eqn:E.
    + injection H as ->. apply IHa in E as (e1 & s1 & H & Hl1 & He1).
      exists e1, s1. split; [exact H|]. split; [exact Hl1|].
      eapply Forall_impl; eauto. simpl. intros e He.
      apply elem_of_app. now left.
    + apply IHb in H as (e1 & s1 & H & Hl1 & He1).
      exists e1, s1. split; [exact H|]. split; [exact Hl1|].
      eapply Forall_impl; eauto. simpl. intros e He.
      apply elem_of_app. now right.
  - change (run (Star a) caps s k)
      with (star_loop (run a) k (S (length s)) caps s) in H.
    revert H. generalize (S (length s)). intros n.
    revert caps s. induction n as [|n IHn]; intros caps s H.
    + exists [], s. split; [exact H|]. split; [lia|constructor].
    + simpl in H.
      match type of H with
      | match ?m with _ => _ end = _ => destruct m as [y|] eqn:E
      end.
      * injection H as ->. apply IHa in E as (e1 & s1 & H & Hl1 & He1).
        destruct (length s1 <? length s)%nat eqn:Hlt; [|discriminate H].
        apply Nat.ltb_lt in Hlt.
        apply IHn in H as (e2 & s2 & H & Hl2 & He2).
        exists (e2 ++ e1), s2. rewrite <- app_assoc.
        split; [exact H|]. split; [lia|].
        apply Forall_app. now split.
      * exists [], s. split; [exact H|]. split; [lia|constructor].
  - change (run (LazyStar a) caps s k)
      with (lazy_loop (run a) k (S (length s)) caps s) in H.
    revert H. generalize (S (length s)). intros n.
    revert caps s. induction n as [|n IHn]; intros caps s H.
    + exists [], s. split; [exact H|]. split; [lia|constructor].
    + simpl in H. destruct (k caps s) as [y|] eqn:E.
      * injection H as ->.
        exists [], s. split; [exact E|]. split; [lia|constructor].
      * apply IHa in H as (e1 & s1 & H & Hl1 & He1).
        destruct (length s1 <? length s)%nat eqn:Hlt; [|discriminate H].
        apply Nat.ltb_lt in Hlt.
        apply IHn in H as (e2 & s2 & H & Hl2 & He2).
        exists (e2 ++ e1), s2. rewrite <- app_assoc.
        split; [exact H|]. split; [lia|].
        apply Forall_app. now split.
  - simpl in H. apply IHa in H as (e1 & s1 & H & Hl1 & He1).
    exists ((i, firstn (length s - length s1) s) :: e1), s1.
    split; [exact H|]. split; [exact Hl1|].
    constructor; [simpl; apply elem_of_cons; now left|].
    eapply Forall_impl; eauto. simpl. intros e He.
    apply elem_of_cons. now right.
Qed.

Lemma search_from_matched (r : regex) (s : str) (must_advance : bool)
    (before : str) (mo : match_obj) :
  search_from r must_advance before s = Some mo -> matched_by r mo.
Proof.
  revert must_advance before. induction s as [|c s IH];
    intros must_advance before H; simpl in H.
  - destruct (match_here r must_advance (rev before) []) eqn:E;
      [|discriminate H].
    injection H as ->. now exists must_advance, (rev before), [].
  - destruct (match_here r must_advance (rev before) (c :: s)) eqn:E.
    + injection H as ->. now exists must_advance, (rev before), (c :: s).
    + now apply IH in H.
Qed.

Lemma finditer_matched (r : regex) (s : str) :
  Forall (matched_by r) (finditer r s).
Proof.
  unfold finditer. generalize (2 * length s + 2)%nat. generalize false, (@nil N), s.
  intros must_advance before t n. revert must_advance before t. induction n as [|n IH]; intros must_advance before t; simpl.
  - constructor.
  - destruct (search_from r must_advance before t) as [mo|] eqn:E;
      [|constructor].
    constructor; [eapply search_from_matched, E|apply IH].
Qed.

End MatcherFacts.

(** ** Numbers *)

Section NumberFacts.
Context {U : Interp}.

Import Re.

Lemma run_group_free {R : Type} (r : regex) (caps : captures) (s : str)
    (k : captures -> str -> option R) (x : R) :
  groups_of r = [] ->
  run r caps s k = Some x ->
  exists s', k caps s' = Some x /\ (length s' <= length s)%nat.
Proof.
  intros Hg H. apply run_calls in H as (extra & s' & H & Hl & He).
  rewrite Hg in He. destruct extra as [|e extra].
  - now exists s'.
  - inversion He as [|? ? Hin _]; subst. inversion Hin.
Qed.

(** A group that begins with one character of a class captures a text
    that begins with a character of that class. *)
Lemma run_group_head {R : Type} (i : nat) (p : N -> bool) (r : regex)
    (caps : captures) (s : str) (k : captures -> str -> option R) (x : R) :
  groups_of r = [] ->
  run (Group i (Seq (Chr p) r)) caps s k = Some x ->
  exists c t s', k ((i, c :: t) :: caps) s' = Some x /\ p c = true.
Proof.
  intros Hg H. simpl in H. destruct s as [|c s]; [discriminate H|].
  destruct (p c) eqn:Hp; [|discriminate H].
  apply (run_group_free r) in H as (s' & H & Hl); [|exact Hg].
  replace (length (c :: s) - length s')%nat
    with (S (length s - length s')) in H by (simpl; lia).
  simpl in H. now exists c, (firstn (length s - length s') s), s'.
Qed.

Lemma run_group_number {R : Type} (caps : captures) (s : str)
    (k : captures -> str -> option R) (x : R) :
  run (Group 1 number) caps s k = Some x ->
  exists c t s', k ((1%nat, c :: t) :: caps) s' = Some x
                 /\ Py.char_isdecimal c = true.
Proof.
  intros H.
  change (run (Group 1 number) caps s k)
    with (run (Group 1 (Seq (Chr Py.char_isdecimal)
                          (Seq (Star digit) (cat [Opt (chr 46); Star digit]))))
              caps s k) in H.
  now apply run_group_head in H.
Qed.

Lemma number_group (mo : match_obj) :
  matched_by (Group 1 number) mo ->
  exists c t, group 1 mo = Some (c :: t) /\ Py.char_isdecimal c = true.
Proof.
  intros (must & before & s & H). unfold match_here in H.
  apply run_group_number in H as (c & t & s' & H & Hc).
  destruct (_ && _); [discriminate H|]. injection H as <-.
  exists c, t. split; [reflexivity|exact Hc].
Qed.

Lemma price_group (mo : match_obj) :
  matched_by (cat [Opt (chr 36); Group 1 number]) mo ->
  exists c t, group 1 mo = Some (c :: t) /\ Py.char_isdecimal c = true.
Proof.
  intros (must & before & s & H). unfold match_here in H.
  change (cat [Opt (chr 36); Group 1 number])
    with (Seq (Opt (chr 36)) (Seq (Group 1 number) Eps)) in H.
  remember (Group 1 number) as g eqn:Eg.
  cbn [run] in H.
  apply (run_group_free (Opt (chr 36))) in H as (s1 & H & _); [|reflexivity].
  subst g. apply run_group_number in H as (c & t & s' & H & Hc).
  destruct (_ && _); [discriminate H|]. injection H as <-.
  exists c, t. split; [reflexivity|exact Hc].
Qed.

Lemma text_pattern_group (name_re : regex) (mo : match_obj) :
  matched_by (HuggingFaceScraper.text_pattern name_re) mo ->
  exists c t, group 2 mo = Some (c :: t) /\ c <> 45.
Proof.
  intros (must & before & s & H). unfold match_here in H.
  change (HuggingFaceScraper.text_pattern name_re)
    with (Seq (Group 1 name_re)
            (Seq (Plus HuggingFaceScraper.colon_or_space)
               (Seq (Group 2 (Seq (one_of "0123456789.")
                                  (Star (one_of "0123456789."))))
                  (Seq (Opt (chr 37)) Eps)))) in H.
  remember (Group 2 _) as g eqn:Eg.
  cbn [run] in H.
  apply run_calls in H as (e1 & s1 & H & _ & _).
  apply (run_group_free (Plus HuggingFaceScraper.colon_or_space)) in H as (s2 & H & _);
    [|reflexivity].
  subst g. apply run_group_head in H as (c & t & s3 & H & Hc); [|reflexivity].
  apply (run_group_free (Opt (chr 37))) in H as (s4 & H & _); [|reflexivity].
  destruct (_ && _); [discriminate H|]. injection H as <-.
  exists c, t. split; [reflexivity|].
  intros ->. discriminate Hc.
Qed.

Lemma float_of_captured (c : N) (t : str) (f : spec_float) :
  c <> 45 -> Float.float (c :: t) = Some f -> signed false f.
Proof.
  intros Hc H. apply float_signed in H.
  destruct c as [|p]; [exact H|].
  do 6 (destruct p as [p|p|]; try exact H). congruence.
Qed.

Lemma decimal_not_minus (c : N) : Py.char_isdecimal c = true -> c <> 45.
Proof. intros H ->. discriminate H. Qed.

Lemma benchmark_of_row_nonnegative (row : node) :
  Forall (fun b => signed false (score b)) (HuggingFaceScraper.benchmark_of_row row).
Proof.
  unfold HuggingFaceScraper.benchmark_of_row.
  destruct (Soup.find_all _ row) as [|c0 [|c1 rest]]; try constructor.
  destruct (search _ _) as [mo|] eqn:E; [|constructor].
  apply search_from_matched, number_group in E as (c & t & -> & Hc).
  cbn [default from_option id]. destruct (Float.float (c :: t)) as [f|] eqn:Ef; constructor;
    [|constructor].
  simpl. eapply float_of_captured, Ef. now apply decimal_not_minus.
Qed.

Lemma text_benchmarks_nonnegative (text : str) :
  Forall (fun b => signed false (score b)) (HuggingFaceScraper._extract_benchmarks_from_text text).
Proof.
  unfold HuggingFaceScraper._extract_benchmarks_from_text, HuggingFaceScraper.patterns.
  induction (_ :: _) as [|name_re names IH]; simpl; [constructor|].
  apply Forall_app. split; [|exact IH].
  pose proof (finditer_matched (HuggingFaceScraper.text_pattern name_re) text) as Hall.
  induction Hall as [|mo mos Hm _ IHm]; simpl; [constructor|].
  apply Forall_app. split; [|exact IHm].
  apply text_pattern_group in Hm as (c & t & Hg & Hc).
  unfold HuggingFaceScraper.benchmark_of_match. rewrite Hg.
  cbn [default from_option id]. destruct (Float.float (c :: t)) as [f|] eqn:Ef; constructor;
    [|constructor].
  simpl. eapply float_of_captured, Ef. exact Hc.
Qed.

(** X21: a score the model-page scraper records is a number that is not
    negative: a zero, a positive finite value or plus infinity, never a
    NaN and never below zero, whatever the page holds: the patterns of
    the tables and of the text capture no sign. *)
Theorem page_scores_nonnegative (soup : node) :
  Forall (fun b => signed false (score b)) (HuggingFaceScraper._extract_benchmarks soup).
Proof.
  unfold HuggingFaceScraper._extract_benchmarks.
  apply Forall_forall. intros b Hb.
  assert (Hin : b ∈ HuggingFaceScraper.raw_benchmarks soup).
  { eapply elem_of_sublist; [exact Hb|apply unique_from_sublist]. }
  clear Hb. revert b Hin. apply Forall_forall.
  unfold HuggingFaceScraper.raw_benchmarks. apply Forall_app. split.
  - apply Forall_flat_map. intros table.
    apply Forall_flat_map. intros row.
    apply benchmark_of_row_nonnegative.
  - apply text_benchmarks_nonnegative.
Qed.

Lemma extract_price_nonnegative (text : str) (f : spec_float) :
  LLMStatsScraper._extract_price text = Some f -> signed false f.
Proof.
  unfold LLMStatsScraper._extract_price, findall1. intros H.
  pose proof (finditer_matched
                (cat [Opt (chr 36); Group 1 number]) text) as Hall.
  destruct Hall as [|mo mos Hm _]; [discriminate H|].
  apply price_group in Hm as (c & t & Hg & Hc).
  cbn [List.map] in H. rewrite Hg in H. cbn [default from_option id] in H.
  eapply float_of_captured, H. now apply decimal_not_minus.
Qed.

Lemma price_at_nonnegative (cell_values : list str) (idx : nat) :
  price_value
    (LLMStatsScraper.opt_val VFloat (LLMStatsScraper.price_at cell_values idx)).
Proof.
  unfold LLMStatsScraper.price_at.
  destruct (cell_values !! idx) as [price|]; [|exact I].
  destruct (Py.contains_char 36 price); [|exact I].
  destruct (LLMStatsScraper._extract_price price) as [f|] eqn:E; [|exact I].
  simpl. eapply extract_price_nonnegative, E.
Qed.

Lemma parse_benchmarks_numbers (cells : list str) (score_index : nat) :
  Forall (fun b => is_number (score b))
         (LLMStatsScraper.parse_benchmarks_from score_index cells).
Proof.
  revert score_index. induction cells as [|cell rest IH];
    intros score_index; simpl; [constructor|].
  destruct (Py.contains_char 37 cell); [|apply IH].
  unfold LLMStatsScraper._extract_score at 1.
  destruct (findall0 _ cell) as [|first others]; [apply IH|].
  destruct (Float.float first) as [f|] eqn:E; [|apply IH].
  constructor; [|apply IH]. simpl. eapply float_is_number, E.
Qed.

(** X22: in every record the rendered-table collector returns, no
    benchmark score is a NaN, and each of the two prices (input and
    output, per million tokens) is absent, [None], or a float that is a
    number and not negative; nothing else is stored under a price key. *)
Theorem leaderboard_records_numbers (json_loads : str -> option json)
    (s : LLMStatsScraper.session) :
  Forall priced_in_numbers
         (default [] (LLMStatsScraper.scrape_leaderboard json_loads s)).
Proof.
  apply scrape_leaderboard_Forall.
  - intros r d H.
    apply row_record_inv in H
      as (texts & model_name & idx & parameters & _ & _ & _ & _ & _ & _ & ->).
    split.
    + eexists. split.
      * unfold LLMStatsScraper.record_of.
        now rewrite !lookup_insert_ne, lookup_insert_eq by discriminate.
      * apply parse_benchmarks_numbers.
    + unfold LLMStatsScraper.record_of.
      constructor; [|constructor; [|constructor]].
      * rewrite !lookup_insert_ne, lookup_insert_eq by discriminate.
        apply price_at_nonnegative.
      * rewrite !lookup_insert_ne, lookup_insert_eq by discriminate.
        apply price_at_nonnegative.
  - intros item d H. unfold LLMStatsScraper._normalize_json_model in H.
    destruct (LLMStatsScraper.json_model_name item); try discriminate H.
    injection H as <-. split.
    + exists []. split; [|constructor].
      now rewrite !lookup_insert_ne, lookup_insert_eq by discriminate.
    + constructor; [|constructor; [|constructor]].
      * rewrite !lookup_insert_ne by discriminate.
        now rewrite lookup_singleton_ne by discriminate.
      * rewrite !lookup_insert_ne by discriminate.
        now rewrite lookup_singleton_ne by discriminate.
Qed.

End NumberFacts.

(** ** The identifiers of the simple orchestrator *)

Section ModelIdFacts.
Context {U : Interp}.

Import LLMStatsScraper ModelIds.

(** An identifier the loop of [fetch_models_from_hf_api] appends: a truthy
    [id] or [modelId] of an entry that passed [_is_likely_open_source]. *)
Lemma id_of_entry_picked (model model_id : json) :
  id_of_entry model = Some (Some model_id) ->
  json_truthy model_id = true
  /\ exists model_data,
       model = JDict model_data
       /\ _is_likely_open_source model_data = Some true
       /\ (json_get (py "id") model_data = Some model_id
           \/ json_get (py "modelId") model_data = Some model_id).
Proof.
  unfold id_of_entry. destruct model as [| | | | | |model_data]; try discriminate.
  cbv zeta.
  destruct (json_truthy (default JNull (json_get (py "id") model_data))) eqn:Ha;
    cbv iota.
  - rewrite Ha. destruct (_is_likely_open_source model_data) as [[|]|] eqn:Ho;
      try discriminate.
    intros [= <-]. split; [exact Ha|]. exists model_data.
    split; [reflexivity|]. split; [exact Ho|]. left.
    destruct (json_get (py "id") model_data); [reflexivity|discriminate Ha].
  - destruct (json_truthy (default JNull (json_get (py "modelId") model_data)))
      eqn:Hb; [|discriminate].
    destruct (_is_likely_open_source model_data) as [[|]|] eqn:Ho;
      try discriminate.
    intros [= <-]. split; [exact Hb|]. exists model_data.
    split; [reflexivity|]. split; [exact Ho|]. right.
    destruct (json_get (py "modelId") model_data); [reflexivity|discriminate Hb].
Qed.

Lemma ids_of_entries_picked (models_data : list json) (model_ids : list json) :
  ids_of_entries models_data = Some model_ids ->
  Forall (fun model_id => exists model,
            model ∈ models_data /\ id_of_entry model = Some (Some model_id))
         model_ids.
Proof.
  revert model_ids. induction models_data as [|model rest IH];
    intros model_ids; simpl.
  - intros [= <-]. constructor.
  - destruct (id_of_entry model) as [a|] eqn:Ea; simpl; [|discriminate].
    destruct (ids_of_entries rest) as [b|]; simpl; [|discriminate].
    intros [= <-].
    assert (Hb : Forall (fun model_id => exists m,
                           m ∈ model :: rest
                           /\ id_of_entry m = Some (Some model_id)) b).
    { eapply Forall_impl; [apply IH; reflexivity|].
      intros model_id (m & Hm & Hid). exists m. split; [|exact Hid].
      apply elem_of_cons. now right. }
    destruct a as [model_id|]; [|exact Hb].
    constructor; [|exact Hb]. exists model. split; [|exact Ea].
    apply elem_of_cons. now left.
Qed.

Lemma ids_of_entries_raises (models_data : list json) :
  Exists (fun model => id_of_entry model = None) models_data ->
  ids_of_entries models_data = None.
Proof.
  induction 1 as [model rest H|model rest _ IH]; simpl.
  - now rewrite H.
  - rewrite IH. now destruct (id_of_entry model).
Qed.

Lemma slice_to_sublist {A} (limit : Z) (l : list A) :
  sublist (slice_to limit l) l.
Proof.
  unfold slice_to. destruct (0 <=? limit)%Z; apply sublist_take.
Qed.

Lemma any_org_found (orgs : list string) (org : string) (model_id : str) :
  In org orgs ->
  Py.contains (py org) model_id = true ->
  any_org orgs (JStr model_id) = Some true.
Proof.
  induction orgs as [|o rest IH]; intros Hin Hc; [destruct Hin|].
  simpl. destruct (Py.contains (py o) model_id) eqn:Ho; [reflexivity|].
  destruct Hin as [->|Hin]; [congruence|]. now apply IH.
Qed.

(** X23: every identifier [fetch_models_from_hf_api] returns is one of
    the curated list, or the truthy [id] (else [modelId]) of an entry of
    the API's answer that passed [_is_likely_open_source]. *)
Theorem api_ids_filtered (answer : option json) (limit : Z) :
  fetch_models_from_hf_api answer limit = List.map JStr _get_fallback_models
  \/ Forall
       (fun model_id =>
          json_truthy model_id = true
          /\ exists (models_data : list json) (model_data : list (str * json)),
               answer = Some (JList models_data)
               /\ JDict model_data ∈ models_data
               /\ _is_likely_open_source model_data = Some true
               /\ (json_get (py "id") model_data = Some model_id
                   \/ json_get (py "modelId") model_data = Some model_id))
       (fetch_models_from_hf_api answer limit).
Proof.
  unfold fetch_models_from_hf_api.
  destruct answer as [models_data|]; [|now left]. simpl.
  destruct (ids_of_answer models_data) as [model_ids|] eqn:E; [|now left].
  right. apply Forall_forall. intros model_id Hin.
  assert (Hin' : model_id ∈ model_ids).
  { eapply elem_of_sublist; [exact Hin|apply slice_to_sublist]. }
  clear Hin.
  destruct models_data as [| | | |s|l|items]; try discriminate E.
  - destruct s; [|discriminate E]. injection E as <-. inversion Hin'.
  - simpl in E. apply ids_of_entries_picked in E.
    rewrite Forall_forall in E.
    destruct (E _ Hin') as (model & Hm & Hid).
    apply id_of_entry_picked in Hid as (Ht & model_data & -> & Ho & Hk).
    split; [exact Ht|]. now exists l, model_data.
  - destruct items; [|discriminate E]. injection E as <-. inversion Hin'.
Qed.

(** X24: one entry on which the loop raises discards the whole answer:
    the curated list is returned, whatever the other entries hold and
    whatever the limit.  The loop raises on an entry that is no dict, on a
    [cardData] that is no dict, on a truthy license that is no string (a
    list of licenses), and on the organization test of an [id] that is
    no string, list or dict. *)
Theorem raising_entry_discards_answer (models_data : list json) (limit : Z) :
  Exists (fun model => id_of_entry model = None) models_data ->
  fetch_models_from_hf_api (Some (JList models_data)) limit
  = List.map JStr _get_fallback_models.
Proof.
  intros H. unfold fetch_models_from_hf_api. simpl.
  now rewrite ids_of_entries_raises.
Qed.

(** X25: with a limit that is not negative, the identifiers returned are
    at most [limit], unless they are the curated list, which is returned
    whole. *)
Theorem api_ids_bounded (answer : option json) (limit : Z) :
  (0 <= limit)%Z ->
  fetch_models_from_hf_api answer limit = List.map JStr _get_fallback_models
  \/ (length (fetch_models_from_hf_api answer limit) <= Z.to_nat limit)%nat.
Proof.
  intros Hl. unfold fetch_models_from_hf_api.
  destruct (answer ≫= ids_of_answer) as [model_ids|]; [|now left].
  right. unfold slice_to.
  replace (0 <=? limit)%Z with true by (symmetry; apply Z.leb_le; exact Hl).
  rewrite length_take. lia.
Qed.

(** X26: an identifier that contains the name of one of the open
    organizations anywhere passes [_is_likely_open_source], whatever the
    license, as long as the license test does not raise. *)
Theorem open_org_substring_passes (model_data : list (str * json))
    (model_id : str) (org : string) :
  In org open_orgs ->
  Py.contains (py org) model_id = true ->
  json_get (py "id") model_data = Some (JStr model_id) ->
  license_is_open model_data <> None ->
  _is_likely_open_source model_data = Some true.
Proof.
  intros Hin Hc Hid Hl. unfold _is_likely_open_source.
  destruct (license_is_open model_data) as [[|]|]; [reflexivity| |congruence].
  rewrite Hid. simpl default. eapply any_org_found; eauto.
Qed.

End ModelIdFacts.

Lemma raising_entry_discards_answer_witness :
  Exists (fun model => ModelIds.id_of_entry (U := ascii_only) model = None)
    [ JDict [ (py "id", JStr (py "acme/foo-7b")) ];
      JDict [ (py "id", JStr (py "acme/bar-7b"));
              (py "cardData",
               JDict [ (py "license", JList [JStr (py "mit")]) ]) ] ]
  /\ ModelIds.fetch_models_from_hf_api (U := ascii_only)
       (Some (JList
          [ JDict [ (py "id", JStr (py "acme/foo-7b")) ];
            JDict [ (py "id", JStr (py "acme/bar-7b"));
                    (py "cardData",
                     JDict [ (py "license", JList [JStr (py "mit")]) ]) ] ]))
       10
     = List.map JStr ModelIds._get_fallback_models.
Proof.
  assert (H : Exists
                (fun model => ModelIds.id_of_entry (U := ascii_only) model = None)
                [ JDict [ (py "id", JStr (py "acme/foo-7b")) ];
                  JDict [ (py "id", JStr (py "acme/bar-7b"));
                          (py "cardData",
                           JDict [ (py "license", JList [JStr (py "mit")]) ]) ] ]).
  { apply Exists_cons_tl, Exists_cons_hd. vm_compute. reflexivity. }
  split; [exact H|].
  apply (raising_entry_discards_answer (U := ascii_only) _ 10 H).
Defined.

Lemma api_ids_bounded_witness :
  (0 <= 1)%Z
  /\ (ModelIds.fetch_models_from_hf_api (U := ascii_only)
        (Some (JList [ JDict [ (py "id", JStr (py "google/gemma-2-9b-it")) ];
                       JDict [ (py "id", JStr (py "Qwen/Qwen2.5-7B-Instruct")) ] ]))
        1
      = List.map JStr ModelIds._get_fallback_models
      \/ (length
            (ModelIds.fetch_models_from_hf_api (U := ascii_only)
               (Some (JList [ JDict [ (py "id", JStr (py "google/gemma-2-9b-it")) ];
                              JDict [ (py "id", JStr (py "Qwen/Qwen2.5-7B-Instruct")) ] ]))
               1)
          <= Z.to_nat 1)%nat).
Proof.
  split; [lia|].
  apply (api_ids_bounded (U := ascii_only)). lia.
Defined.

Lemma open_org_substring_passes_witness :
  In "google"%string ModelIds.open_orgs
  /\ Py.contains (py "google") (py "acme/not-google-7b") = true
  /\ LLMStatsScraper.json_get (py "id")
       [ (py "id", JStr (py "acme/not-google-7b")) ]
     = Some (JStr (py "acme/not-google-7b"))
  /\ ModelIds.license_is_open (U := ascii_only)
       [ (py "id", JStr (py "acme/not-google-7b")) ] <> None
  /\ ModelIds._is_likely_open_source (U := ascii_only)
       [ (py "id", JStr (py "acme/not-google-7b")) ] = Some true.
Proof.
  assert (H1 : In "google"%string ModelIds.open_orgs).
  { unfold ModelIds.open_orgs. simpl. tauto. }
  assert (H2 : Py.contains (py "google") (py "acme/not-google-7b") = true).
  { vm_compute. reflexivity. }
  assert (H3 : LLMStatsScraper.json_get (py "id")
                 [ (py "id", JStr (py "acme/not-google-7b")) ]
               = Some (JStr (py "acme/not-google-7b"))).
  { vm_compute. reflexivity. }
  assert (H4 : ModelIds.license_is_open (U := ascii_only)
                 [ (py "id", JStr (py "acme/not-google-7b")) ] <> None).
  { vm_compute. discriminate. }
  split; [exact H1|]. split; [exact H2|]. split; [exact H3|].
  split; [exact H4|].
  apply (open_org_substring_passes (U := ascii_only) _ _ _ H1 H2 H3 H4).
Defined.

(** ** Reading the snapshot back *)

Section LoadFacts.
Variable json_chunks : output_data -> list str.
Variable json_load : str -> option json.

(** X27: after a save that completed, [load_data] reads the decoding of
    exactly the text that save dumped, whatever the disk held before, for
    both orchestrators; with no file at the path it returns the empty
    snapshot, with no models and a count of zero. *)
Theorem load_after_save (output_file : string) (out : output_data)
    (model_list : list pydict) (now : str) (fs : Store.files) :
  load_data json_load output_file
    (Store.run (dump_ops json_chunks output_file out) fs)
  = json_load (concat (json_chunks out))
  /\ load_data json_load output_file
       (snd (SimpleOrchestrator._save_data json_chunks output_file model_list
               now None fs))
     = json_load
         (concat (json_chunks (SimpleOrchestrator.build_output model_list now)))
  /\ load_data json_load output_file (delete output_file fs)
     = Some (JDict [(py "models", JList []); (py "total_count", JInt 0)]).
Proof.
  unfold SimpleOrchestrator._save_data, Store.run_failing. cbn [snd].
  rewrite !run_dump. unfold load_data.
  rewrite !lookup_insert_eq, lookup_delete_eq. now repeat split.
Qed.

End LoadFacts.
